(** * Query-tag audit of Tableau workbooks: a model of [main.py]

    The development embeds the audit script in Rocq.  Python values are
    modelled as the script uses them: [str] as a list of Unicode code
    points, [None]-able attributes as [option], the parsed JSON
    configuration as an insertion-ordered dictionary, sets of tags as
    [gset].  Effects (the catalog service, the parser of workbook files,
    the file system, the clock, the log and standard output) go through a
    small monad that threads a world, records the events emitted and
    propagates Python exceptions. *)

From Stdlib Require Import String Ascii NArith ZArith List Bool Lia.
From stdpp Require Import base list gmap.
Import ListNotations.

Local Open Scope N_scope.
Local Set Warnings "-register-all".

(** ** Python strings *)

(** A Python [str] is a sequence of Unicode code points. *)
Definition str := list N.

(** [py "abc"] is the [str] written ["abc"] in the source (ASCII literals). *)
Definition py (s : string) : str :=
  List.map N_of_ascii (list_ascii_of_string s).

Module Unicode.

(** The part of the Unicode character database that is not fixed here:
    the full upper-case mapping of the code points from 128 on, as
    [str.upper] applies it (one code point may map to several, as
    U+00DF does).  The ASCII range is defined below. *)
Record tables := mk_tables { upper_non_ascii : N -> list N }.

(** [a]..[z] are 97..122, [A]..[Z] are 65..90. *)
Definition ascii_upper (c : N) : N :=
  if (97 <=? c) && (c <=? 122) then c - 32 else c.

Definition to_upper_full (U : tables) (c : N) : list N :=
  if c <? 128 then [ascii_upper c] else upper_non_ascii U c.

(** The code points [str.strip] removes when called without argument
    (CPython's [_PyUnicode_IsWhitespace]). *)
Definition is_whitespace (c : N) : bool :=
  ((9 <=? c) && (c <=? 13)) || ((28 <=? c) && (c <=? 32))
  || (c =? 133) || (c =? 160) || (c =? 5760)
  || ((8192 <=? c) && (c <=? 8202))
  || (c =? 8232) || (c =? 8233) || (c =? 8239) || (c =? 8287)
  || (c =? 12288).

End Unicode.

Section Str.

Variable U : Unicode.tables.

(** [s.upper()] *)
Definition upper (s : str) : str := flat_map (Unicode.to_upper_full U) s.

Fixpoint drop_while (p : N -> bool) (s : str) : str :=
  match s with
  | [] => []
  | c :: s' => if p c then drop_while p s' else s
  end.

Fixpoint take_while (p : N -> bool) (s : str) : str :=
  match s with
  | [] => []
  | c :: s' => if p c then c :: take_while p s' else []
  end.

(** [s.strip()]: the slice left after skipping white space from the left
    end and then from the right end. *)
Definition lstrip (s : str) : str := drop_while Unicode.is_whitespace s.
Definition rstrip (s : str) : str := rev (drop_while Unicode.is_whitespace (rev s)).
Definition strip (s : str) : str := rstrip (lstrip s).

(** [s.startswith(p)] *)
Fixpoint startswith (s p : str) {struct p} : bool :=
  match p, s with
  | [], _ => true
  | _ :: _, [] => false
  | a :: p', b :: s' => (a =? b) && startswith s' p'
  end.

(** [s.endswith(p)] *)
Definition endswith (s p : str) : bool := startswith (rev s) (rev p).

End Str.

(** ** Exceptions and results *)

Inductive exn :=
| AttributeError
| TypeError
| KeyError
| ValueError
| FileNotFoundError
| UnicodeDecodeError
| JSONDecodeError
| TabError
| ServerResponseError (code : N)
| OtherError (tag : N).

Inductive result (A : Type) :=
| Ok (a : A)
| Raise (e : exn).
Arguments Ok {A} a.
Arguments Raise {A} e.

(** ** The compliance predicate *)

Section Predicate.

Variable U : Unicode.tables.

Definition query_tag_text : str := py "ALTER SESSION SET QUERY_TAG".

(** [init_sql_has_query_tag(init_sql)].  The argument is what
    [Connection.initial_sql] holds: a [str], or [None] when the
    connection has no initial SQL.  [None] has no method [upper]. *)
Definition init_sql_has_query_tag (init_sql : option str) : result bool :=
  match init_sql with
  | None => Raise AttributeError
  | Some s => Ok (startswith (strip (upper U s)) query_tag_text)
  end.

End Predicate.

(** ** Python values read from JSON *)

(** What [json.load] returns.  A JSON object becomes a [dict], kept here
    in insertion order.  Numbers are the integers; JSON reals are outside
    the model. *)
Inductive json :=
| JNull
| JBool (b : bool)
| JInt (n : Z)
| JStr (s : str)
| JArr (l : list json)
| JObj (kv : list (str * json)).

(** [a == b] on two [str]. *)
Fixpoint str_eqb (a b : str) : bool :=
  match a, b with
  | [], [] => true
  | x :: a', y :: b' => (x =? y) && str_eqb a' b'
  | _, _ => false
  end.

(** [v == s] where [v] is a [str] or [None] and [s] a [str]. *)
Definition opt_str_eqb (v : option str) (s : str) : bool :=
  match v with
  | Some x => str_eqb x s
  | None => false
  end.

Fixpoint dict_get (kv : list (str * json)) (key : str) : option json :=
  match kv with
  | [] => None
  | (k, v) :: kv' => if str_eqb k key then Some v else dict_get kv' key
  end.

(** [d[key] = v] on a [dict]: the value of a present key is replaced in
    place, a new key goes last. *)
Fixpoint dict_set (kv : list (str * json)) (key : str) (v : json) : list (str * json) :=
  match kv with
  | [] => [(key, v)]
  | (k, x) :: kv' =>
      if str_eqb k key then (k, v) :: kv' else (k, x) :: dict_set kv' key v
  end.

(** [config[key]] *)
Definition py_getitem (config : json) (key : str) : result json :=
  match config with
  | JObj kv =>
      match dict_get kv key with
      | Some v => Ok v
      | None => Raise KeyError
      end
  | _ => Raise TypeError
  end.

(** [config[key] = v] *)
Definition py_setitem (config : json) (key : str) (v : json) : result json :=
  match config with
  | JObj kv => Ok (JObj (dict_set kv key v))
  | _ => Raise TypeError
  end.

(** [v * k] for an [int] literal [k]: product of integers ([bool] is an
    [int]), repetition of a [str] or a [list], [TypeError] otherwise. *)
Definition py_mul (v : json) (k : Z) : result json :=
  match v with
  | JInt n => Ok (JInt (n * k))
  | JBool b => Ok (JInt ((if b then 1 else 0) * k))
  | JStr s => Ok (JStr (List.concat (repeat s (Z.to_nat k))))
  | JArr l => Ok (JArr (List.concat (repeat l (Z.to_nat k))))
  | JNull | JObj _ => Raise TypeError
  end.

(** ** Dates *)

(** A naive [datetime.datetime], as [datetime.datetime.now()] returns it:
    the fields of the local wall-clock time. *)
Record datetime := mk_datetime {
  year : N; month : N; day : N;
  hour : N; minute : N; second : N;
  microsecond : N }.

(** The [width] low decimal digits of [n], most significant first. *)
Fixpoint digits (width : nat) (n : N) : str :=
  match width with
  | O => []
  | S w => digits w (n / 10) ++ [48 + n mod 10]
  end.

(** [%Y], as the C library of Linux prints it: the year in decimal,
    without padding (the years of a [datetime] are 1 to 9999). *)
Definition year_digits (y : N) : str :=
  if y <? 10 then digits 1 y
  else if y <? 100 then digits 2 y
  else if y <? 1000 then digits 3 y
  else digits 4 y.

(** The directives the script uses. [%Y] is the year with century, the
    others are zero-padded on two digits. *)
Definition directive (d : datetime) (c : N) : str :=
  if c =? 89 then year_digits (year d)
  else if c =? 109 then digits 2 (month d)
  else if c =? 100 then digits 2 (day d)
  else if c =? 72 then digits 2 (hour d)
  else if c =? 77 then digits 2 (minute d)
  else if c =? 83 then digits 2 (second d)
  else [37; c].

(** [d.strftime(fmt)] *)
Fixpoint strftime (d : datetime) (fmt : str) : str :=
  match fmt with
  | [] => []
  | c :: rest =>
      if c =? 37 then
        match rest with
        | [] => [c]
        | x :: rest' => directive d x ++ strftime d rest'
        end
      else c :: strftime d rest
  end.

(** ** The objects of the two client libraries *)

(** A tag of a workbook item.  The script takes the tag to add from the
    process environment, where it may be unset ([None]). *)
Definition tag := option str.

(** [TSC.WorkbookItem], as far as the script reads and writes it.  The
    connections [populate_connections] attaches to the item are consumed
    inside the loop that fetches them and are kept out of the record. *)
Record WorkbookItem := mk_wb {
  wb_id : str;
  wb_name : str;
  wb_tags : gset tag }.

(** [TSC.ConnectionItem]: a connection of a workbook as the server lists it. *)
Record ConnectionItem := mk_conn_item { connection_type : str }.

(** [tableaudocumentapi.Connection]: a connection read from a downloaded
    file.  Its attributes come from XML attributes that may be missing. *)
Record Connection := mk_conn {
  dbclass : option str;
  dbname : option str;
  initial_sql : option str }.

(** [tableaudocumentapi.Datasource] *)
Record Datasource := mk_ds { connections : list Connection }.

(** The operators of [TSC.RequestOptions.Operator] the script uses. *)
Inductive operator := LessThanOrEqual | GreaterThanOrEqual.

(** A [TSC.Filter]. *)
Record Filter := mk_filter {
  f_field : str;
  f_operator : operator;
  f_value : json }.

(** [TSC.Filter(field, operator, value)]: a [list] is accepted as value
    only with the operator [in], which is neither of the two above. *)
Definition tsc_filter (field : str) (op : operator) (value : json)
  : result Filter :=
  match value with
  | JArr _ => Raise ValueError
  | _ => Ok (mk_filter field op value)
  end.

(** [TSC.PersonalAccessTokenAuth(token_name, personal_access_token,
    site_id)]: the constructor refuses a missing name and a missing
    value. *)
Definition personal_access_token_auth
  (token_name personal_access_token site_id : option str) : result unit :=
  match token_name, personal_access_token with
  | Some _, Some _ => Ok tt
  | _, _ => Raise TabError
  end.

(** [TSC.RequestOptions]: the filters added, in the order of the calls. *)
Record RequestOptions := mk_req { req_filters : list Filter }.

(** [server.workbooks] and [server.datasources] *)
Inductive endpoint := Workbooks | Datasources.

(** What the server answers to a [TSC.Pager], which asks for the
    workbooks one page at a time and for a page only when the loop that
    iterates it has used up the page before: a request is answered with
    the last page, with a page that is not the last, or it raises. *)
Inductive listing :=
| LastPage (items : list WorkbookItem)
| MorePages (items : list WorkbookItem) (rest : listing)
| BrokenPage (e : exn).

(** ** The world *)

(** The lines written through [logger.info], by call site, with the
    values formatted into them. *)
Inductive log_record :=
| LogCreatingSession
| LogDownloading (resource_type resource_id : str)
| LogGettingWorkbooks (size : json)
| LogGettingConnections (filename dbclass : str)
| LogFiltering
| LogWorkbookConnections (name : str)
| LogFoundSnowflake (name : str)
| LogUpdatingConfig
| LogAddingTag (t : tag) (name : str)
| LogDownloadingWorkbook (name : str)
| LogQueryTagFound (dbname : option str)
| LogQueryTagNotFound (dbname : option str)
| LogUpdatedTags (tags : gset tag)
| LogUpdatedConfigDate (date : str).

(** What a run does to the outside, in order.  [EvSignIn] is the session
    asked of the library: the server of the address and the sign-in with
    the token.  [EvQuery] is one request for a page of workbooks, under
    the filters of the request options. *)
Inductive event :=
| EvLog (r : log_record)
| EvPrint (text : str)
| EvPrintExn (e : exn)
| EvMakedirs (path : str)
| EvSignIn (pat_name pat_value site_id server_address : option str)
| EvQuery (req : RequestOptions)
| EvPopulate (wb : WorkbookItem)
| EvDownload (ep : endpoint) (resource_id : str)
| EvParse (filename : str)
| EvUpdate (wb : WorkbookItem)
| EvRemove (filename : str)
| EvWriteConfig (config : json).

(** The file [workbook_config.json]: missing, bytes that are not text in
    the encoding [open] reads with, text that is not JSON, or JSON. *)
Inductive file_state :=
| FileAbsent
| FileUndecodable
| FileGarbage
| FileJson (j : json).

(** The part of the file system the script touches. *)
Record World := mk_world {
  config_file : file_state;
  content_dir : bool;
  files : gset str }.

(** The collaborators of the script: the process environment, the
    catalog service behind [tableauserverclient], the parser of
    [tableaudocumentapi] and the clock.  Each answers a request, or
    raises. *)
Record Env := mk_env {
  env_getenv : str -> option str;
  (** the session of a token (name, value, site) on the server of an
      address: [TSC.Server(server_address)], its settings and
      [server.auth.sign_in] *)
  env_sign_in : option str -> option str -> option str -> option str -> result unit;
  (** the pages the server returns for the workbooks of a request *)
  env_pager : RequestOptions -> listing;
  env_connections : WorkbookItem -> result (list ConnectionItem);
  (** the path of the file a download has written *)
  env_download : endpoint -> str -> result str;
  env_workbook : str -> result (list Datasource);
  env_datasource : str -> result Datasource;
  env_update : WorkbookItem -> result unit;
  (** [datetime.datetime.now()]: the wall-clock time of the local zone *)
  env_now : datetime;
  (** the same instant in UTC, which the script does not ask for *)
  env_utcnow : datetime }.

(** ** The monad of the script *)

Record outcome (A : Type) := mk_outcome {
  res : result A;
  world : World;
  out : list event }.
Arguments mk_outcome {A} res world out.
Arguments res {A} o.
Arguments world {A} o.
Arguments out {A} o.

Definition M (A : Type) := World -> outcome A.

Definition ret {A} (a : A) : M A := fun w => mk_outcome (Ok a) w [].

(** Sequencing: an exception stops the run; what was done before it stays
    done. *)
Definition bind {A B} (m : M A) (f : A -> M B) : M B :=
  fun w =>
    let o := m w in
    match res o with
    | Ok a =>
        let o' := f a (world o) in
        mk_outcome (res o') (world o') (out o ++ out o')
    | Raise e => mk_outcome (Raise e) (world o) (out o)
    end.

Definition raise {A} (e : exn) : M A := fun w => mk_outcome (Raise e) w [].

Definition emit (ev : event) : M unit := fun w => mk_outcome (Ok tt) w [ev].

Definition lift {A} (r : result A) : M A := fun w => mk_outcome r w [].

(** [try: m except ...: handler] *)
Definition try_except {A} (m : M A) (handler : exn -> option (M A)) : M A :=
  fun w =>
    let o := m w in
    match res o with
    | Ok a => o
    | Raise e =>
        match handler e with
        | Some h =>
            let o' := h (world o) in
            mk_outcome (res o') (world o') (out o ++ out o')
        | None => o
        end
    end.

Declare Scope py_scope.
Delimit Scope py_scope with py.
Notation "x <- m ;; k" := (bind m (fun x => k))
  (at level 100, m at next level, right associativity) : py_scope.
Notation "m ;; k" := (bind m (fun _ => k))
  (at level 100, right associativity) : py_scope.
Local Open Scope py_scope.

Definition log (r : log_record) : M unit := emit (EvLog r).

(** [for x in l: body x] *)
Fixpoint for_each {A} (l : list A) (body : A -> M unit) : M unit :=
  match l with
  | [] => ret tt
  | x :: l' => body x ;; for_each l' body
  end.

(** ** The script *)

Section Script.

Variable U : Unicode.tables.
Variable E : Env.

(** [with open("workbook_config.json") as f: config = json.load(f)] *)
Definition load_config : M json :=
  fun w =>
    match config_file w with
    | FileAbsent => mk_outcome (Raise FileNotFoundError) w []
    | FileUndecodable => mk_outcome (Raise UnicodeDecodeError) w []
    | FileGarbage => mk_outcome (Raise JSONDecodeError) w []
    | FileJson j => mk_outcome (Ok j) w []
    end.

(** [with open("workbook_config.json", "w") as f: json.dump(config, f, indent=4)] *)
Definition dump_config (config : json) : M unit :=
  fun w =>
    mk_outcome (Ok tt)
      (mk_world (FileJson config) (content_dir w) (files w))
      [EvWriteConfig config].

Definition create_tableau_session
  (pat_name pat_value server_address site_id : option str) : M unit :=
  log LogCreatingSession ;;
  lift (personal_access_token_auth pat_name pat_value site_id) ;;
  emit (EvSignIn pat_name pat_value site_id server_address) ;;
  lift (env_sign_in E pat_name pat_value site_id server_address).

(** The download writes a file and returns its path. *)
Definition endpoint_download (ep : endpoint) (resource_id : str) : M str :=
  emit (EvDownload ep resource_id) ;;
  fun w =>
    match env_download E ep resource_id with
    | Ok path =>
        mk_outcome (Ok path)
          (mk_world (config_file w) (content_dir w) ({[ path ]} ∪ files w)) []
    | Raise e => mk_outcome (Raise e) w []
    end.

Definition download_resource (resource_id resource_type : str) : M str :=
  log (LogDownloading resource_type resource_id) ;;
  if negb (str_eqb resource_type (py "workbook")
           || str_eqb resource_type (py "datasource"))
  then raise ValueError
  else
    let endpoint :=
      if str_eqb resource_type (py "workbook") then Workbooks else Datasources in
    try_except (endpoint_download endpoint resource_id)
      (fun e =>
         match e with
         | ServerResponseError _ => Some (emit (EvPrintExn e) ;; raise e)
         | _ => None
         end).

(** The pager over [server.workbooks] is built here, from the request
    options; it sends its requests when it is iterated. *)
Definition get_workbooks_from_config : M RequestOptions :=
  config <- load_config ;;
  size <- lift (py_getitem config (py "content_size")) ;;
  date_checkpoint <- lift (py_getitem config (py "date_checkpoint")) ;;
  size_kb <- lift (py_mul size 1024) ;;
  size_to_bytes <- lift (py_mul size_kb 1024) ;;
  log (LogGettingWorkbooks size) ;;
  size_filter <- lift (tsc_filter (py "size") LessThanOrEqual size_to_bytes) ;;
  date_filter <-
    lift (tsc_filter (py "updatedAt") GreaterThanOrEqual date_checkpoint) ;;
  ret (mk_req [ size_filter; date_filter ]).

(** The inner loop of [get_connections_for_dbclass]. *)
Fixpoint collect_connections
  (ds_connections : list Connection) (target : str)
  (dbclass_connections : list Connection) : list Connection :=
  match ds_connections with
  | [] => dbclass_connections
  | connection :: rest =>
      collect_connections rest target
        (if opt_str_eqb (dbclass connection) target
         then dbclass_connections ++ [connection]
         else dbclass_connections)
  end.

(** The outer loop of [get_connections_for_dbclass]. *)
Fixpoint collect_datasources
  (datasources : list Datasource) (target : str)
  (dbclass_connections : list Connection) : list Connection :=
  match datasources with
  | [] => dbclass_connections
  | ds :: rest =>
      collect_datasources rest target
        (collect_connections (connections ds) target dbclass_connections)
  end.

Definition get_connections_for_dbclass (filename target : str)
  : M (list Connection) :=
  log (LogGettingConnections filename target) ;;
  let dbclass_connections := [] in
  if endswith filename (py ".twb") || endswith filename (py ".twbx") then
    emit (EvParse filename) ;;
    datasources <- lift (env_workbook E filename) ;;
    ret (collect_datasources datasources target dbclass_connections)
  else if endswith filename (py ".tds") || endswith filename (py ".tdsx") then
    emit (EvParse filename) ;;
    resource <- lift (env_datasource E filename) ;;
    ret (collect_datasources [resource] target dbclass_connections)
  else
    emit (EvPrint (py "Unsupported file type")) ;;
    ret dbclass_connections.

(** The loop over [wb.connections], left at the first Snowflake
    connection. *)
Fixpoint scan_connections
  (wb : WorkbookItem) (conns : list ConnectionItem)
  (wbs_with_sf_connections : list WorkbookItem) : M (list WorkbookItem) :=
  match conns with
  | [] => ret wbs_with_sf_connections
  | connection :: rest =>
      if str_eqb (connection_type connection) (py "snowflake") then
        log (LogFoundSnowflake (wb_name wb)) ;;
        ret (wbs_with_sf_connections ++ [wb])
      else scan_connections wb rest wbs_with_sf_connections
  end.

(** The loop over the workbooks the pager yields. *)
Fixpoint scan_workbooks
  (workbooks : list WorkbookItem)
  (wbs_with_sf_connections : list WorkbookItem) : M (list WorkbookItem) :=
  match workbooks with
  | [] => ret wbs_with_sf_connections
  | wb :: rest =>
      log (LogWorkbookConnections (wb_name wb)) ;;
      emit (EvPopulate wb) ;;
      conns <- lift (env_connections E wb) ;;
      acc <- scan_connections wb conns wbs_with_sf_connections ;;
      scan_workbooks rest acc
  end.

(** The loop over the pager: a request is sent for a page, the loop
    runs over the workbooks of the page, and the next page is asked for
    when the loop comes back for a workbook and more pages remain. *)
Fixpoint scan_pages
  (workbooks : RequestOptions) (pages : listing)
  (wbs_with_sf_connections : list WorkbookItem) : M (list WorkbookItem) :=
  emit (EvQuery workbooks) ;;
  match pages with
  | LastPage items => scan_workbooks items wbs_with_sf_connections
  | MorePages items rest =>
      acc <- scan_workbooks items wbs_with_sf_connections ;;
      scan_pages workbooks rest acc
  | BrokenPage e => raise e
  end.

(** [workbooks] is the pager, given by the request options it was built
    from. *)
Definition filter_wbs_with_snowflake_connections (workbooks : RequestOptions)
  : M (list WorkbookItem) :=
  log LogFiltering ;;
  scan_pages workbooks (env_pager E workbooks) [].

Definition strftime_format : str := py "%Y-%m-%dT%H:%M:%SZ".

Definition update_workbook_config_with_date_checkpoint : M str :=
  log LogUpdatingConfig ;;
  config <- load_config ;;
  let now := env_now E in
  let formatted_date := strftime now strftime_format in
  config' <- lift (py_setitem config (py "date_checkpoint") (JStr formatted_date)) ;;
  dump_config config' ;;
  ret formatted_date.

Definition add_workbook_tag (wb : WorkbookItem) (t : tag) : M (gset tag) :=
  log (LogAddingTag t (wb_name wb)) ;;
  let wb' := mk_wb (wb_id wb) (wb_name wb) ({[ t ]} ∪ wb_tags wb) in
  emit (EvUpdate wb') ;;
  lift (env_update E wb') ;;
  ret (wb_tags wb').

(** [os.remove(path)] *)
Definition os_remove (path : str) : M unit :=
  fun w =>
    if decide (path ∈ files w) then
      mk_outcome (Ok tt)
        (mk_world (config_file w) (content_dir w) (files w ∖ {[ path ]}))
        [EvRemove path]
    else mk_outcome (Raise FileNotFoundError) w [].

(** [if not os.path.exists("content"): os.makedirs("content")] *)
Definition ensure_content_dir : M unit :=
  fun w =>
    if content_dir w then mk_outcome (Ok tt) w []
    else
      mk_outcome (Ok tt) (mk_world (config_file w) true (files w))
        [EvMakedirs (py "content")].

(** The loop over the Snowflake connections of one workbook: the number
    of connections whose initial SQL lacks the query tag. *)
Fixpoint count_missing_query_tag
  (snowflake_connections : list Connection) (query_tag_count : nat) : M nat :=
  match snowflake_connections with
  | [] => ret query_tag_count
  | sf_connection :: rest =>
      has_query_tag <- lift (init_sql_has_query_tag U (initial_sql sf_connection)) ;;
      let connection_dbname := dbname sf_connection in
      if has_query_tag then
        log (LogQueryTagFound connection_dbname) ;;
        count_missing_query_tag rest query_tag_count
      else
        log (LogQueryTagNotFound connection_dbname) ;;
        count_missing_query_tag rest (query_tag_count + 1)
  end.

(** [if query_tag_count > 0: ...] *)
Definition tag_if_missing (TABLEAU_TAG : tag) (wb : WorkbookItem)
  (query_tag_count : nat) : M unit :=
  if (0 <? query_tag_count)%nat then
    updated_wb_tags <- add_workbook_tag wb TABLEAU_TAG ;;
    log (LogUpdatedTags updated_wb_tags)
  else ret tt.

(** The body of the loop of [main] over the workbooks to audit. *)
Definition audit_workbook (TABLEAU_TAG : tag) (wb : WorkbookItem) : M unit :=
  let workbook_name := wb_name wb in
  log (LogDownloadingWorkbook workbook_name) ;;
  resource_filename <- download_resource (wb_id wb) (py "workbook") ;;
  snowflake_connections <-
    get_connections_for_dbclass resource_filename (py "snowflake") ;;
  query_tag_count <- count_missing_query_tag snowflake_connections 0 ;;
  tag_if_missing TABLEAU_TAG wb query_tag_count ;;
  os_remove resource_filename.

Definition main : M unit :=
  ensure_content_dir ;;
  let TABLEAU_TAG := env_getenv E (py "TABLEAU_TAG") in
  create_tableau_session
    (env_getenv E (py "PAT_NAME"))
    (env_getenv E (py "PAT_VALUE"))
    (env_getenv E (py "SERVER_ADDRESS"))
    (env_getenv E (py "SITE_ID")) ;;
  workbooks_to_check <- get_workbooks_from_config ;;
  wbs_with_sf_connections <-
    filter_wbs_with_snowflake_connections workbooks_to_check ;;
  for_each wbs_with_sf_connections (audit_workbook TABLEAU_TAG) ;;
  updated_config_date <- update_workbook_config_with_date_checkpoint ;;
  log (LogUpdatedConfigDate updated_config_date).

End Script.

(** ** Reading a run *)

(** What an event contributes to each reading of a run. *)
Definition update_of (e : event) : list WorkbookItem :=
  match e with EvUpdate wb => [wb] | _ => [] end.

Definition download_of (e : event) : list str :=
  match e with EvDownload Workbooks i => [i] | _ => [] end.

Definition populate_of (e : event) : list WorkbookItem :=
  match e with EvPopulate wb => [wb] | _ => [] end.

Definition write_of (e : event) : list json :=
  match e with EvWriteConfig c => [c] | _ => [] end.

Definition query_of (e : event) : list RequestOptions :=
  match e with EvQuery r => [r] | _ => [] end.

Definition print_of (e : event) : list str :=
  match e with EvPrint s => [s] | _ => [] end.

(** The workbooks sent to the catalog's update operation, in order. *)
Definition updates (evs : list event) : list WorkbookItem := flat_map update_of evs.

(** The identifiers of the workbooks downloaded, in order. *)
Definition downloads (evs : list event) : list str := flat_map download_of evs.

(** The workbooks whose live connections were fetched, in order. *)
Definition populated (evs : list event) : list WorkbookItem := flat_map populate_of evs.

(** The configurations written to [workbook_config.json], in order. *)
Definition writes (evs : list event) : list json := flat_map write_of evs.

(** The requests sent to list workbooks, in order. *)
Definition queries (evs : list event) : list RequestOptions := flat_map query_of evs.

(** The texts printed on standard output, in order. *)
Definition printed (evs : list event) : list str := flat_map print_of evs.

(** ** The properties, in the words of the design *)

Section Design.

Variable U : Unicode.tables.

(** The text [t] is [s] upper-cased with the white space at both ends
    trimmed away: the upper-cased text is [t] between two runs of white
    space, and [t] neither starts nor ends with white space. *)
Definition normalized (s t : str) : Prop :=
  exists l r,
    upper U s = l ++ t ++ r /\
    Forall (fun c => Unicode.is_whitespace c = true) l /\
    Forall (fun c => Unicode.is_whitespace c = true) r /\
    (forall c t', t = c :: t' -> Unicode.is_whitespace c = false) /\
    (forall c t', t = t' ++ [c] -> Unicode.is_whitespace c = false).

(** The normalized text begins with the fixed literal. *)
Definition is_compliant (s : str) : Prop :=
  exists t rest, normalized s t /\ t = query_tag_text ++ rest.

(** A connection counts as non-compliant when it has no initial SQL or
    when its initial SQL does not pass the predicate. *)
Definition non_compliant (c : Connection) : bool :=
  match initial_sql c with
  | None => true
  | Some s => negb (startswith (strip (upper U s)) query_tag_text)
  end.

Definition non_compliant_count (conns : list Connection) : nat :=
  length (List.filter non_compliant conns).

End Design.

(** The connections of a package in encounter order, then those of the
    target class. *)
Definition flatten_then_filter (datasources : list Datasource) (target : str)
  : list Connection :=
  List.filter (fun c => opt_str_eqb (dbclass c) target)
    (flat_map connections datasources).

Definition is_workbook_package (filename : str) : bool :=
  endswith filename (py ".twb") || endswith filename (py ".twbx").

Definition is_datasource_package (filename : str) : bool :=
  endswith filename (py ".tds") || endswith filename (py ".tdsx").

(** The workbook tagged for remediation. *)
Definition tagged (wb : WorkbookItem) (t : tag) : WorkbookItem :=
  mk_wb (wb_id wb) (wb_name wb) ({[ t ]} ∪ wb_tags wb).

(** The test of the loop over the live connections. *)
Definition is_snowflake (c : ConnectionItem) : bool :=
  str_eqb (connection_type c) (py "snowflake").

(** Whether the server lists a Snowflake connection for the workbook. *)
Definition has_snowflake_connection (E : Env) (wb : WorkbookItem) : bool :=
  match env_connections E wb with
  | Ok conns => existsb is_snowflake conns
  | Raise _ => false
  end.

(** The workbooks of a listing, in the order the pager yields them. *)
Fixpoint listed (pages : listing) : list WorkbookItem :=
  match pages with
  | LastPage items => items
  | MorePages items rest => items ++ listed rest
  | BrokenPage _ => []
  end.

(** The exception that ends a listing early, if one does. *)
Fixpoint listing_error (pages : listing) : option exn :=
  match pages with
  | LastPage _ => None
  | MorePages _ rest => listing_error rest
  | BrokenPage e => Some e
  end.

(** The number of requests a listing takes when it is read to its end:
    one per page, and one more when a request raises. *)
Fixpoint requests (pages : listing) : nat :=
  match pages with
  | LastPage _ => 1
  | MorePages _ rest => S (requests rest)
  | BrokenPage _ => 1
  end.

(** The datetimes the clock can return, from the year 1000 on, where
    [%Y] has four digits. *)
Definition datetime_ok (d : datetime) : bool :=
  (1000 <=? year d) && (year d <=? 9999)
  && (1 <=? month d) && (month d <=? 12)
  && (1 <=? day d) && (day d <=? 31)
  && (hour d <? 24) && (minute d <? 60) && (second d <? 60)
  && (microsecond d <? 1000000).

(** The instant truncated to the second. *)
Definition truncate_second (d : datetime) : datetime :=
  mk_datetime (year d) (month d) (day d) (hour d) (minute d) (second d) 0.

Definition is_digit (c : N) : bool := (48 <=? c) && (c <=? 57).

(** The number a run of decimal digits denotes. *)
Fixpoint number_from (acc : N) (ds : str) : option N :=
  match ds with
  | [] => Some acc
  | c :: ds' => if is_digit c then number_from (10 * acc + (c - 48)) ds' else None
  end.

Definition number (ds : str) : option N := number_from 0 ds.

(** Reading a text of the shape [YYYY-MM-DDTHH:MM:SSZ]. *)
Definition parse_iso_z (s : str) : option datetime :=
  match s with
  | [y1; y2; y3; y4; a; m1; m2; b; d1; d2; t; h1; h2; c; n1; n2; e; s1; s2; z] =>
      if (a =? 45) && (b =? 45) && (t =? 84) && (c =? 58) && (e =? 58) && (z =? 90)
      then
        match number [y1; y2; y3; y4], number [m1; m2], number [d1; d2],
              number [h1; h2], number [n1; n2], number [s1; s2] with
        | Some y, Some m, Some d, Some h, Some n, Some sec =>
            Some (mk_datetime y m d h n sec 0)
        | _, _, _, _, _, _ => None
        end
      else None
  | _ => None
  end.

(** The catalog's reading of a request: a workbook is listed when it
    satisfies every filter.  [attr] gives the attributes of the workbook
    by field name, [le] is the order of the values of a field. *)
Definition filter_holds (le : json -> json -> bool) (attr : str -> json)
  (f : Filter) : bool :=
  match f_operator f with
  | LessThanOrEqual => le (attr (f_field f)) (f_value f)
  | GreaterThanOrEqual => le (f_value f) (attr (f_field f))
  end.

Definition request_accepts (le : json -> json -> bool) (attr : str -> json)
  (req : RequestOptions) : bool :=
  forallb (filter_holds le attr) (req_filters req).

(** ** Computations that leave a reading of the run empty *)

(** [m] emits no event that [f] reads. *)
Definition emits_none {X A} (f : event -> list X) (m : M A) : Prop :=
  forall w, flat_map f (out (m w)) = [].

(** A reading that ignores the log. *)
Definition ignores_log {X} (f : event -> list X) : Prop :=
  forall r, f (EvLog r) = [].

(** [m] leaves [workbook_config.json] as it is. *)
Definition keeps_config {A} (m : M A) : Prop :=
  forall w, config_file (world (m w)) = config_file w.

(** [m] leaves the file system as it is. *)
Definition keeps_world {A} (m : M A) : Prop :=
  forall w, world (m w) = w.

(** When [m] raises, it has not written the configuration. *)
Definition fails_clean {A} (m : M A) : Prop :=
  forall w e, res (m w) = Raise e ->
    writes (out (m w)) = [] /\ config_file (world (m w)) = config_file w.

(** [l] is the beginning of [l']. *)
Definition starts {X} (l l' : list X) : Prop := exists rest, l' = l ++ rest.

(** ** A sample run *)

(** A catalog of three workbooks, listed on two pages: [Sales] has two
    Snowflake connections, one of them without the query tag; [Notes]
    downloads as a file of an unknown type; [Local] has no Snowflake
    connection.  The machine runs in UTC. *)
Module Sample.

(** No upper-case mapping outside ASCII. *)
Definition tables : Unicode.tables := Unicode.mk_tables (fun c => [c]).

Definition sales : WorkbookItem := mk_wb (py "wb-1") (py "Sales") ∅.
Definition notes : WorkbookItem := mk_wb (py "wb-2") (py "Notes") ∅.
Definition local : WorkbookItem := mk_wb (py "wb-3") (py "Local") ∅.

Definition sales_datasources : list Datasource :=
  [ mk_ds [ mk_conn (Some (py "snowflake")) (Some (py "PROD")) (Some (py "SELECT 1"));
            mk_conn (Some (py "postgres")) (Some (py "pg")) None ];
    mk_ds [ mk_conn (Some (py "snowflake")) (Some (py "DEV"))
              (Some (py "  alter session set query_tag = 'x'  ")) ] ].

Definition remediation_tag : str := py "missing-query-tag".

Definition now : datetime := mk_datetime 2024 6 2 3 4 5 678901.

Definition env : Env :=
  mk_env
    (fun name =>
       if str_eqb name (py "TABLEAU_TAG") then Some remediation_tag
       else Some (py "secret"))
    (fun _ _ _ _ => Ok tt)
    (fun _ => MorePages [sales; notes] (LastPage [local]))
    (fun wb =>
       if str_eqb (wb_id wb) (py "wb-3")
       then Ok [mk_conn_item (py "postgres")]
       else Ok [mk_conn_item (py "postgres"); mk_conn_item (py "snowflake");
                mk_conn_item (py "snowflake")])
    (fun _ i =>
       if str_eqb i (py "wb-1") then Ok (py "content/Sales.twbx")
       else Ok (py "content/Notes.txt"))
    (fun _ => Ok sales_datasources)
    (fun _ => Raise (OtherError 0))
    (fun _ => Ok tt)
    now now.

Definition config : list (str * json) :=
  [ (py "content_size", JInt 50);
    (py "date_checkpoint", JStr (py "2024-01-01T00:00:00Z")) ].

Definition start : World := mk_world (FileJson (JObj config)) false ∅.

(** The same catalog when it lists nothing. *)
Definition empty_env : Env :=
  mk_env (env_getenv env) (env_sign_in env) (fun _ => LastPage [])
    (env_connections env) (env_download env) (env_workbook env)
    (env_datasource env) (env_update env) now now.

(** The same catalog when the download of [Notes] is refused. *)
Definition refusing_env : Env :=
  mk_env (env_getenv env) (env_sign_in env) (env_pager env)
    (env_connections env)
    (fun _ i =>
       if str_eqb i (py "wb-1") then Ok (py "content/Sales.twbx")
       else Raise (ServerResponseError 403))
    (env_workbook env) (env_datasource env) (env_update env) now now.

End Sample.

(** ** Further readings of a run *)

Definition signin_of (e : event) : list (option str * option str * option str * option str) :=
  match e with EvSignIn a b c d => [(a, b, c, d)] | _ => [] end.

Definition makedirs_of (e : event) : list str :=
  match e with EvMakedirs p => [p] | _ => [] end.

(** The sessions asked of the library, in order: the name and the value
    of the token, the site and the address of the server. *)
Definition signins (evs : list event)
  : list (option str * option str * option str * option str) :=
  flat_map signin_of evs.

(** The directories created, in order. *)
Definition makedirs (evs : list event) : list str := flat_map makedirs_of evs.

Definition remove_of (e : event) : list str :=
  match e with EvRemove p => [p] | _ => [] end.

(** The files removed, in order. *)
Definition removed (evs : list event) : list str := flat_map remove_of evs.

(** What the classification of a downloaded file returns: the
    connections of class [snowflake] the parser finds in it. *)
Definition classified (E : Env) (f : str) : result (list Connection) :=
  if is_workbook_package f then
    match env_workbook E f with
    | Ok dss => Ok (flatten_then_filter dss (py "snowflake"))
    | Raise e => Raise e
    end
  else if is_datasource_package f then
    match env_datasource E f with
    | Ok ds => Ok (flatten_then_filter [ds] (py "snowflake"))
    | Raise e => Raise e
    end
  else Ok [].

(** The workbook as it is to be sent to the update operation, if it is:
    when its file holds a Snowflake connection without the query tag. *)
Definition to_tag (U : Unicode.tables) (E : Env) (t : tag) (wb : WorkbookItem)
  : list WorkbookItem :=
  match env_download E Workbooks (wb_id wb) with
  | Ok f =>
      match classified E f with
      | Ok conns =>
          if (0 <? non_compliant_count U conns)%nat then [tagged wb t] else []
      | Raise _ => []
      end
  | Raise _ => []
  end.

(** [m] leaves the [content] directory as it is. *)
Definition keeps_dir {A} (m : M A) : Prop :=
  forall w, content_dir (world (m w)) = content_dir w.

(** [c.lower()] on an ASCII code point. *)
Definition ascii_lower (c : N) : N :=
  if (65 <=? c) && (c <=? 90) then c + 32 else c.

(** ASCII white space: the white space below 128. *)
Definition ascii_space (c : N) : bool := (c <? 128) && Unicode.is_whitespace c.

(** ** More runs of the sample catalog *)

Module Cases.

(** The catalog refuses the sign-in. *)
Definition no_sign_in : Env :=
  mk_env (env_getenv Sample.env) (fun _ _ _ _ => Raise (ServerResponseError 401))
    (env_pager Sample.env) (env_connections Sample.env)
    (env_download Sample.env) (env_workbook Sample.env)
    (env_datasource Sample.env) (env_update Sample.env) Sample.now Sample.now.

(** The configuration file is missing. *)
Definition no_config : World := mk_world FileAbsent true ∅.

(** The parser cannot open the file of [Sales]. *)
Definition broken_parser : Env :=
  mk_env (env_getenv Sample.env) (env_sign_in Sample.env)
    (env_pager Sample.env) (env_connections Sample.env)
    (env_download Sample.env) (fun _ => Raise (OtherError 1))
    (env_datasource Sample.env) (env_update Sample.env) Sample.now Sample.now.

(** The Snowflake connection of [Sales] has no initial SQL. *)
Definition bare_datasources : list Datasource :=
  [ mk_ds [ mk_conn (Some (py "snowflake")) (Some (py "DEV"))
              (Some (py "alter session set query_tag = 'x'"));
            mk_conn (Some (py "snowflake")) (Some (py "PROD")) None ] ].

Definition bare_connection : Env :=
  mk_env (env_getenv Sample.env) (env_sign_in Sample.env)
    (env_pager Sample.env) (env_connections Sample.env)
    (env_download Sample.env) (fun _ => Ok bare_datasources)
    (env_datasource Sample.env) (env_update Sample.env) Sample.now Sample.now.

(** The live connections of [Notes] cannot be fetched. *)
Definition no_connections : Env :=
  mk_env (env_getenv Sample.env) (env_sign_in Sample.env)
    (env_pager Sample.env)
    (fun wb =>
       if str_eqb (wb_id wb) (py "wb-2") then Raise (ServerResponseError 404)
       else env_connections Sample.env wb)
    (env_download Sample.env) (env_workbook Sample.env)
    (env_datasource Sample.env) (env_update Sample.env) Sample.now Sample.now.

(** The listing breaks after its first page. *)
Definition broken_listing : Env :=
  mk_env (env_getenv Sample.env) (env_sign_in Sample.env)
    (fun _ => MorePages [Sample.sales; Sample.notes]
                (BrokenPage (ServerResponseError 500)))
    (env_connections Sample.env)
    (env_download Sample.env) (env_workbook Sample.env)
    (env_datasource Sample.env) (env_update Sample.env) Sample.now Sample.now.

(** [Sales] already carries the tag. *)
Definition tagged_sales : WorkbookItem :=
  mk_wb (py "wb-1") (py "Sales") {[ Some Sample.remediation_tag ]}.

(** The value of the token is not in the process environment. *)
Definition no_token : Env :=
  mk_env
    (fun name =>
       if str_eqb name (py "PAT_VALUE") then None
       else env_getenv Sample.env name)
    (env_sign_in Sample.env) (env_pager Sample.env)
    (env_connections Sample.env) (env_download Sample.env)
    (env_workbook Sample.env) (env_datasource Sample.env)
    (env_update Sample.env) Sample.now Sample.now.

(** The same instant on a machine two hours east of UTC: the local time
    is that of the sample, the time in UTC is two hours less. *)
Definition utc_now : datetime := mk_datetime 2024 6 2 1 4 5 678901.

Definition paris : Env :=
  mk_env (env_getenv Sample.env) (env_sign_in Sample.env)
    (env_pager Sample.env) (env_connections Sample.env)
    (env_download Sample.env) (env_workbook Sample.env)
    (env_datasource Sample.env) (env_update Sample.env) Sample.now utc_now.

(** A configuration whose checkpoint is a list. *)
Definition list_checkpoint : World :=
  mk_world
    (FileJson (JObj [ (py "content_size", JInt 50);
                      (py "date_checkpoint", JArr [JStr (py "2024-01-01")]) ]))
    true ∅.

End Cases.

(** * Properties *)

(** ** Strings *)

Lemma str_eqb_eq (a b : str) : str_eqb a b = true <-> a = b.
Proof.
  revert b. induction a as [|x a IH]; intros [|y b]; simpl; split;
    try congruence; try discriminate.
  - intros H. apply andb_true_iff in H as [Hx Hab].
    apply N.eqb_eq in Hx. apply IH in Hab. congruence.
  - intros [= -> ->]. rewrite N.eqb_refl. simpl. apply IH. reflexivity.
Qed.

Lemma str_eqb_refl (a : str) : str_eqb a a = true.
Proof. apply str_eqb_eq. reflexivity. Qed.

Lemma opt_str_eqb_eq (v : option str) (s : str) :
  opt_str_eqb v s = true <-> v = Some s.
Proof.
  destruct v as [x|]; simpl.
  - rewrite str_eqb_eq. split; congruence.
  - split; discriminate.
Qed.

Lemma take_drop_while (p : N -> bool) (s : str) :
  s = take_while p s ++ drop_while p s.
Proof.
  induction s as [|c s IH]; simpl; [reflexivity|].
  destruct (p c); simpl; [f_equal; exact IH | reflexivity].
Qed.

Lemma take_while_all (p : N -> bool) (s : str) :
  Forall (fun c => p c = true) (take_while p s).
Proof.
  induction s as [|c s IH]; simpl; [constructor|].
  destruct (p c) eqn:Hc; constructor; assumption.
Qed.

Lemma drop_while_head (p : N -> bool) (s : str) (c : N) (t : str) :
  drop_while p s = c :: t -> p c = false.
Proof.
  induction s as [|x s IH]; simpl; [discriminate|].
  destruct (p x) eqn:Hx; [exact IH|]. intros [= <- _]. exact Hx.
Qed.

Lemma drop_while_app_all (p : N -> bool) (l s : str) :
  Forall (fun c => p c = true) l -> drop_while p (l ++ s) = drop_while p s.
Proof.
  induction 1 as [|c l Hc _ IH]; simpl; [reflexivity|].
  rewrite Hc. exact IH.
Qed.

Lemma drop_while_stop (p : N -> bool) (c : N) (s : str) :
  p c = false -> drop_while p (c :: s) = c :: s.
Proof. intros H. simpl. rewrite H. reflexivity. Qed.

Lemma startswith_app (p rest : str) : startswith (p ++ rest) p = true.
Proof.
  induction p as [|a p IH]; simpl; [reflexivity|].
  rewrite N.eqb_refl. exact IH.
Qed.

Lemma startswith_inv (s p : str) :
  startswith s p = true -> exists rest, s = p ++ rest.
Proof.
  revert s. induction p as [|a p IH]; intros s H.
  - exists s. reflexivity.
  - destruct s as [|b s]; simpl in H; [discriminate|].
    apply andb_true_iff in H as [Hab Hs]. apply N.eqb_eq in Hab. subst b.
    destruct (IH _ Hs) as [rest ->]. exists rest. reflexivity.
Qed.

Lemma startswith_iff (s p : str) :
  startswith s p = true <-> exists rest, s = p ++ rest.
Proof.
  split; [apply startswith_inv|]. intros [rest ->]. apply startswith_app.
Qed.

Lemma endswith_iff (s p : str) :
  endswith s p = true <-> exists front, s = front ++ p.
Proof.
  unfold endswith. rewrite startswith_iff. split.
  - intros [rest H]. exists (rev rest).
    rewrite <- (rev_involutive s), H, rev_app_distr, rev_involutive.
    reflexivity.
  - intros [front ->]. exists (rev front). apply rev_app_distr.
Qed.

(** What [strip] returns is the text between the two runs of white
    space. *)
Lemma strip_normal (x : str) :
  exists l r,
    x = l ++ strip x ++ r /\
    Forall (fun c => Unicode.is_whitespace c = true) l /\
    Forall (fun c => Unicode.is_whitespace c = true) r /\
    (forall c t', strip x = c :: t' -> Unicode.is_whitespace c = false) /\
    (forall c t', strip x = t' ++ [c] -> Unicode.is_whitespace c = false).
Proof.
  set (p := Unicode.is_whitespace).
  exists (take_while p x), (rev (take_while p (rev (lstrip x)))).
  assert (Hr : lstrip x = strip x ++ rev (take_while p (rev (lstrip x)))).
  { unfold strip, rstrip. rewrite <- rev_app_distr.
    fold p. rewrite <- take_drop_while. symmetry. apply rev_involutive. }
  assert (Hlast : forall c t', strip x = t' ++ [c] -> p c = false).
  { intros c t' H. unfold strip, rstrip in H. fold p in H.
    apply (f_equal (@rev N)) in H.
    rewrite rev_involutive, rev_app_distr in H. simpl in H.
    exact (drop_while_head _ _ _ _ H). }
  repeat split.
  - rewrite <- Hr. apply take_drop_while.
  - apply take_while_all.
  - apply Forall_rev. apply take_while_all.
  - intros c t' H. rewrite H in Hr. simpl in Hr.
    exact (drop_while_head p x c _ Hr).
  - exact Hlast.
Qed.

(** The text between the two runs of white space is what [strip]
    returns. *)
Lemma strip_unique (x l t r : str) :
  x = l ++ t ++ r ->
  Forall (fun c => Unicode.is_whitespace c = true) l ->
  Forall (fun c => Unicode.is_whitespace c = true) r ->
  (forall c t', t = c :: t' -> Unicode.is_whitespace c = false) ->
  (forall c t', t = t' ++ [c] -> Unicode.is_whitespace c = false) ->
  strip x = t.
Proof.
  intros -> Hl Hr Hfirst Hlast. unfold strip, lstrip.
  rewrite drop_while_app_all by exact Hl.
  destruct t as [|c t'].
  - simpl. unfold rstrip.
    rewrite <- (app_nil_r (rev (drop_while _ r))).
    assert (Hall : Forall (fun c => Unicode.is_whitespace c = true)
                     (drop_while Unicode.is_whitespace r)).
    { clear -Hr. induction Hr as [|c r Hc _ IH]; simpl; [constructor|].
      rewrite Hc. exact IH. }
    destruct (drop_while Unicode.is_whitespace r) as [|c t] eqn:Hd.
    + reflexivity.
    + apply drop_while_head in Hd. inversion Hall; congruence.
  - rewrite <- app_comm_cons.
    rewrite drop_while_stop by (eapply Hfirst; reflexivity).
    unfold rstrip. rewrite app_comm_cons, rev_app_distr.
    rewrite drop_while_app_all by (apply Forall_rev; exact Hr).
    destruct (rev (c :: t')) as [|d u] eqn:Hrev.
    + apply (f_equal (@length N)) in Hrev.
      rewrite length_rev in Hrev. discriminate.
    + rewrite drop_while_stop.
      * rewrite <- Hrev. apply rev_involutive.
      * apply (Hlast d (rev u)).
        rewrite <- (rev_involutive (c :: t')), Hrev. reflexivity.
Qed.

(** ** The compliance predicate *)

(** C2, where the code departs from it: on the empty string the
    predicate returns [False] without raising; on [None], which is what
    [initial_sql] holds for a connection without initial SQL and what the
    loop of [main] passes for it, the predicate does not return [False]:
    it raises [AttributeError], because [None] has no method [upper]. *)
Theorem init_sql_empty_and_none (U : Unicode.tables) :
  init_sql_has_query_tag U (Some []) = Ok false /\
  init_sql_has_query_tag U None = Raise AttributeError /\
  init_sql_has_query_tag U None <> Ok false.
Proof. repeat split. discriminate. Qed.

(** C5: on every string the predicate returns, and it returns [True]
    exactly when the string, upper-cased and with the white space at its
    two ends trimmed away, begins with [ALTER SESSION SET QUERY_TAG]; it
    returns [True] on [alter session set query_tag = 'x'], also between
    white space, and [False] on [SELECT 1]. *)
Theorem init_sql_has_query_tag_spec (U : Unicode.tables) :
  (forall s : str,
      exists b, init_sql_has_query_tag U (Some s) = Ok b /\
                (b = true <-> is_compliant U s)) /\
  init_sql_has_query_tag U (Some (py "alter session set query_tag = 'x'")) = Ok true /\
  init_sql_has_query_tag U
    (Some ([32; 9] ++ py "alter session set query_tag = 'x'" ++ [32; 13; 10]))
    = Ok true /\
  init_sql_has_query_tag U (Some (py "SELECT 1")) = Ok false.
Proof.
  split; [|repeat split; reflexivity].
  intros s. exists (startswith (strip (upper U s)) query_tag_text).
  split; [reflexivity|]. rewrite startswith_iff. split.
  - intros [rest Hrest]. exists (strip (upper U s)), rest.
    split; [|exact Hrest]. exact (strip_normal (upper U s)).
  - intros (t & rest & (l & r & Hx & Hl & Hr & Hfirst & Hlast) & Ht).
    exists rest. rewrite <- Ht.
    exact (strip_unique _ _ _ _ Hx Hl Hr Hfirst Hlast).
Qed.

(** ** The monad *)

(** The literals of the script and the operations on them stay folded
    when a goal is simplified. *)
Arguments py : simpl never.
Arguments startswith : simpl never.
Arguments endswith : simpl never.
Arguments strip : simpl never.
Arguments upper : simpl never.
Arguments strftime : simpl never.

Lemma bind_ok {A B} (m : M A) (f : A -> M B) (w : World) (a : A) :
  res (m w) = Ok a ->
  bind m f w =
    mk_outcome (res (f a (world (m w)))) (world (f a (world (m w))))
      (out (m w) ++ out (f a (world (m w)))).
Proof. intros H. unfold bind. rewrite H. reflexivity. Qed.

Lemma bind_raise {A B} (m : M A) (f : A -> M B) (w : World) (e : exn) :
  res (m w) = Raise e ->
  bind m f w = mk_outcome (Raise e) (world (m w)) (out (m w)).
Proof. intros H. unfold bind. rewrite H. reflexivity. Qed.

Lemma bind_ret_l {A B} (a : A) (f : A -> M B) (w : World) :
  bind (ret a) f w = f a w.
Proof. unfold bind, ret. simpl. destruct (f a w); reflexivity. Qed.

Lemma bind_assoc {A B C} (m : M A) (f : A -> M B) (g : B -> M C) (w : World) :
  bind (bind m f) g w = bind m (fun a => bind (f a) g) w.
Proof.
  unfold bind. destruct (res (m w)) as [a|e]; cbn [res world out]; [|reflexivity].
  destruct (res (f a (world (m w)))) as [b|e]; cbn [res world out];
    [|reflexivity].
  rewrite app_assoc. reflexivity.
Qed.

Lemma bind_lift_ok {A B} (a : A) (f : A -> M B) (w : World) :
  bind (lift (Ok a)) f w = f a w.
Proof. exact (bind_ret_l a f w). Qed.

Lemma bind_ext {A B} (m : M A) (f g : A -> M B) (w : World) :
  (forall a w', f a w' = g a w') -> bind m f w = bind m g w.
Proof.
  intros H. unfold bind. destruct (res (m w)) as [a|e]; [|reflexivity].
  rewrite H. reflexivity.
Qed.

Lemma emits_none_ret {X A} (f : event -> list X) (a : A) : emits_none f (ret a).
Proof. intros w. reflexivity. Qed.

Lemma emits_none_raise {X A} (f : event -> list X) (e : exn) :
  emits_none f (@raise A e).
Proof. intros w. reflexivity. Qed.

Lemma emits_none_lift {X A} (f : event -> list X) (r : result A) :
  emits_none f (lift r).
Proof. intros w. reflexivity. Qed.

Lemma emits_none_emit {X} (f : event -> list X) (ev : event) :
  f ev = [] -> emits_none f (emit ev).
Proof. intros H w. simpl. rewrite H. reflexivity. Qed.

Lemma emits_none_log {X} (f : event -> list X) (r : log_record) :
  f (EvLog r) = [] -> emits_none f (log r).
Proof. apply emits_none_emit. Qed.

Lemma emits_none_bind {X A B} (f : event -> list X) (m : M A) (k : A -> M B) :
  emits_none f m -> (forall a, emits_none f (k a)) -> emits_none f (bind m k).
Proof.
  intros Hm Hk w. unfold bind. destruct (res (m w)) as [a|e]; simpl.
  - rewrite flat_map_app, Hm, Hk. reflexivity.
  - apply Hm.
Qed.

Lemma emits_none_try {X A} (f : event -> list X) (m : M A)
  (handler : exn -> option (M A)) :
  emits_none f m ->
  (forall e h, handler e = Some h -> emits_none f h) ->
  emits_none f (try_except m handler).
Proof.
  intros Hm Hh w. unfold try_except.
  destruct (res (m w)) as [a|e]; [apply Hm|].
  destruct (handler e) as [h|] eqn:He; [|apply Hm]. simpl.
  rewrite flat_map_app, Hm, (Hh e h He). reflexivity.
Qed.

Lemma emits_none_for_each {X A} (f : event -> list X) (l : list A)
  (body : A -> M unit) :
  (forall x, emits_none f (body x)) -> emits_none f (for_each l body).
Proof.
  intros Hb. induction l as [|x l IH]; simpl.
  - apply emits_none_ret.
  - apply emits_none_bind; [apply Hb | intros _; exact IH].
Qed.

Lemma keeps_config_ret {A} (a : A) : keeps_config (ret a).
Proof. intros w. reflexivity. Qed.

Lemma keeps_config_raise {A} (e : exn) : keeps_config (@raise A e).
Proof. intros w. reflexivity. Qed.

Lemma keeps_config_lift {A} (r : result A) : keeps_config (lift r).
Proof. intros w. reflexivity. Qed.

Lemma keeps_config_emit (ev : event) : keeps_config (emit ev).
Proof. intros w. reflexivity. Qed.

Lemma keeps_config_log (r : log_record) : keeps_config (log r).
Proof. intros w. reflexivity. Qed.

Lemma keeps_config_bind {A B} (m : M A) (k : A -> M B) :
  keeps_config m -> (forall a, keeps_config (k a)) -> keeps_config (bind m k).
Proof.
  intros Hm Hk w. unfold bind. destruct (res (m w)) as [a|e]; simpl.
  - rewrite Hk. apply Hm.
  - apply Hm.
Qed.

Lemma keeps_config_try {A} (m : M A) (handler : exn -> option (M A)) :
  keeps_config m ->
  (forall e h, handler e = Some h -> keeps_config h) ->
  keeps_config (try_except m handler).
Proof.
  intros Hm Hh w. unfold try_except.
  destruct (res (m w)) as [a|e]; [apply Hm|].
  destruct (handler e) as [h|] eqn:He; [|apply Hm]. simpl.
  rewrite (Hh e h He). apply Hm.
Qed.

Lemma keeps_config_for_each {A} (l : list A) (body : A -> M unit) :
  (forall x, keeps_config (body x)) -> keeps_config (for_each l body).
Proof.
  intros Hb. induction l as [|x l IH]; simpl.
  - apply keeps_config_ret.
  - apply keeps_config_bind; [apply Hb | intros _; exact IH].
Qed.

Lemma keeps_world_config {A} (m : M A) : keeps_world m -> keeps_config m.
Proof. intros H w. rewrite H. reflexivity. Qed.

Lemma keeps_world_bind {A B} (m : M A) (k : A -> M B) :
  keeps_world m -> (forall a, keeps_world (k a)) -> keeps_world (bind m k).
Proof.
  intros Hm Hk w. unfold bind. destruct (res (m w)) as [a|e]; simpl.
  - rewrite Hk. apply Hm.
  - apply Hm.
Qed.

Create HintDb quiet.
#[local] Hint Resolve emits_none_ret emits_none_raise emits_none_lift
  emits_none_for_each keeps_config_ret keeps_config_raise keeps_config_lift
  keeps_config_emit keeps_config_log keeps_config_for_each : quiet.

(** Splits a computation along its sequencing and closes what the
    elementary steps leave. *)
Ltac quiet :=
  repeat first
    [ progress intros
    | apply emits_none_bind
    | apply keeps_config_bind
    | apply emits_none_try
    | apply keeps_config_try
    | apply emits_none_emit; solve [auto | reflexivity]
    | apply emits_none_log; solve [auto | reflexivity]
    | solve [eauto with quiet] ].

(** ** The steps of the script, one by one *)

Section Steps.

Variable U : Unicode.tables.
Variable E : Env.

Lemma ensure_content_dir_ok (w : World) : res (ensure_content_dir w) = Ok tt.
Proof. unfold ensure_content_dir. destruct (content_dir w); reflexivity. Qed.

Lemma ensure_content_dir_keeps : keeps_config ensure_content_dir.
Proof. intros w. unfold ensure_content_dir. destruct (content_dir w); reflexivity. Qed.

Lemma ensure_content_dir_quiet {X} (f : event -> list X) :
  (forall p, f (EvMakedirs p) = []) -> emits_none f ensure_content_dir.
Proof.
  intros H w. unfold ensure_content_dir.
  destruct (content_dir w); simpl; [reflexivity|]. rewrite H. reflexivity.
Qed.

(** What the creation of the session does: without the name or the
    value of the token it raises before the library is asked for the
    session. *)
Lemma create_tableau_session_run (a b c d : option str) (w : World) :
  create_tableau_session E a b c d w =
    match a, b with
    | Some _, Some _ =>
        mk_outcome (env_sign_in E a b d c) w
          [EvLog LogCreatingSession; EvSignIn a b d c]
    | _, _ => mk_outcome (Raise TabError) w [EvLog LogCreatingSession]
    end.
Proof.
  unfold create_tableau_session, bind, log, emit, lift,
    personal_access_token_auth.
  destruct a, b; reflexivity.
Qed.

Lemma create_tableau_session_ok (a b c d : option str) (w : World) :
  a <> None -> b <> None -> env_sign_in E a b d c = Ok tt ->
  create_tableau_session E a b c d w =
    mk_outcome (Ok tt) w [EvLog LogCreatingSession; EvSignIn a b d c].
Proof.
  intros Ha Hb Hs. rewrite create_tableau_session_run.
  destruct a; [|contradiction]. destruct b; [|contradiction].
  rewrite Hs. reflexivity.
Qed.

Lemma create_tableau_session_keeps (a b c d : option str) :
  keeps_world (create_tableau_session E a b c d).
Proof.
  intros w. rewrite create_tableau_session_run. destruct a, b; reflexivity.
Qed.

Lemma create_tableau_session_quiet {X} (f : event -> list X) (a b c d : option str) :
  ignores_log f -> (forall p q r s, f (EvSignIn p q r s) = []) ->
  emits_none f (create_tableau_session E a b c d).
Proof. intros Hlog Hs. unfold create_tableau_session. quiet. Qed.

Lemma load_config_keeps : keeps_world load_config.
Proof. intros w. unfold load_config. destruct (config_file w); reflexivity. Qed.

Lemma tsc_filter_ok (field : str) (op : operator) (value : json) :
  (forall l, value <> JArr l) ->
  tsc_filter field op value = Ok (mk_filter field op value).
Proof. intros H. destruct value; try reflexivity. destruct (H l eq_refl). Qed.

Lemma load_config_quiet {X} (f : event -> list X) : emits_none f load_config.
Proof. intros w. unfold load_config. destruct (config_file w); reflexivity. Qed.

Lemma load_config_res (w : World) (j : json) :
  config_file w = FileJson j -> load_config w = mk_outcome (Ok j) w [].
Proof. intros H. unfold load_config. rewrite H. reflexivity. Qed.

Lemma get_workbooks_from_config_keeps : keeps_world get_workbooks_from_config.
Proof.
  unfold get_workbooks_from_config.
  repeat (apply keeps_world_bind; [|intros ?]);
    first [apply load_config_keeps | intros w; reflexivity].
Qed.

Lemma get_workbooks_from_config_quiet {X} (f : event -> list X) :
  ignores_log f -> emits_none f get_workbooks_from_config.
Proof.
  intros Hlog. unfold get_workbooks_from_config.
  apply emits_none_bind; [apply load_config_quiet|]. quiet.
Qed.

Lemma endpoint_download_keeps (ep : endpoint) (i : str) :
  keeps_config (endpoint_download E ep i).
Proof.
  intros w. unfold endpoint_download, bind. simpl.
  destruct (env_download E ep i); reflexivity.
Qed.

Lemma endpoint_download_quiet {X} (f : event -> list X) (ep : endpoint) (i : str) :
  f (EvDownload ep i) = [] -> emits_none f (endpoint_download E ep i).
Proof.
  intros H w. unfold endpoint_download, bind. simpl.
  destruct (env_download E ep i); simpl; rewrite H; reflexivity.
Qed.

Lemma download_resource_keeps (i rt : str) : keeps_config (download_resource E i rt).
Proof.
  unfold download_resource. apply keeps_config_bind; [quiet|]. intros _.
  destruct (negb _); [quiet|].
  apply keeps_config_try; [apply endpoint_download_keeps|].
  intros e h. destruct e; intros [= <-]. quiet.
Qed.

Lemma download_resource_quiet {X} (f : event -> list X) (i rt : str) :
  ignores_log f -> (forall ep, f (EvDownload ep i) = []) ->
  (forall e, f (EvPrintExn e) = []) ->
  emits_none f (download_resource E i rt).
Proof.
  intros Hlog Hd Hp. unfold download_resource.
  apply emits_none_bind; [quiet|]. intros _.
  destruct (negb _); [quiet|].
  apply emits_none_try; [apply endpoint_download_quiet, Hd|].
  intros e h. destruct e; intros [= <-]. quiet.
Qed.

(** What the download of a workbook does. *)
Lemma download_workbook (i : str) (w : World) :
  download_resource E i (py "workbook") w =
    match env_download E Workbooks i with
    | Ok path =>
        mk_outcome (Ok path)
          (mk_world (config_file w) (content_dir w) ({[ path ]} ∪ files w))
          [EvLog (LogDownloading (py "workbook") i); EvDownload Workbooks i]
    | Raise e =>
        mk_outcome (Raise e) w
          ([EvLog (LogDownloading (py "workbook") i); EvDownload Workbooks i]
           ++ match e with ServerResponseError _ => [EvPrintExn e] | _ => [] end)
    end.
Proof.
  unfold download_resource.
  change (negb (str_eqb (py "workbook") (py "workbook")
                || str_eqb (py "workbook") (py "datasource"))) with false.
  change (str_eqb (py "workbook") (py "workbook")) with true.
  unfold bind, try_except, endpoint_download, log, emit. simpl.
  destruct (env_download E Workbooks i) as [path|e]; simpl; [reflexivity|].
  destruct e; reflexivity.
Qed.

(** What the classification of a file does, by the kind of the file. *)
Lemma collect_connections_filter (conns : list Connection) (target : str)
  (acc : list Connection) :
  collect_connections conns target acc =
    acc ++ List.filter (fun c => opt_str_eqb (dbclass c) target) conns.
Proof.
  revert acc. induction conns as [|c conns IH]; intros acc; simpl.
  - symmetry. apply app_nil_r.
  - rewrite IH. destruct (opt_str_eqb (dbclass c) target).
    + rewrite <- app_assoc. reflexivity.
    + reflexivity.
Qed.

Lemma collect_datasources_filter (dss : list Datasource) (target : str)
  (acc : list Connection) :
  collect_datasources dss target acc = acc ++ flatten_then_filter dss target.
Proof.
  revert acc. induction dss as [|ds dss IH]; intros acc; simpl.
  - symmetry. apply app_nil_r.
  - rewrite IH, collect_connections_filter. unfold flatten_then_filter. simpl.
    rewrite List.filter_app, app_assoc. reflexivity.
Qed.

Lemma get_connections_workbook (f target : str) (w : World) :
  is_workbook_package f = true ->
  get_connections_for_dbclass E f target w =
    mk_outcome
      (match env_workbook E f with
       | Ok dss => Ok (flatten_then_filter dss target)
       | Raise e => Raise e
       end)
      w [EvLog (LogGettingConnections f target); EvParse f].
Proof.
  intros H. unfold get_connections_for_dbclass.
  unfold is_workbook_package in H. rewrite H.
  unfold bind, log, emit, lift, ret. simpl.
  destruct (env_workbook E f) as [dss|e]; simpl; [|reflexivity].
  rewrite collect_datasources_filter. reflexivity.
Qed.

Lemma get_connections_datasource (f target : str) (w : World) :
  is_workbook_package f = false -> is_datasource_package f = true ->
  get_connections_for_dbclass E f target w =
    mk_outcome
      (match env_datasource E f with
       | Ok ds => Ok (flatten_then_filter [ds] target)
       | Raise e => Raise e
       end)
      w [EvLog (LogGettingConnections f target); EvParse f].
Proof.
  intros H H'. unfold get_connections_for_dbclass.
  unfold is_workbook_package in H. unfold is_datasource_package in H'.
  rewrite H, H'. unfold bind, log, emit, lift, ret. simpl.
  destruct (env_datasource E f) as [ds|e]; simpl; [|reflexivity].
  rewrite collect_connections_filter. unfold flatten_then_filter. simpl.
  rewrite app_nil_r. reflexivity.
Qed.

Lemma get_connections_unsupported (f target : str) (w : World) :
  is_workbook_package f = false -> is_datasource_package f = false ->
  get_connections_for_dbclass E f target w =
    mk_outcome (Ok []) w
      [EvLog (LogGettingConnections f target);
       EvPrint (py "Unsupported file type")].
Proof.
  intros H H'. unfold get_connections_for_dbclass.
  unfold is_workbook_package in H. unfold is_datasource_package in H'.
  rewrite H, H'. reflexivity.
Qed.

Lemma get_connections_keeps (f target : str) :
  keeps_world (get_connections_for_dbclass E f target).
Proof.
  intros w.
  destruct (is_workbook_package f) eqn:Hw;
    [rewrite get_connections_workbook by exact Hw; reflexivity|].
  destruct (is_datasource_package f) eqn:Hd;
    [rewrite get_connections_datasource by assumption; reflexivity|].
  rewrite get_connections_unsupported by assumption. reflexivity.
Qed.

Lemma get_connections_quiet {X} (g : event -> list X) (f target : str) :
  ignores_log g -> (forall p, g (EvParse p) = []) ->
  (forall s, g (EvPrint s) = []) ->
  emits_none g (get_connections_for_dbclass E f target).
Proof.
  intros Hlog Hparse Hprint w.
  destruct (is_workbook_package f) eqn:Hw;
    [rewrite get_connections_workbook by exact Hw; simpl;
     rewrite Hlog, Hparse; reflexivity|].
  destruct (is_datasource_package f) eqn:Hd;
    [rewrite get_connections_datasource by assumption; simpl;
     rewrite Hlog, Hparse; reflexivity|].
  rewrite get_connections_unsupported by assumption. simpl.
  rewrite Hlog, Hprint. reflexivity.
Qed.

(** What the loop over the Snowflake connections does. *)
Lemma count_missing_keeps (conns : list Connection) (k : nat) :
  keeps_world (count_missing_query_tag U conns k).
Proof.
  revert k. induction conns as [|c conns IH]; intros k w; simpl; [reflexivity|].
  unfold bind. simpl. destruct (init_sql_has_query_tag U (initial_sql c)) as [b|e];
    simpl; [|reflexivity].
  destruct b; simpl; apply IH.
Qed.

Lemma count_missing_quiet {X} (f : event -> list X) (conns : list Connection) (k : nat) :
  ignores_log f -> emits_none f (count_missing_query_tag U conns k).
Proof.
  intros Hlog. revert k. induction conns as [|c conns IH]; intros k; simpl.
  - apply emits_none_ret.
  - apply emits_none_bind; [apply emits_none_lift|]. intros b.
    destruct b; (apply emits_none_bind; [quiet | intros _; apply IH]).
Qed.

Lemma count_missing_res (conns : list Connection) (k n : nat) (w : World) :
  res (count_missing_query_tag U conns k w) = Ok n ->
  n = (k + non_compliant_count U conns)%nat.
Proof.
  revert k. induction conns as [|c conns IH]; intros k; simpl.
  - intros [= <-]. unfold non_compliant_count. simpl. lia.
  - unfold bind, non_compliant_count, non_compliant. simpl.
    destruct (initial_sql c) as [s|]; simpl; [|discriminate].
    destruct (startswith (strip (upper U s)) query_tag_text); simpl;
      intros H; apply IH in H; unfold non_compliant_count, non_compliant in H;
      lia.
Qed.

Lemma count_missing_total (conns : list Connection) (k : nat) (w : World) :
  Forall (fun c => initial_sql c <> None) conns ->
  res (count_missing_query_tag U conns k w) =
    Ok (k + non_compliant_count U conns)%nat.
Proof.
  intros H. revert k. induction H as [|c conns Hc _ IH]; intros k; simpl.
  - unfold non_compliant_count. simpl. f_equal. lia.
  - unfold bind, non_compliant_count, non_compliant. simpl.
    destruct (initial_sql c) as [s|]; [|contradiction]. simpl.
    destruct (startswith (strip (upper U s)) query_tag_text); simpl;
      rewrite IH; unfold non_compliant_count, non_compliant; f_equal; lia.
Qed.

(** What the decision on the count does. *)
Lemma tag_if_missing_run (t : tag) (wb : WorkbookItem) (k : nat) (w : World) :
  tag_if_missing E t wb k w =
    if (0 <? k)%nat then
      match env_update E (tagged wb t) with
      | Ok _ =>
          mk_outcome (Ok tt) w
            [EvLog (LogAddingTag t (wb_name wb)); EvUpdate (tagged wb t);
             EvLog (LogUpdatedTags (wb_tags (tagged wb t)))]
      | Raise e =>
          mk_outcome (Raise e) w
            [EvLog (LogAddingTag t (wb_name wb)); EvUpdate (tagged wb t)]
      end
    else mk_outcome (Ok tt) w [].
Proof.
  unfold tag_if_missing. destruct (0 <? k)%nat; [|reflexivity].
  unfold add_workbook_tag, bind, log, emit, lift, ret, tagged. simpl.
  destruct (env_update E _) as [[]|e]; reflexivity.
Qed.

Lemma tag_if_missing_keeps (t : tag) (wb : WorkbookItem) (k : nat) :
  keeps_world (tag_if_missing E t wb k).
Proof.
  intros w. rewrite tag_if_missing_run.
  destruct (0 <? k)%nat; [|reflexivity].
  destruct (env_update E _); reflexivity.
Qed.

Lemma tag_if_missing_quiet {X} (f : event -> list X) (t : tag)
  (wb : WorkbookItem) (k : nat) :
  ignores_log f -> (forall x, f (EvUpdate x) = []) ->
  emits_none f (tag_if_missing E t wb k).
Proof.
  intros Hlog Hu w. rewrite tag_if_missing_run.
  destruct (0 <? k)%nat; [|reflexivity].
  destruct (env_update E _); simpl; rewrite !Hlog, Hu; reflexivity.
Qed.

Lemma os_remove_keeps (path : str) : keeps_config (os_remove path).
Proof. intros w. unfold os_remove. destruct (decide _); reflexivity. Qed.

Lemma os_remove_quiet {X} (f : event -> list X) (path : str) :
  f (EvRemove path) = [] -> emits_none f (os_remove path).
Proof.
  intros H w. unfold os_remove. destruct (decide _); simpl; [|reflexivity].
  rewrite H. reflexivity.
Qed.

Lemma os_remove_present (path : str) (w : World) :
  path ∈ files w -> res (os_remove path w) = Ok tt.
Proof. intros H. unfold os_remove. destruct (decide _); [reflexivity|contradiction]. Qed.

Lemma flat_map_out_bind {X A B} (g : event -> list X) (m : M A) (f : A -> M B)
  (w : World) :
  flat_map g (out (bind m f w)) =
    flat_map g (out (m w)) ++
    match res (m w) with
    | Ok a => flat_map g (out (f a (world (m w))))
    | Raise _ => []
    end.
Proof.
  unfold bind. destruct (res (m w)); simpl.
  - apply flat_map_app.
  - symmetry. apply app_nil_r.
Qed.

Lemma res_bind {A B} (m : M A) (f : A -> M B) (w : World) :
  res (bind m f w) =
    match res (m w) with
    | Ok a => res (f a (world (m w)))
    | Raise e => Raise e
    end.
Proof. unfold bind. destruct (res (m w)); reflexivity. Qed.

Lemma world_bind {A B} (m : M A) (f : A -> M B) (w : World) :
  world (bind m f w) =
    match res (m w) with
    | Ok a => world (f a (world (m w)))
    | Raise e => world (m w)
    end.
Proof. unfold bind. destruct (res (m w)); reflexivity. Qed.

(** What the audit of one workbook does: the workbook is sent to the
    update operation when the count is reached and is positive, and in
    no other case. *)
Lemma audit_workbook_run (t : tag) (wb : WorkbookItem) (w : World) :
  let o := audit_workbook U E t wb w in
  let o1 := download_resource E (wb_id wb) (py "workbook") w in
  match res o1 with
  | Raise e => res o = Raise e /\ updates (out o) = []
  | Ok f =>
      let o2 := get_connections_for_dbclass E f (py "snowflake") (world o1) in
      match res o2 with
      | Raise e => res o = Raise e /\ updates (out o) = []
      | Ok conns =>
          let o3 := count_missing_query_tag U conns 0 (world o2) in
          match res o3 with
          | Raise e => res o = Raise e /\ updates (out o) = []
          | Ok n =>
              updates (out o) = (if (0 <? n)%nat then [tagged wb t] else []) /\
              res o =
                (if (0 <? n)%nat then
                   match env_update E (tagged wb t) with
                   | Ok _ => Ok tt
                   | Raise e => Raise e
                   end
                 else Ok tt)
          end
      end
  end.
Proof.
  intros o o1.
  assert (Hd : emits_none update_of (download_resource E (wb_id wb) (py "workbook")))
    by (apply download_resource_quiet; hnf; intros; reflexivity).
  specialize (Hd w). fold o1 in Hd.
  assert (Hf : forall f, res o1 = Ok f -> f ∈ files (world o1)).
  { subst o1. rewrite download_workbook.
    destruct (env_download E Workbooks (wb_id wb)); simpl; [|discriminate].
    intros f [= <-]. set_solver. }
  subst o. unfold audit_workbook, bind, log, emit. cbn [res world out].
  fold o1. clearbody o1.
  destruct (res o1) as [f|e]; cbn [res world out]; [|unfold updates; simpl; auto].
  specialize (Hf f eq_refl).
  rewrite !(get_connections_keeps f (py "snowflake") (world o1)).
  pose proof (get_connections_quiet update_of f (py "snowflake")
                (fun _ => eq_refl) (fun _ => eq_refl) (fun _ => eq_refl)
                (world o1)) as H2.
  set (o2 := get_connections_for_dbclass E f (py "snowflake") (world o1)) in *.
  clearbody o2.
  destruct (res o2) as [conns|e]; cbn [res world out];
    [|unfold updates; simpl; rewrite !flat_map_app, Hd, H2; auto].
  rewrite !(count_missing_keeps conns 0%nat (world o1)).
  pose proof (count_missing_quiet update_of conns 0%nat (fun _ => eq_refl)
                (world o1)) as H3.
  set (o3 := count_missing_query_tag U conns 0 (world o1)) in *.
  clearbody o3.
  destruct (res o3) as [n|e]; cbn [res world out];
    [|unfold updates; simpl; rewrite !flat_map_app, Hd, H2, H3; auto].
  rewrite !(tag_if_missing_keeps t wb n (world o1)).
  rewrite (os_remove_present f (world o1) Hf).
  pose proof (os_remove_quiet update_of f eq_refl (world o1)) as H5.
  rewrite tag_if_missing_run.
  unfold updates. simpl. rewrite !flat_map_app, Hd, H2, H3. simpl.
  destruct (0 <? n)%nat; [|simpl; rewrite H5; auto].
  destruct (env_update E (tagged wb t)); simpl; rewrite ?H5; auto.
Qed.

Lemma audit_workbook_updates (t : tag) (wb : WorkbookItem) (w : World) :
  updates (out (audit_workbook U E t wb w)) = [] \/
  updates (out (audit_workbook U E t wb w)) = [tagged wb t].
Proof.
  pose proof (audit_workbook_run t wb w) as H. cbv zeta in H.
  destruct (res (download_resource E (wb_id wb) (py "workbook") w));
    [|left; apply H].
  destruct (res (get_connections_for_dbclass E a (py "snowflake") _));
    [|left; apply H].
  destruct (res (count_missing_query_tag U a0 0 _)) as [n|]; [|left; apply H].
  destruct H as [H _]. destruct (0 <? n)%nat; auto.
Qed.

Lemma audit_workbook_keeps (t : tag) (wb : WorkbookItem) :
  keeps_config (audit_workbook U E t wb).
Proof.
  unfold audit_workbook.
  apply keeps_config_bind; [quiet|]. intros _.
  apply keeps_config_bind; [apply download_resource_keeps|]. intros f.
  apply keeps_config_bind;
    [apply keeps_world_config, get_connections_keeps|]. intros conns.
  apply keeps_config_bind;
    [apply keeps_world_config, count_missing_keeps|]. intros n.
  apply keeps_config_bind;
    [apply keeps_world_config, tag_if_missing_keeps|]. intros _.
  apply os_remove_keeps.
Qed.

(** The audit of a workbook emits what its steps emit. *)
Lemma audit_workbook_quiet {X} (g : event -> list X) (t : tag) (wb : WorkbookItem) :
  ignores_log g -> (forall ep i, g (EvDownload ep i) = []) ->
  (forall e, g (EvPrintExn e) = []) -> (forall p, g (EvParse p) = []) ->
  (forall s, g (EvPrint s) = []) -> (forall x, g (EvUpdate x) = []) ->
  (forall p, g (EvRemove p) = []) ->
  emits_none g (audit_workbook U E t wb).
Proof.
  intros Hlog Hd Hx Hparse Hprint Hu Hr. unfold audit_workbook.
  apply emits_none_bind; [quiet|]. intros _.
  apply emits_none_bind; [apply download_resource_quiet; auto|]. intros f.
  apply emits_none_bind; [apply get_connections_quiet; auto|]. intros conns.
  apply emits_none_bind; [apply count_missing_quiet; auto|]. intros n.
  apply emits_none_bind; [apply tag_if_missing_quiet; auto|]. intros _.
  apply os_remove_quiet; auto.
Qed.

Lemma audit_workbook_downloads (t : tag) (wb : WorkbookItem) (w : World) :
  downloads (out (audit_workbook U E t wb w)) = [wb_id wb].
Proof.
  unfold downloads, audit_workbook.
  rewrite flat_map_out_bind. simpl.
  rewrite flat_map_out_bind.
  assert (Hd : flat_map download_of
                 (out (download_resource E (wb_id wb) (py "workbook") w))
               = [wb_id wb]).
  { rewrite download_workbook.
    destruct (env_download E Workbooks (wb_id wb)) as [p|e]; [reflexivity|].
    destruct e; reflexivity. }
  rewrite Hd.
  destruct (res (download_resource E (wb_id wb) (py "workbook") w)) as [f|e];
    [|reflexivity].
  assert (Hrest : emits_none download_of
            (bind (get_connections_for_dbclass E f (py "snowflake"))
               (fun conns =>
                  bind (count_missing_query_tag U conns 0)
                    (fun n => bind (tag_if_missing E t wb n)
                                (fun _ => os_remove f))))).
  { apply emits_none_bind;
      [apply get_connections_quiet; hnf; intros; reflexivity|]. intros conns.
    apply emits_none_bind;
      [apply count_missing_quiet; hnf; intros; reflexivity|]. intros n.
    apply emits_none_bind;
      [apply tag_if_missing_quiet; hnf; intros; reflexivity|]. intros _.
    apply os_remove_quiet. reflexivity. }
  rewrite Hrest. reflexivity.
Qed.

(** What the loop over the workbooks to audit does. *)
Lemma starts_nil {X} (l : list X) : starts [] l.
Proof. exists l. reflexivity. Qed.

Lemma starts_cons {X} (x : X) (l l' : list X) : starts l l' -> starts (x :: l) (x :: l').
Proof. intros [rest ->]. exists rest. reflexivity. Qed.

Lemma starts_NoDup {X} (l l' : list X) : starts l l' -> List.NoDup l' -> List.NoDup l.
Proof. intros [rest ->] H. exact (List.NoDup_app_remove_r _ _ H). Qed.

Lemma audit_loop_downloads (t : tag) (wbs : list WorkbookItem) (w : World) :
  starts (downloads (out (for_each wbs (audit_workbook U E t) w)))
    (List.map wb_id wbs) /\
  (res (for_each wbs (audit_workbook U E t) w) = Ok tt ->
   downloads (out (for_each wbs (audit_workbook U E t) w)) = List.map wb_id wbs).
Proof.
  revert w. induction wbs as [|wb wbs IH]; intros w; simpl.
  - split; [apply starts_nil | reflexivity].
  - unfold downloads. rewrite flat_map_out_bind.
    fold (downloads (out (audit_workbook U E t wb w))).
    rewrite audit_workbook_downloads, res_bind.
    destruct (res (audit_workbook U E t wb w)) as [[]|e]; simpl.
    + destruct (IH (world (audit_workbook U E t wb w))) as [Hs Hok].
      split; [apply starts_cons, Hs|]. intros H. f_equal. apply Hok, H.
    + split; [apply starts_cons, starts_nil | discriminate].
Qed.

Lemma audit_loop_update_ids (t : tag) (wbs : list WorkbookItem) (w : World) (i : str) :
  In i (List.map wb_id (updates (out (for_each wbs (audit_workbook U E t) w)))) ->
  In i (List.map wb_id wbs).
Proof.
  revert w. induction wbs as [|wb wbs IH]; intros w; simpl; [tauto|].
  unfold updates. rewrite flat_map_out_bind, List.map_app, in_app_iff.
  intros [H|H].
  - left. fold (updates (out (audit_workbook U E t wb w))) in H.
    destruct (audit_workbook_updates t wb w) as [Hu|Hu]; rewrite Hu in H;
      simpl in H; tauto.
  - right. destruct (res (audit_workbook U E t wb w)); [|contradiction].
    exact (IH _ H).
Qed.

Lemma audit_loop_updates_NoDup (t : tag) (wbs : list WorkbookItem) (w : World) :
  List.NoDup (List.map wb_id wbs) ->
  List.NoDup (List.map wb_id (updates (out (for_each wbs (audit_workbook U E t) w)))).
Proof.
  revert w. induction wbs as [|wb wbs IH]; intros w; simpl.
  - intros _. constructor.
  - intros Hnd. apply List.NoDup_cons_iff in Hnd as [Hnot Hnd].
    unfold updates. rewrite flat_map_out_bind, List.map_app.
    fold (updates (out (audit_workbook U E t wb w))).
    assert (Hrest : forall i,
              In i (List.map wb_id
                      match res (audit_workbook U E t wb w) with
                      | Ok a => flat_map update_of
                                  (out (for_each wbs (audit_workbook U E t)
                                          (world (audit_workbook U E t wb w))))
                      | Raise _ => []
                      end) -> In i (List.map wb_id wbs)).
    { intros i. destruct (res (audit_workbook U E t wb w)); [|contradiction].
      apply audit_loop_update_ids. }
    assert (Hnd' : List.NoDup (List.map wb_id
                      match res (audit_workbook U E t wb w) with
                      | Ok a => flat_map update_of
                                  (out (for_each wbs (audit_workbook U E t)
                                          (world (audit_workbook U E t wb w))))
                      | Raise _ => []
                      end)).
    { destruct (res (audit_workbook U E t wb w)); [|constructor].
      apply IH, Hnd. }
    destruct (audit_workbook_updates t wb w) as [Hu|Hu]; rewrite Hu; simpl.
    + exact Hnd'.
    + constructor; [|exact Hnd']. intros Hin. apply Hnot, Hrest, Hin.
Qed.

(** What the loop over the live connections of a workbook does. *)
Lemma scan_connections_run (wb : WorkbookItem) (conns : list ConnectionItem)
  (acc : list WorkbookItem) (w : World) :
  scan_connections wb conns acc w =
    if existsb is_snowflake conns
    then mk_outcome (Ok (acc ++ [wb])) w [EvLog (LogFoundSnowflake (wb_name wb))]
    else mk_outcome (Ok acc) w [].
Proof.
  induction conns as [|c conns IH]; simpl; [reflexivity|].
  unfold is_snowflake at 1.
  destruct (str_eqb (connection_type c) (py "snowflake")); simpl.
  - reflexivity.
  - exact IH.
Qed.

(** What the loop over the candidate workbooks does. *)
Lemma scan_workbooks_keeps (items acc : list WorkbookItem) :
  keeps_world (scan_workbooks E items acc).
Proof.
  revert acc. induction items as [|wb items IH]; intros acc w; simpl;
    [reflexivity|].
  unfold bind, log, emit, lift. simpl.
  destruct (env_connections E wb) as [conns|e]; simpl; [|reflexivity].
  rewrite scan_connections_run.
  destruct (existsb is_snowflake conns); simpl; apply IH.
Qed.

Lemma scan_workbooks_quiet {X} (g : event -> list X) (items acc : list WorkbookItem) :
  ignores_log g -> (forall wb, g (EvPopulate wb) = []) ->
  emits_none g (scan_workbooks E items acc).
Proof.
  intros Hlog Hp. revert acc. induction items as [|wb items IH]; intros acc; simpl.
  - apply emits_none_ret.
  - apply emits_none_bind; [quiet|]. intros _.
    apply emits_none_bind; [quiet|]. intros _.
    apply emits_none_bind; [quiet|]. intros conns.
    apply emits_none_bind; [|intros acc'; apply IH].
    intros w. rewrite scan_connections_run.
    destruct (existsb is_snowflake conns); simpl; rewrite ?Hlog; reflexivity.
Qed.

Lemma scan_workbooks_run (items acc : list WorkbookItem) (w : World) :
  let o := scan_workbooks E items acc w in
  starts (populated (out o)) items /\
  (forall wbs, res o = Ok wbs ->
     wbs = acc ++ List.filter (has_snowflake_connection E) items /\
     populated (out o) = items) /\
  (Forall (fun wb => exists conns, env_connections E wb = Ok conns) items ->
   res o = Ok (acc ++ List.filter (has_snowflake_connection E) items)).
Proof.
  revert acc. induction items as [|wb items IH]; intros acc; simpl.
  - repeat split.
    + apply starts_nil.
    + injection H as <-. symmetry. apply app_nil_r.
    + intros _. rewrite app_nil_r. reflexivity.
  - unfold bind, log, emit, lift, has_snowflake_connection. simpl.
    destruct (env_connections E wb) as [conns|e] eqn:Hc; simpl.
    + rewrite scan_connections_run.
      destruct (existsb is_snowflake conns); simpl;
        match goal with
        | |- context [scan_workbooks E items ?a w] =>
            destruct (IH a) as (Hs & Hok & Htot)
        end; unfold populated in *; rewrite ?flat_map_app; simpl.
      * repeat split.
        -- apply starts_cons, Hs.
        -- apply Hok in H. destruct H as [-> _]. rewrite <- app_assoc. reflexivity.
        -- f_equal. apply Hok in H. apply H.
        -- intros Hall. inversion Hall; subst. rewrite Htot by assumption.
           rewrite <- app_assoc. reflexivity.
      * repeat split.
        -- apply starts_cons, Hs.
        -- apply Hok in H. apply H.
        -- f_equal. apply Hok in H. apply H.
        -- intros Hall. inversion Hall; subst. apply Htot. assumption.
    + repeat split.
      * apply starts_cons, starts_nil.
      * discriminate.
      * discriminate.
      * intros Hall. inversion Hall as [|? ? [conns Hconns] ?]; subst. congruence.
Qed.

(** The loop over a list of workbooks in two parts. *)
Lemma scan_workbooks_app (a b acc : list WorkbookItem) (w : World) :
  scan_workbooks E (a ++ b) acc w =
    bind (scan_workbooks E a acc) (fun acc' => scan_workbooks E b acc') w.
Proof.
  revert acc w. induction a as [|wb a IH]; intros acc w.
  - simpl. symmetry. apply bind_ret_l.
  - cbn [app scan_workbooks].
    rewrite bind_assoc. apply bind_ext. intros _ w1.
    rewrite bind_assoc. apply bind_ext. intros _ w2.
    rewrite bind_assoc. apply bind_ext. intros conns w3.
    rewrite bind_assoc. apply bind_ext. intros acc' w4.
    apply IH.
Qed.

Lemma scan_workbooks_app_res (a b acc : list WorkbookItem) (w : World) :
  res (scan_workbooks E (a ++ b) acc w) =
    match res (scan_workbooks E a acc w) with
    | Ok acc' => res (scan_workbooks E b acc' w)
    | Raise e => Raise e
    end.
Proof. rewrite scan_workbooks_app, res_bind, scan_workbooks_keeps. reflexivity. Qed.

Lemma scan_workbooks_app_out {X} (g : event -> list X)
  (a b acc : list WorkbookItem) (w : World) :
  flat_map g (out (scan_workbooks E (a ++ b) acc w)) =
    flat_map g (out (scan_workbooks E a acc w)) ++
    match res (scan_workbooks E a acc w) with
    | Ok acc' => flat_map g (out (scan_workbooks E b acc' w))
    | Raise _ => []
    end.
Proof.
  rewrite scan_workbooks_app, flat_map_out_bind, scan_workbooks_keeps.
  reflexivity.
Qed.

(** What the loop over the pages does: apart from the requests it sends,
    it is the loop over the workbooks of all the pages, followed by the
    exception of the listing, if it has one. *)
Lemma scan_pages_keeps (req : RequestOptions) (pages : listing)
  (acc : list WorkbookItem) : keeps_world (scan_pages E req pages acc).
Proof.
  revert acc. induction pages as [items|items rest IH|e]; intros acc;
    cbn [scan_pages]; (apply keeps_world_bind; [intros w; reflexivity|]);
    intros _.
  - apply scan_workbooks_keeps.
  - apply keeps_world_bind; [apply scan_workbooks_keeps | intros a; apply IH].
  - intros w. reflexivity.
Qed.

Lemma scan_pages_res (req : RequestOptions) (pages : listing)
  (acc : list WorkbookItem) (w : World) :
  res (scan_pages E req pages acc w) =
    match res (scan_workbooks E (listed pages) acc w) with
    | Ok a =>
        match listing_error pages with
        | Some e => Raise e
        | None => Ok a
        end
    | Raise e => Raise e
    end.
Proof.
  revert acc. induction pages as [items|items rest IH|e]; intros acc;
    cbn [scan_pages listed listing_error]; rewrite res_bind;
    cbn [emit res world].
  - destruct (res (scan_workbooks E items acc w)); reflexivity.
  - rewrite res_bind, scan_workbooks_keeps, scan_workbooks_app_res.
    destruct (res (scan_workbooks E items acc w)) as [a|e];
      [apply IH | reflexivity].
  - reflexivity.
Qed.

Lemma scan_pages_out {X} (g : event -> list X) (req : RequestOptions)
  (pages : listing) (acc : list WorkbookItem) (w : World) :
  (forall r, g (EvQuery r) = []) ->
  flat_map g (out (scan_pages E req pages acc w)) =
    flat_map g (out (scan_workbooks E (listed pages) acc w)).
Proof.
  intros Hq. revert acc. induction pages as [items|items rest IH|e]; intros acc;
    cbn [scan_pages listed]; rewrite flat_map_out_bind;
    cbn [emit res world out flat_map]; rewrite Hq; cbn [app].
  - reflexivity.
  - rewrite flat_map_out_bind, scan_workbooks_keeps, scan_workbooks_app_out.
    f_equal. destruct (res (scan_workbooks E items acc w)) as [a|e];
      [apply IH | reflexivity].
  - reflexivity.
Qed.

Lemma scan_pages_quiet {X} (g : event -> list X) (req : RequestOptions)
  (pages : listing) (acc : list WorkbookItem) :
  ignores_log g -> (forall r, g (EvQuery r) = []) ->
  (forall wb, g (EvPopulate wb) = []) ->
  emits_none g (scan_pages E req pages acc).
Proof.
  intros Hlog Hq Hp w. rewrite scan_pages_out by exact Hq.
  apply scan_workbooks_quiet; assumption.
Qed.

(** The loop sends one request per page it reaches: all of them when no
    fetch of live connections fails. *)
Lemma scan_pages_queries (req : RequestOptions) (pages : listing)
  (acc : list WorkbookItem) (w : World) :
  exists k,
    queries (out (scan_pages E req pages acc w)) = repeat req (S k) /\
    (S k <= requests pages)%nat /\
    ((exists a, res (scan_workbooks E (listed pages) acc w) = Ok a) ->
     S k = requests pages).
Proof.
  unfold queries. revert acc.
  induction pages as [items|items rest IH|e]; intros acc;
    cbn [scan_pages listed requests]; rewrite flat_map_out_bind;
    cbn [emit res world out flat_map query_of app].
  - rewrite (scan_workbooks_quiet query_of items acc
               (fun _ => eq_refl) (fun _ => eq_refl) w).
    exists 0%nat. repeat split. lia.
  - rewrite flat_map_out_bind, scan_workbooks_keeps.
    rewrite (scan_workbooks_quiet query_of items acc
               (fun _ => eq_refl) (fun _ => eq_refl) w).
    rewrite scan_workbooks_app_res.
    destruct (res (scan_workbooks E items acc w)) as [a|e].
    + destruct (IH a) as (k & Hk & Hle & Hall). exists (S k).
      cbn [app]. rewrite Hk. repeat split; [lia|].
      intros H. f_equal. exact (Hall H).
    + exists 0%nat. repeat split; [lia|]. intros [a H]. discriminate H.
  - exists 0%nat. repeat split. lia.
Qed.

(** What the filter on the live connections does. *)
Lemma filter_wbs_keeps (req : RequestOptions) :
  keeps_world (filter_wbs_with_snowflake_connections E req).
Proof.
  unfold filter_wbs_with_snowflake_connections.
  apply keeps_world_bind; [intros w; reflexivity|]. intros _.
  apply scan_pages_keeps.
Qed.

Lemma filter_wbs_quiet {X} (g : event -> list X) (req : RequestOptions) :
  ignores_log g -> (forall r, g (EvQuery r) = []) ->
  (forall wb, g (EvPopulate wb) = []) ->
  emits_none g (filter_wbs_with_snowflake_connections E req).
Proof.
  intros Hlog Hq Hp. unfold filter_wbs_with_snowflake_connections.
  apply emits_none_bind; [quiet|]. intros _.
  apply scan_pages_quiet; assumption.
Qed.

Lemma filter_wbs_res (req : RequestOptions) (w : World) :
  res (filter_wbs_with_snowflake_connections E req w) =
    res (scan_pages E req (env_pager E req) [] w).
Proof.
  unfold filter_wbs_with_snowflake_connections. rewrite res_bind. reflexivity.
Qed.

Lemma filter_wbs_out {X} (g : event -> list X) (req : RequestOptions) (w : World) :
  ignores_log g ->
  flat_map g (out (filter_wbs_with_snowflake_connections E req w)) =
    flat_map g (out (scan_pages E req (env_pager E req) [] w)).
Proof.
  intros Hlog. unfold filter_wbs_with_snowflake_connections.
  rewrite flat_map_out_bind. cbn [log emit res world out flat_map].
  rewrite Hlog. reflexivity.
Qed.

Lemma filter_wbs_run (req : RequestOptions) (w : World) :
  let o := filter_wbs_with_snowflake_connections E req w in
  let items := listed (env_pager E req) in
  (exists k, queries (out o) = repeat req (S k) /\
             (S k <= requests (env_pager E req))%nat) /\
  starts (populated (out o)) items /\
  (forall wbs, res o = Ok wbs ->
     wbs = List.filter (has_snowflake_connection E) items /\
     populated (out o) = items /\ listing_error (env_pager E req) = None /\
     queries (out o) = repeat req (requests (env_pager E req))) /\
  (Forall (fun wb => exists conns, env_connections E wb = Ok conns) items ->
   populated (out o) = items /\
   queries (out o) = repeat req (requests (env_pager E req)) /\
   res o =
     match listing_error (env_pager E req) with
     | Some e => Raise e
     | None => Ok (List.filter (has_snowflake_connection E) items)
     end).
Proof.
  intros o items. subst o. unfold queries, populated.
  rewrite filter_wbs_res, !filter_wbs_out by (intros r; reflexivity).
  rewrite scan_pages_res.
  rewrite (scan_pages_out populate_of) by (intros r; reflexivity).
  fold items.
  destruct (scan_workbooks_run items [] w) as (Hs & Hok & Htot).
  destruct (scan_pages_queries req (env_pager E req) [] w)
    as (k & Hk & Hle & Hall).
  fold items in Hall. unfold queries, populated in *.
  set (o := scan_workbooks E items [] w) in *. clearbody o.
  split; [exists k; auto|]. split; [exact Hs|]. split.
  - intros wbs H. destruct (res o) as [acc|e] eqn:Ho; [|discriminate].
    destruct (Hok acc eq_refl) as [-> Hp].
    destruct (listing_error (env_pager E req)); [discriminate|].
    injection H as <-. rewrite Hk, (Hall (ex_intro _ _ eq_refl)). auto.
  - intros Hok'. specialize (Htot Hok'). rewrite Htot in *.
    destruct (Hok _ eq_refl) as [_ Hp].
    rewrite Hk, (Hall (ex_intro _ _ eq_refl)). auto.
Qed.

(** What the reading of the configuration does, case by case. *)
Lemma bind_load_config {B} (f : json -> M B) (w : World) (j : json) :
  config_file w = FileJson j -> bind load_config f w = f j w.
Proof.
  intros H. unfold bind. rewrite (load_config_res w j H). cbn [res world out].
  destruct (f j w); reflexivity.
Qed.

Lemma get_workbooks_from_config_cases (w : World) :
  get_workbooks_from_config w =
    match config_file w with
    | FileAbsent => mk_outcome (Raise FileNotFoundError) w []
    | FileUndecodable => mk_outcome (Raise UnicodeDecodeError) w []
    | FileGarbage => mk_outcome (Raise JSONDecodeError) w []
    | FileJson j =>
        match py_getitem j (py "content_size") with
        | Raise e => mk_outcome (Raise e) w []
        | Ok size =>
            match py_getitem j (py "date_checkpoint") with
            | Raise e => mk_outcome (Raise e) w []
            | Ok d =>
                match py_mul size 1024 with
                | Raise e => mk_outcome (Raise e) w []
                | Ok kb =>
                    match py_mul kb 1024 with
                    | Raise e => mk_outcome (Raise e) w []
                    | Ok b =>
                        match tsc_filter (py "size") LessThanOrEqual b with
                        | Raise e =>
                            mk_outcome (Raise e) w [EvLog (LogGettingWorkbooks size)]
                        | Ok size_filter =>
                            match tsc_filter (py "updatedAt") GreaterThanOrEqual d with
                            | Raise e =>
                                mk_outcome (Raise e) w
                                  [EvLog (LogGettingWorkbooks size)]
                            | Ok date_filter =>
                                mk_outcome (Ok (mk_req [size_filter; date_filter]))
                                  w [EvLog (LogGettingWorkbooks size)]
                            end
                        end
                    end
                end
            end
        end
    end.
Proof.
  unfold get_workbooks_from_config.
  destruct (config_file w) as [| | |j] eqn:Hc;
    try (unfold bind at 1, load_config; rewrite Hc; reflexivity).
  rewrite (bind_load_config _ w j Hc).
  destruct (py_getitem j (py "content_size")) as [size|e]; [|reflexivity].
  rewrite bind_lift_ok.
  destruct (py_getitem j (py "date_checkpoint")) as [d|e]; [|reflexivity].
  rewrite bind_lift_ok.
  destruct (py_mul size 1024) as [kb|e]; [|reflexivity]. rewrite bind_lift_ok.
  destruct (py_mul kb 1024) as [b|e]; [|reflexivity]. rewrite bind_lift_ok.
  destruct (tsc_filter (py "size") LessThanOrEqual b) as [f1|e]; [|reflexivity].
  destruct (tsc_filter (py "updatedAt") GreaterThanOrEqual d) as [f2|e];
    reflexivity.
Qed.

Lemma get_workbooks_from_config_run (w : World) (kv : list (str * json))
  (n : Z) (d : json) :
  config_file w = FileJson (JObj kv) ->
  dict_get kv (py "content_size") = Some (JInt n) ->
  dict_get kv (py "date_checkpoint") = Some d ->
  (forall l, d <> JArr l) ->
  get_workbooks_from_config w =
    mk_outcome
      (Ok (mk_req
             [ mk_filter (py "size") LessThanOrEqual (JInt (n * 1024 * 1024));
               mk_filter (py "updatedAt") GreaterThanOrEqual d ]))
      w [EvLog (LogGettingWorkbooks (JInt n))].
Proof.
  intros Hc Hs Hd Hl. rewrite get_workbooks_from_config_cases, Hc.
  cbn [py_getitem]. rewrite Hs, Hd. cbn [py_mul tsc_filter].
  rewrite (tsc_filter_ok _ _ d Hl). reflexivity.
Qed.

(** What the advance of the checkpoint does. *)
Lemma update_config_run (w : World) :
  update_workbook_config_with_date_checkpoint E w =
    match config_file w with
    | FileJson (JObj kv) =>
        let s := strftime (env_now E) strftime_format in
        let c := JObj (dict_set kv (py "date_checkpoint") (JStr s)) in
        mk_outcome (Ok s)
          (mk_world (FileJson c) (content_dir w) (files w))
          [EvLog LogUpdatingConfig; EvWriteConfig c]
    | FileJson _ => mk_outcome (Raise TypeError) w [EvLog LogUpdatingConfig]
    | FileAbsent => mk_outcome (Raise FileNotFoundError) w [EvLog LogUpdatingConfig]
    | FileUndecodable =>
        mk_outcome (Raise UnicodeDecodeError) w [EvLog LogUpdatingConfig]
    | FileGarbage => mk_outcome (Raise JSONDecodeError) w [EvLog LogUpdatingConfig]
    end.
Proof.
  unfold update_workbook_config_with_date_checkpoint, bind, load_config.
  simpl. destruct (config_file w) as [| | |j]; try reflexivity.
  destruct j; reflexivity.
Qed.

Lemma update_config_quiet {X} (g : event -> list X) :
  ignores_log g -> (forall c, g (EvWriteConfig c) = []) ->
  emits_none g (update_workbook_config_with_date_checkpoint E).
Proof.
  intros Hlog Hw w. rewrite update_config_run.
  destruct (config_file w) as [| | |j]; simpl; rewrite ?Hlog; try reflexivity.
  destruct j; simpl; rewrite ?Hlog, ?Hw; reflexivity.
Qed.

Lemma proj_bind_quiet {X A B} (g : event -> list X) (m : M A) (k : A -> M B) (w : World) :
  emits_none g m ->
  flat_map g (out (bind m k w)) =
    match res (m w) with
    | Ok a => flat_map g (out (k a (world (m w))))
    | Raise _ => []
    end.
Proof. intros H. rewrite flat_map_out_bind, H. reflexivity. Qed.

(** What a run reads as, whether it ends or raises. *)
Lemma main_readings (w : World) :
  exists items,
    (items = [] \/ exists req, items = listed (env_pager E req)) /\
    let wbs := List.filter (has_snowflake_connection E) items in
    let o := main U E w in
    starts (populated (out o)) items /\
    starts (downloads (out o)) (List.map wb_id wbs) /\
    (List.NoDup (List.map wb_id wbs) -> List.NoDup (List.map wb_id (updates (out o)))).
Proof.
  unfold main, populated, downloads, updates.
  assert (Hnil : exists items : list WorkbookItem,
    (items = [] \/ exists req, items = listed (env_pager E req)) /\
    starts (@nil WorkbookItem) items /\
    starts (@nil str) (List.map wb_id (List.filter (has_snowflake_connection E) items)) /\
    (List.NoDup (List.map wb_id (List.filter (has_snowflake_connection E) items)) ->
     List.NoDup (List.map wb_id (@nil WorkbookItem)))).
  { exists []. repeat split; [left; reflexivity | apply starts_nil | apply starts_nil | constructor]. }
  cbv zeta.
  rewrite !(proj_bind_quiet _ ensure_content_dir)
    by (apply ensure_content_dir_quiet; intros; reflexivity).
  rewrite ensure_content_dir_ok.
  set (w0 := world (ensure_content_dir w)). clearbody w0.
  rewrite !(proj_bind_quiet _ (create_tableau_session _ _ _ _ _))
    by (apply create_tableau_session_quiet; hnf; intros; reflexivity).
  rewrite create_tableau_session_keeps.
  destruct (res (create_tableau_session _ _ _ _ _ w0)); [|exact Hnil].
  rewrite !(proj_bind_quiet _ get_workbooks_from_config)
    by (apply get_workbooks_from_config_quiet; hnf; intros; reflexivity).
  rewrite get_workbooks_from_config_keeps.
  destruct (res (get_workbooks_from_config w0)) as [req|]; [|exact Hnil].
  clear Hnil. exists (listed (env_pager E req)). split; [right; eauto|].
  destruct (filter_wbs_run req w0) as (_ & Hs & Hok & _).
  set (t := env_getenv E (py "TABLEAU_TAG")).
  assert (Htail : forall X (g : event -> list X),
             ignores_log g -> (forall c, g (EvWriteConfig c) = []) ->
             emits_none g
               (bind (update_workbook_config_with_date_checkpoint E)
                  (fun d => log (LogUpdatedConfigDate d)))).
  { intros X g Hlog Hw. apply emits_none_bind;
      [apply update_config_quiet; assumption | intros d; quiet]. }
  split.
  { rewrite flat_map_out_bind.
    assert (Hrest : forall wbs, emits_none populate_of
              (bind (for_each wbs (audit_workbook U E t))
                 (fun _ => bind (update_workbook_config_with_date_checkpoint E)
                             (fun d => log (LogUpdatedConfigDate d))))).
    { intros wbs. apply emits_none_bind.
      - apply emits_none_for_each. intros wb.
        apply audit_workbook_quiet; hnf; intros; reflexivity.
      - intros _. apply Htail; hnf; intros; reflexivity. }
    destruct (res (filter_wbs_with_snowflake_connections E req w0));
      [rewrite Hrest|]; rewrite app_nil_r; exact Hs. }
  rewrite !(proj_bind_quiet _ (filter_wbs_with_snowflake_connections E req))
    by (apply filter_wbs_quiet; hnf; intros; reflexivity).
  rewrite filter_wbs_keeps.
  destruct (res (filter_wbs_with_snowflake_connections E req w0)) as [wbs|e];
    [|split; [apply starts_nil | intros _; constructor]].
  destruct (Hok wbs eq_refl) as (<- & _).
  rewrite (flat_map_out_bind download_of (for_each _ _)),
    (flat_map_out_bind update_of (for_each _ _)).
  rewrite !(fun w' => Htail _ download_of (fun _ => eq_refl) (fun _ => eq_refl) w').
  rewrite !(fun w' => Htail _ update_of (fun _ => eq_refl) (fun _ => eq_refl) w').
  assert (Hnil : forall X (r : result unit),
            match r with Ok _ => @nil X | Raise _ => [] end = [])
    by (intros X []; reflexivity).
  rewrite !Hnil, !app_nil_r. split.
  - apply audit_loop_downloads.
  - apply audit_loop_updates_NoDup.
Qed.

Lemma bind_ok_inv {A B} (m : M A) (f : A -> M B) (w : World) (b : B) :
  res (bind m f w) = Ok b ->
  exists a,
    res (m w) = Ok a /\
    res (f a (world (m w))) = Ok b /\
    out (bind m f w) = out (m w) ++ out (f a (world (m w))) /\
    world (bind m f w) = world (f a (world (m w))).
Proof.
  unfold bind. destruct (res (m w)) as [a|e]; simpl; [|discriminate].
  intros H. exists a. auto.
Qed.

(** What a run that ends has done. *)
Lemma main_ok (w : World) :
  res (main U E w) = Ok tt ->
  exists req c d pre,
    let items := listed (env_pager E req) in
    out (main U E w) = pre ++ [EvWriteConfig c; EvLog (LogUpdatedConfigDate d)] /\
    writes pre = [] /\
    queries pre = repeat req (requests (env_pager E req)) /\
    listing_error (env_pager E req) = None /\
    populated pre = items /\
    downloads pre = List.map wb_id (List.filter (has_snowflake_connection E) items) /\
    config_file (world (main U E w)) = FileJson c.
Proof.
  unfold main. intros H.
  apply bind_ok_inv in H as ([] & _ & H & -> & ->).
  set (w0 := world (ensure_content_dir w)) in *.
  apply bind_ok_inv in H as ([] & _ & H & -> & ->).
  rewrite create_tableau_session_keeps in *.
  apply bind_ok_inv in H as (req & _ & H & -> & ->).
  rewrite (get_workbooks_from_config_keeps) in *.
  apply bind_ok_inv in H as (wbs & Hf & H & -> & ->).
  rewrite filter_wbs_keeps in *.
  apply bind_ok_inv in H as ([] & Hloop & H & -> & ->).
  set (w1 := world (for_each wbs _ w0)) in *.
  apply bind_ok_inv in H as (d & Hu & _ & -> & ->).
  rewrite update_config_run in *.
  assert (Hcfg : config_file w1 = config_file w0)
    by (apply keeps_config_for_each; intros wb; apply audit_workbook_keeps).
  destruct (config_file w1) as [| | |j]; try discriminate.
  destruct j; try discriminate. cbv zeta in *. simpl in Hu. injection Hu as <-.
  set (t := env_getenv E (py "TABLEAU_TAG")) in *.
  set (o0 := ensure_content_dir w) in *.
  set (o1 := create_tableau_session E _ _ _ _ w0) in *.
  set (o2 := get_workbooks_from_config w0) in *.
  set (o3 := filter_wbs_with_snowflake_connections E req w0) in *.
  set (o4 := for_each wbs (audit_workbook U E t) w0) in *.
  set (s := strftime (env_now E) strftime_format).
  set (c := JObj (dict_set kv (py "date_checkpoint") (JStr s))).
  exists req, c, s,
    (out o0 ++ out o1 ++ out o2 ++ out o3 ++ out o4 ++ [EvLog LogUpdatingConfig]).
  cbn [out world log emit config_file].
  destruct (filter_wbs_run req w0) as (_ & _ & Hok & _). fold o3 in Hok.
  destruct (Hok wbs Hf) as (Hwbs & Hpop & Hend & Hq).
  assert (H0 : forall X (g : event -> list X),
             (forall p, g (EvMakedirs p) = []) -> flat_map g (out o0) = [])
    by (intros X g Hg; apply ensure_content_dir_quiet, Hg).
  assert (H1 : forall X (g : event -> list X), ignores_log g ->
             (forall p q r s, g (EvSignIn p q r s) = []) -> flat_map g (out o1) = [])
    by (intros X g Hl Hg; apply create_tableau_session_quiet; assumption).
  assert (H2 : forall X (g : event -> list X), ignores_log g ->
             flat_map g (out o2) = [])
    by (intros X g Hl; apply get_workbooks_from_config_quiet; assumption).
  assert (H3 : forall X (g : event -> list X), ignores_log g ->
             (forall r, g (EvQuery r) = []) -> (forall wb, g (EvPopulate wb) = []) ->
             flat_map g (out o3) = [])
    by (intros X g Hl Ha Hb; apply filter_wbs_quiet; assumption).
  assert (H4 : forall X (g : event -> list X), ignores_log g ->
             (forall ep i, g (EvDownload ep i) = []) ->
             (forall e, g (EvPrintExn e) = []) -> (forall p, g (EvParse p) = []) ->
             (forall s, g (EvPrint s) = []) -> (forall x, g (EvUpdate x) = []) ->
             (forall p, g (EvRemove p) = []) -> flat_map g (out o4) = []).
  { intros X g Ha Hb Hc Hd He Hg Hh. apply emits_none_for_each. intros wb.
    apply audit_workbook_quiet; assumption. }
  unfold writes, queries, populated, downloads. rewrite !flat_map_app.
  repeat split.
  - rewrite <- !app_assoc. reflexivity.
  - rewrite H0, H1, H2, H3, H4; hnf; intros; reflexivity.
  - fold (queries (out o3)). rewrite Hq, H0, H1, H2, H4;
      try (hnf; intros; reflexivity). apply app_nil_r.
  - exact Hend.
  - fold (populated (out o3)). rewrite Hpop, H0, H1, H2, H4;
      try (hnf; intros; reflexivity). apply app_nil_r.
  - fold (downloads (out o4)).
    pose proof (proj2 (audit_loop_downloads t wbs w0) Hloop) as Hdl.
    change (for_each wbs (audit_workbook U E t) w0) with o4 in Hdl.
    rewrite Hdl, Hwbs.
    rewrite H0, H1, H2, H3; try (hnf; intros; reflexivity). apply app_nil_r.
Qed.

Lemma fails_clean_bind {A B} (m : M A) (k : A -> M B) :
  emits_none write_of m -> keeps_config m ->
  (forall a, fails_clean (k a)) -> fails_clean (bind m k).
Proof.
  intros Hq Hk Hc w e H. unfold writes.
  rewrite flat_map_out_bind, world_bind, Hq. rewrite res_bind in H.
  destruct (res (m w)) as [a|e']; [|split; [reflexivity | apply Hk]].
  destruct (Hc a _ _ H) as [Hw Hcfg]. split; [exact Hw|].
  rewrite Hcfg. apply Hk.
Qed.

(** What a run that raises has left undone. *)
Lemma main_raise (w : World) (e : exn) :
  res (main U E w) = Raise e ->
  writes (out (main U E w)) = [] /\
  config_file (world (main U E w)) = config_file w.
Proof.
  revert w e. change (fails_clean (main U E)). unfold main.
  apply fails_clean_bind;
    [apply ensure_content_dir_quiet; intros; reflexivity
    |apply ensure_content_dir_keeps|]. intros _.
  apply fails_clean_bind;
    [apply create_tableau_session_quiet; hnf; intros; reflexivity
    |apply keeps_world_config, create_tableau_session_keeps|]. intros _.
  apply fails_clean_bind;
    [apply get_workbooks_from_config_quiet; hnf; intros; reflexivity
    |apply keeps_world_config, get_workbooks_from_config_keeps|]. intros req.
  apply fails_clean_bind;
    [apply filter_wbs_quiet; hnf; intros; reflexivity
    |apply keeps_world_config, filter_wbs_keeps|]. intros wbs.
  apply fails_clean_bind;
    [apply emits_none_for_each; intros wb; apply audit_workbook_quiet;
       hnf; intros; reflexivity
    |apply keeps_config_for_each; intros wb; apply audit_workbook_keeps|].
  intros _ w e H. unfold writes.
  rewrite flat_map_out_bind, world_bind. rewrite res_bind in H.
  rewrite update_config_run in *.
  destruct (config_file w) as [| | |j] eqn:Hc; simpl in *; auto.
  destruct j; simpl in *; auto. discriminate.
Qed.

(** What a run does when the catalog lists nothing. *)
Lemma main_empty (w : World) (kv : list (str * json)) (n : Z) (d : json) :
  env_getenv E (py "PAT_NAME") <> None ->
  env_getenv E (py "PAT_VALUE") <> None ->
  env_sign_in E (env_getenv E (py "PAT_NAME")) (env_getenv E (py "PAT_VALUE"))
    (env_getenv E (py "SITE_ID")) (env_getenv E (py "SERVER_ADDRESS")) = Ok tt ->
  config_file w = FileJson (JObj kv) ->
  dict_get kv (py "content_size") = Some (JInt n) ->
  dict_get kv (py "date_checkpoint") = Some d ->
  (forall l, d <> JArr l) ->
  let req :=
    mk_req [ mk_filter (py "size") LessThanOrEqual (JInt (n * 1024 * 1024));
             mk_filter (py "updatedAt") GreaterThanOrEqual d ] in
  listed (env_pager E req) = [] ->
  listing_error (env_pager E req) = None ->
  let o := main U E w in
  let c := JObj (dict_set kv (py "date_checkpoint")
                   (JStr (strftime (env_now E) strftime_format))) in
  res o = Ok tt /\ writes (out o) = [c] /\
  config_file (world o) = FileJson c /\
  downloads (out o) = [] /\ updates (out o) = [].
Proof.
  intros Hname Hvalue Hsign Hcfg Hsize Hdate Hlist req Hnone Hend o c.
  pose proof (ensure_content_dir_keeps w) as Hk. rewrite Hcfg in Hk.
  pose proof (ensure_content_dir_quiet write_of (fun _ => eq_refl) w) as Hw0.
  pose proof (ensure_content_dir_quiet download_of (fun _ => eq_refl) w) as Hd0.
  pose proof (ensure_content_dir_quiet update_of (fun _ => eq_refl) w) as Hu0.
  pose proof (ensure_content_dir_ok w) as Hr0.
  set (o0 := ensure_content_dir w) in *. set (w0 := world o0) in *.
  pose proof (create_tableau_session_ok _ _ (env_getenv E (py "SERVER_ADDRESS"))
                (env_getenv E (py "SITE_ID")) w0 Hname Hvalue Hsign) as H1.
  pose proof (get_workbooks_from_config_run w0 kv n d Hk Hsize Hdate Hlist) as H2.
  fold req in H2.
  destruct (filter_wbs_run req w0) as (_ & _ & _ & Htot).
  rewrite Hnone, Hend in Htot. destruct (Htot (List.Forall_nil _)) as (_ & _ & H3).
  cbn [List.filter] in H3.
  pose proof (filter_wbs_keeps req w0) as Hk3.
  pose proof (filter_wbs_quiet write_of req
                (fun _ => eq_refl) (fun _ => eq_refl) (fun _ => eq_refl) w0) as Hw3.
  pose proof (filter_wbs_quiet download_of req
                (fun _ => eq_refl) (fun _ => eq_refl) (fun _ => eq_refl) w0) as Hd3.
  pose proof (filter_wbs_quiet update_of req
                (fun _ => eq_refl) (fun _ => eq_refl) (fun _ => eq_refl) w0) as Hu3.
  set (o3 := filter_wbs_with_snowflake_connections E req w0) in *.
  subst o. unfold main.
  rewrite (bind_ok _ _ w tt (ensure_content_dir_ok w)). fold o0. fold w0.
  rewrite (bind_ok _ _ w0 tt) by (rewrite H1; reflexivity).
  rewrite H1. cbn [res world out].
  rewrite (bind_ok _ _ w0 req) by (rewrite H2; reflexivity).
  rewrite H2. cbn [res world out].
  rewrite (bind_ok _ _ w0 []) by exact H3.
  fold o3. rewrite Hk3. cbn [for_each]. rewrite bind_ret_l.
  rewrite (bind_ok _ _ w0 (strftime (env_now E) strftime_format))
    by (rewrite update_config_run, Hk; reflexivity).
  rewrite update_config_run, Hk. cbv zeta. cbn [res world out log emit config_file].
  unfold writes, downloads, updates. rewrite !flat_map_app, Hw0, Hd0, Hu0.
  rewrite Hw3, Hd3, Hu3. repeat split; reflexivity.
Qed.

(** What the formatting of the date gives, and how it reads back. *)
Lemma dict_get_set_same (kv : list (str * json)) (key : str) (v : json) :
  dict_get (dict_set kv key v) key = Some v.
Proof.
  induction kv as [|[k x] kv IH]; simpl.
  - rewrite str_eqb_refl. reflexivity.
  - destruct (str_eqb k key) eqn:Hk; simpl; rewrite Hk; [reflexivity | exact IH].
Qed.

Lemma dict_get_set_other (kv : list (str * json)) (key key' : str) (v : json) :
  key' <> key -> dict_get (dict_set kv key v) key' = dict_get kv key'.
Proof.
  intros Hne. induction kv as [|[k x] kv IH]; simpl.
  - destruct (str_eqb key key') eqn:Hk; [|reflexivity].
    apply str_eqb_eq in Hk. congruence.
  - destruct (str_eqb k key) eqn:Hk; simpl.
    + apply str_eqb_eq in Hk. subst k.
      destruct (str_eqb key key') eqn:Hk'; [|reflexivity].
      apply str_eqb_eq in Hk'. congruence.
    + rewrite IH. reflexivity.
Qed.

Lemma is_digit_low (n : N) : is_digit (48 + n mod 10) = true.
Proof.
  unfold is_digit. pose proof (N.mod_upper_bound n 10 ltac:(discriminate)).
  set (r := n mod 10) in *. clearbody r.
  apply andb_true_iff. split; apply N.leb_le; lia.
Qed.

Lemma digits_length (k : nat) (n : N) : length (digits k n) = k.
Proof.
  revert n. induction k as [|k IH]; intros n; simpl; [reflexivity|].
  rewrite length_app, IH. simpl. lia.
Qed.

Lemma number_from_app (acc : N) (ds : str) (c : N) :
  number_from acc (ds ++ [c]) =
    match number_from acc ds with
    | Some v => if is_digit c then Some (10 * v + (c - 48)) else None
    | None => None
    end.
Proof.
  revert acc. induction ds as [|x ds IH]; intros acc; simpl; [reflexivity|].
  destruct (is_digit x); [apply IH | reflexivity].
Qed.

Lemma number_digits (k : nat) (n : N) :
  number (digits k n) = Some (n mod 10 ^ N.of_nat k).
Proof.
  unfold number. revert n. induction k as [|k IH]; intros n.
  - simpl. rewrite N.mod_1_r. reflexivity.
  - cbn [digits]. rewrite number_from_app, IH, is_digit_low. f_equal.
    rewrite Nat2N.inj_succ, N.pow_succ_r', N.Div0.mod_mul_r.
    set (r := n mod 10). set (q := (n / 10) mod _). clearbody r q. lia.
Qed.

Lemma year_digits_four (y : N) : 1000 <= y -> year_digits y = digits 4 y.
Proof.
  intros H. unfold year_digits.
  replace (y <? 10) with false by (symmetry; apply N.ltb_ge; lia).
  replace (y <? 100) with false by (symmetry; apply N.ltb_ge; lia).
  replace (y <? 1000) with false by (symmetry; apply N.ltb_ge; lia).
  reflexivity.
Qed.

Lemma strftime_checkpoint (d : datetime) :
  strftime d strftime_format =
    year_digits (year d) ++ [45] ++ digits 2 (month d) ++ [45] ++
    digits 2 (day d) ++ [84] ++ digits 2 (hour d) ++ [58] ++
    digits 2 (minute d) ++ [58] ++ digits 2 (second d) ++ [90].
Proof. reflexivity. Qed.

Lemma parse_strftime (d : datetime) :
  datetime_ok d = true ->
  parse_iso_z (strftime d strftime_format) = Some (truncate_second d) /\
  length (strftime d strftime_format) = 20%nat.
Proof.
  intros Hok. unfold datetime_ok in Hok.
  repeat (apply andb_true_iff in Hok as [Hok ?]).
  repeat match goal with
         | H : (_ <=? _) = true |- _ => apply N.leb_le in H
         | H : (_ <? _) = true |- _ => apply N.ltb_lt in H
         end.
  rewrite strftime_checkpoint, year_digits_four by assumption.
  pose proof (number_digits 4 (year d)) as Hy.
  pose proof (number_digits 2 (month d)) as Hm.
  pose proof (number_digits 2 (day d)) as Hd.
  pose proof (number_digits 2 (hour d)) as Hh.
  pose proof (number_digits 2 (minute d)) as Hn.
  pose proof (number_digits 2 (second d)) as Hs.
  rewrite N.mod_small in Hy, Hm, Hd, Hh, Hn, Hs
    by (change (10 ^ N.of_nat 4) with 10000 || change (10 ^ N.of_nat 2) with 100;
        lia).
  pose proof (digits_length 4 (year d)) as Ly.
  pose proof (digits_length 2 (month d)) as Lm.
  pose proof (digits_length 2 (day d)) as Ld.
  pose proof (digits_length 2 (hour d)) as Lh.
  pose proof (digits_length 2 (minute d)) as Ln.
  pose proof (digits_length 2 (second d)) as Ls.
  destruct (digits 4 (year d)) as [|y1 [|y2 [|y3 [|y4 [|]]]]]; try discriminate.
  destruct (digits 2 (month d)) as [|m1 [|m2 [|]]]; try discriminate.
  destruct (digits 2 (day d)) as [|d1 [|d2 [|]]]; try discriminate.
  destruct (digits 2 (hour d)) as [|h1 [|h2 [|]]]; try discriminate.
  destruct (digits 2 (minute d)) as [|n1 [|n2 [|]]]; try discriminate.
  destruct (digits 2 (second d)) as [|s1 [|s2 [|]]]; try discriminate.
  split; [|reflexivity].
  cbn [app parse_iso_z]. change ((45 =? 45) && (45 =? 45) && (84 =? 84)
    && (58 =? 58) && (58 =? 58) && (90 =? 90)) with true. cbv iota.
  rewrite Hy, Hm, Hd, Hh, Hn, Hs. reflexivity.
Qed.

End Steps.

(** ** The remediation decision *)

(** C1, where the code departs from it: in the sample catalog, when the
    second Snowflake connection of [Sales] has no initial SQL, the file
    of the workbook holds one Snowflake connection without the query
    tag, so that the number of such connections is greater than zero;
    the audit of the workbook raises [AttributeError] on that
    connection, and the workbook is not sent to the update operation,
    neither by the audit nor anywhere in the run. *)
Theorem tag_missed_without_initial_sql :
  let E := Cases.bare_connection in
  let conns := flatten_then_filter Cases.bare_datasources (py "snowflake") in
  let o := audit_workbook Sample.tables E (Some Sample.remediation_tag)
             Sample.sales Sample.start in
  res (get_connections_for_dbclass E (py "content/Sales.twbx") (py "snowflake")
         Sample.start) = Ok conns /\
  non_compliant_count Sample.tables conns = 1%nat /\
  res o = Raise AttributeError /\
  updates (out o) = [] /\
  res (main Sample.tables E Sample.start) = Raise AttributeError /\
  updates (out (main Sample.tables E Sample.start)) = [].
Proof. vm_compute. repeat split. Qed.

(** X24: when a workbook is downloaded, its file is classified and every
    Snowflake connection found has an initial SQL, the loop over these
    connections returns the number of them without the query tag, and
    the workbook is sent to the catalog's update operation, with the tag
    added, if and only if that number is greater than zero; when it is
    zero, as it is when no connection was classified, nothing is sent. *)
Theorem tag_iff_non_compliant (U : Unicode.tables) (E : Env) (t : tag)
  (wb : WorkbookItem) (w : World) (f : str) (conns : list Connection) :
  let o1 := download_resource E (wb_id wb) (py "workbook") w in
  let o2 := get_connections_for_dbclass E f (py "snowflake") (world o1) in
  res o1 = Ok f -> res o2 = Ok conns ->
  Forall (fun c => initial_sql c <> None) conns ->
  let n := non_compliant_count U conns in
  let o := audit_workbook U E t wb w in
  res (count_missing_query_tag U conns 0 (world o2)) = Ok n /\
  (In (tagged wb t) (updates (out o)) <-> (0 < n)%nat) /\
  updates (out o) = (if (0 <? n)%nat then [tagged wb t] else []) /\
  (n = 0%nat -> updates (out o) = []) /\
  (conns = [] -> updates (out o) = []).
Proof.
  intros o1 o2 H1 H2 Hsql n o.
  assert (H3 : res (count_missing_query_tag U conns 0 (world o2)) = Ok n)
    by (apply (count_missing_total U conns 0 (world o2) Hsql)).
  pose proof (audit_workbook_run U E t wb w) as Hrun. cbv zeta in Hrun.
  fold o1 in Hrun. rewrite H1 in Hrun. fold o2 in Hrun. rewrite H2 in Hrun.
  rewrite H3 in Hrun. fold o in Hrun. destruct Hrun as [Hu _].
  split; [exact H3|]. rewrite Hu.
  assert (Hnil : conns = [] -> n = 0%nat) by (intros ->; reflexivity).
  destruct n as [|n']; simpl.
  - repeat split; try tauto; try lia.
  - repeat split; try (intros; lia); auto.
    intros Hc. discriminate (Hnil Hc).
Qed.

(** In the sample run, [Sales] has one connection without the query tag
    and is sent to the update operation. *)
Lemma tag_iff_non_compliant_sample :
  let o := audit_workbook Sample.tables Sample.env (Some Sample.remediation_tag)
             Sample.sales Sample.start in
  (In (tagged Sample.sales (Some Sample.remediation_tag)) (updates (out o))
   <-> (0 < 1)%nat) /\
  updates (out o) = [tagged Sample.sales (Some Sample.remediation_tag)].
Proof.
  pose proof (tag_iff_non_compliant Sample.tables Sample.env
                (Some Sample.remediation_tag) Sample.sales Sample.start
                (py "content/Sales.twbx")
                (flatten_then_filter Sample.sales_datasources (py "snowflake")))
    as H.
  cbv zeta in H.
  destruct (H ltac:(vm_compute; reflexivity) ltac:(vm_compute; reflexivity)
              ltac:(repeat constructor; discriminate))
    as (_ & Hiff & Hu & _).
  split; [exact Hiff | exact Hu].
Defined.

(** ** The checkpoint *)

(** C3, where the code departs from it: on a machine two hours east of
    UTC, at 01:04:05 UTC on 2 June 2024, the advance of the checkpoint
    writes [2024-06-02T03:04:05Z], the wall-clock time of the local zone
    followed by the letter [Z], and leaves [content_size] as it was; the
    instant in UTC is [2024-06-02T01:04:05Z], two hours earlier than the
    instant the text written denotes. *)
Theorem checkpoint_is_local_time :
  let E := Cases.paris in
  let o := update_workbook_config_with_date_checkpoint E Sample.start in
  res o = Ok (py "2024-06-02T03:04:05Z") /\
  config_file (world o) =
    FileJson (JObj [ (py "content_size", JInt 50);
                     (py "date_checkpoint", JStr (py "2024-06-02T03:04:05Z")) ]) /\
  parse_iso_z (py "2024-06-02T03:04:05Z") = Some (truncate_second (env_now E)) /\
  strftime (env_utcnow E) strftime_format = py "2024-06-02T01:04:05Z" /\
  parse_iso_z (py "2024-06-02T01:04:05Z") = Some (truncate_second (env_utcnow E)) /\
  truncate_second (env_now E) <> truncate_second (env_utcnow E).
Proof. vm_compute. repeat split. discriminate. Qed.

(** The text written for a date does not depend on its microseconds. *)
Lemma strftime_truncate (d : datetime) :
  strftime (truncate_second d) strftime_format = strftime d strftime_format.
Proof. reflexivity. Qed.

(** X25: when the configuration is a JSON object and the clock returns a
    date from the year 1000 on, the advance of the checkpoint returns,
    and it writes the configuration with [date_checkpoint] set to a text
    of twenty characters that reads, in the shape [YYYY-MM-DDTHH:MM:SSZ],
    as the wall-clock time of the local zone truncated to the second;
    every other key, and [content_size] with them, keeps its value.  The
    text is the instant in UTC exactly when the local time and the time
    in UTC agree to the second. *)
Theorem advance_checkpoint (E : Env) (w : World) (kv : list (str * json)) :
  config_file w = FileJson (JObj kv) ->
  datetime_ok (env_now E) = true ->
  let o := update_workbook_config_with_date_checkpoint E w in
  exists s kv',
    res o = Ok s /\
    config_file (world o) = FileJson (JObj kv') /\
    writes (out o) = [JObj kv'] /\
    dict_get kv' (py "date_checkpoint") = Some (JStr s) /\
    s = strftime (env_now E) (py "%Y-%m-%dT%H:%M:%SZ") /\
    parse_iso_z s = Some (truncate_second (env_now E)) /\
    length s = 20%nat /\
    dict_get kv' (py "content_size") = dict_get kv (py "content_size") /\
    (forall k, k <> py "date_checkpoint" -> dict_get kv' k = dict_get kv k) /\
    (datetime_ok (env_utcnow E) = true ->
     (s = strftime (env_utcnow E) (py "%Y-%m-%dT%H:%M:%SZ") <->
      truncate_second (env_now E) = truncate_second (env_utcnow E))).
Proof.
  intros Hcfg Hok o. subst o. rewrite update_config_run, Hcfg. cbv zeta.
  destruct (parse_strftime _ Hok) as [Hparse Hlen].
  exists (strftime (env_now E) strftime_format).
  exists (dict_set kv (py "date_checkpoint")
            (JStr (strftime (env_now E) strftime_format))).
  cbn [res world out config_file].
  repeat split; try reflexivity; try assumption.
  - apply dict_get_set_same.
  - apply dict_get_set_other. intros H. vm_compute in H. discriminate H.
  - intros k Hk. apply dict_get_set_other. exact Hk.
  - intros Heq. destruct (parse_strftime _ H) as [Hutc _].
    fold strftime_format in Heq. rewrite <- Heq, Hparse in Hutc.
    congruence.
  - intros Heq. fold strftime_format.
    rewrite <- (strftime_truncate (env_now E)), Heq. apply strftime_truncate.
Qed.

(** In the sample run, the checkpoint becomes [2024-06-02T03:04:05Z]. *)
Lemma advance_checkpoint_sample :
  let o := update_workbook_config_with_date_checkpoint Sample.env Sample.start in
  exists s kv',
    res o = Ok s /\
    config_file (world o) = FileJson (JObj kv') /\
    dict_get kv' (py "date_checkpoint") = Some (JStr s) /\
    s = py "2024-06-02T03:04:05Z" /\
    dict_get kv' (py "content_size") = Some (JInt 50).
Proof.
  destruct (advance_checkpoint Sample.env Sample.start Sample.config
              eq_refl ltac:(vm_compute; reflexivity))
    as (s & kv' & Hres & Hcfg & _ & Hget & Hs & _ & _ & Hsize & _ & _).
  exists s, kv'. repeat split; assumption.
Defined.

(** C4: a run that ends has written the configuration once, as its last
    action before the closing line of the log, after every request of
    the listing was sent and the listing ran to its end, the live
    connections of every listed workbook were fetched and every workbook
    with a Snowflake connection was downloaded; a run that raises has
    written nothing and leaves the configuration as it was; a run over an
    empty listing ends and writes the configuration with the new date. *)
Theorem checkpoint_advanced_once (U : Unicode.tables) (E : Env) (w : World) :
  let o := main U E w in
  (res o = Ok tt ->
   exists req c d pre,
     out o = pre ++ [EvWriteConfig c; EvLog (LogUpdatedConfigDate d)] /\
     writes pre = [] /\ writes (out o) = [c] /\
     config_file (world o) = FileJson c /\
     queries pre = repeat req (requests (env_pager E req)) /\
     listing_error (env_pager E req) = None /\
     populated pre = listed (env_pager E req) /\
     downloads pre =
       List.map wb_id
         (List.filter (has_snowflake_connection E) (listed (env_pager E req)))) /\
  (forall e, res o = Raise e ->
     writes (out o) = [] /\ config_file (world o) = config_file w) /\
  (forall kv n d,
     env_getenv E (py "PAT_NAME") <> None ->
     env_getenv E (py "PAT_VALUE") <> None ->
     env_sign_in E (env_getenv E (py "PAT_NAME")) (env_getenv E (py "PAT_VALUE"))
       (env_getenv E (py "SITE_ID")) (env_getenv E (py "SERVER_ADDRESS")) = Ok tt ->
     config_file w = FileJson (JObj kv) ->
     dict_get kv (py "content_size") = Some (JInt n) ->
     dict_get kv (py "date_checkpoint") = Some d ->
     (forall l, d <> JArr l) ->
     let req :=
       mk_req [ mk_filter (py "size") LessThanOrEqual (JInt (n * 1024 * 1024));
                mk_filter (py "updatedAt") GreaterThanOrEqual d ] in
     listed (env_pager E req) = [] ->
     listing_error (env_pager E req) = None ->
     let c := JObj (dict_set kv (py "date_checkpoint")
                      (JStr (strftime (env_now E) strftime_format))) in
     res o = Ok tt /\ writes (out o) = [c] /\
     config_file (world o) = FileJson c /\
     downloads (out o) = [] /\ updates (out o) = []).
Proof.
  intros o. split; [|split].
  - intros Hok. destruct (main_ok U E w Hok)
      as (req & c & d & pre & Hout & Hw & Hq & Hend & Hpop & Hdl & Hcfg).
    exists req, c, d, pre. fold o in Hout, Hcfg.
    repeat split; try assumption.
    rewrite Hout. unfold writes in *. rewrite flat_map_app, Hw. reflexivity.
  - intros e He. exact (main_raise U E w e He).
  - intros kv n d Hname Hvalue Hsign Hcfg Hsize Hdate Hlist req Hnone Hend.
    exact (main_empty U E w kv n d Hname Hvalue Hsign Hcfg Hsize Hdate Hlist
             Hnone Hend).
Qed.

(** The sample catalog when it lists nothing, and when it refuses a
    download. *)
Lemma checkpoint_advanced_once_sample :
  (res (main Sample.tables Sample.empty_env Sample.start) = Ok tt /\
   writes (out (main Sample.tables Sample.empty_env Sample.start)) =
     [JObj [ (py "content_size", JInt 50);
             (py "date_checkpoint", JStr (py "2024-06-02T03:04:05Z")) ]]) /\
  (writes (out (main Sample.tables Sample.refusing_env Sample.start)) = [] /\
   config_file (world (main Sample.tables Sample.refusing_env Sample.start)) =
     config_file Sample.start).
Proof.
  split.
  - destruct (checkpoint_advanced_once Sample.tables Sample.empty_env Sample.start)
      as (_ & _ & Hempty).
    destruct (Hempty Sample.config 50%Z (JStr (py "2024-01-01T00:00:00Z"))
                ltac:(discriminate) ltac:(discriminate) eq_refl eq_refl eq_refl
                eq_refl ltac:(discriminate) eq_refl eq_refl) as (Hres & Hw & _).
    split; [exact Hres|]. rewrite Hw. vm_compute. reflexivity.
  - destruct (checkpoint_advanced_once Sample.tables Sample.refusing_env Sample.start)
      as (_ & Hraise & _).
    apply (Hraise (ServerResponseError 403)). vm_compute. reflexivity.
Defined.

(** ** The classification of connections *)

(** C6: on a file name that ends in none of [.twb], [.twbx], [.tds] and
    [.tdsx], the classification returns the empty list without raising,
    after printing [Unsupported file type], and parses nothing; a
    workbook downloaded under such a name is audited to the end with no
    connection counted and is not sent to the update operation. *)
Theorem unsupported_file_type (U : Unicode.tables) (E : Env) (t : tag)
  (wb : WorkbookItem) (w : World) (f : str) :
  is_workbook_package f = false ->
  is_datasource_package f = false ->
  (forall target w',
     get_connections_for_dbclass E f target w' =
       mk_outcome (Ok []) w'
         [EvLog (LogGettingConnections f target);
          EvPrint (py "Unsupported file type")]) /\
  (env_download E Workbooks (wb_id wb) = Ok f ->
   let o := audit_workbook U E t wb w in
   res o = Ok tt /\ updates (out o) = [] /\
   printed (out o) = [py "Unsupported file type"]).
Proof.
  intros Hw Hd. split.
  - intros target w'. apply get_connections_unsupported; assumption.
  - intros Hdl o.
    assert (Hrun : o =
              mk_outcome (Ok tt)
                (mk_world (config_file w) (content_dir w)
                   (({[ f ]} ∪ files w) ∖ {[ f ]}))
                [EvLog (LogDownloadingWorkbook (wb_name wb));
                 EvLog (LogDownloading (py "workbook") (wb_id wb));
                 EvDownload Workbooks (wb_id wb);
                 EvLog (LogGettingConnections f (py "snowflake"));
                 EvPrint (py "Unsupported file type");
                 EvRemove f]).
    { subst o. unfold audit_workbook, bind. cbv zeta.
      rewrite download_workbook, Hdl.
      cbn [res world out log emit].
      rewrite (get_connections_unsupported E f _ _ Hw Hd).
      cbn [res world out count_missing_query_tag ret].
      unfold tag_if_missing. cbn [Nat.ltb Nat.leb ret res world out].
      unfold os_remove. cbn [files].
      destruct (decide (f ∈ {[ f ]} ∪ files w)) as [_|Hnot];
        [reflexivity | exfalso; apply Hnot; set_solver]. }
    rewrite Hrun. repeat split.
Qed.

(** In the sample run, [Notes] downloads as a [.txt] file. *)
Lemma unsupported_file_type_sample :
  let o := audit_workbook Sample.tables Sample.env (Some Sample.remediation_tag)
             Sample.notes Sample.start in
  res o = Ok tt /\ updates (out o) = [] /\
  printed (out o) = [py "Unsupported file type"].
Proof.
  destruct (unsupported_file_type Sample.tables Sample.env
              (Some Sample.remediation_tag) Sample.notes Sample.start
              (py "content/Notes.txt") eq_refl eq_refl) as [_ H].
  exact (H eq_refl).
Defined.

(** C7: on a file name that ends in [.twb] or [.twbx], or else in [.tds]
    or [.tdsx], and that the parser opens, the classification returns
    the connections of all the datasources of the file, in the order met,
    that have the target class, and only them; it returns a list, the
    empty one when no connection has the class. *)
Theorem get_connections_for_dbclass_spec (E : Env) (f target : str) (w : World)
  (dss : list Datasource) :
  (is_workbook_package f = true /\ env_workbook E f = Ok dss) \/
  (is_workbook_package f = false /\ is_datasource_package f = true /\
   exists ds, env_datasource E f = Ok ds /\ dss = [ds]) ->
  let o := get_connections_for_dbclass E f target w in
  res o = Ok (flatten_then_filter dss target) /\
  (forall c, In c (flatten_then_filter dss target) <->
             In c (flat_map connections dss) /\ dbclass c = Some target) /\
  ((forall c, In c (flat_map connections dss) -> dbclass c <> Some target) ->
   res o = Ok []).
Proof.
  intros Hkind o.
  assert (Hres : res o = Ok (flatten_then_filter dss target)).
  { subst o. destruct Hkind as [[Hw Hopen]|(Hw & Hd & ds & Hopen & ->)].
    - rewrite (get_connections_workbook E f target w Hw), Hopen. reflexivity.
    - rewrite (get_connections_datasource E f target w Hw Hd), Hopen. reflexivity. }
  assert (Hin : forall c, In c (flatten_then_filter dss target) <->
                          In c (flat_map connections dss) /\ dbclass c = Some target).
  { intros c. unfold flatten_then_filter.
    rewrite List.filter_In, opt_str_eqb_eq. reflexivity. }
  split; [exact Hres|]. split; [exact Hin|].
  intros Hnone. rewrite Hres. f_equal.
  destruct (flatten_then_filter dss target) as [|c l] eqn:Hl; [reflexivity|].
  assert (Hc : In c (c :: l)) by (left; reflexivity).
  apply Hin in Hc as [Hc Hcls]. destruct (Hnone c Hc Hcls).
Qed.

(** In the sample run, the file of [Sales] holds three connections, two
    of them of class [snowflake]. *)
Lemma get_connections_for_dbclass_sample :
  res (get_connections_for_dbclass Sample.env (py "content/Sales.twbx")
         (py "snowflake") Sample.start) =
  Ok [ mk_conn (Some (py "snowflake")) (Some (py "PROD")) (Some (py "SELECT 1"));
       mk_conn (Some (py "snowflake")) (Some (py "DEV"))
         (Some (py "  alter session set query_tag = 'x'  ")) ].
Proof.
  destruct (get_connections_for_dbclass_spec Sample.env (py "content/Sales.twbx")
              (py "snowflake") Sample.start Sample.sales_datasources
              (or_introl (conj eq_refl eq_refl))) as [H _].
  exact H.
Defined.

(** ** The candidates *)

(** C8: when the configuration is a JSON object whose [content_size] is
    an integer and whose [date_checkpoint] is not a list, the request
    built from it carries two filters, [size] less than or equal to
    [content_size] times 1024 * 1024 and [updatedAt] greater than or
    equal to [date_checkpoint]; every request the pager sends to the
    catalog is this one, and it sends at least one; a workbook satisfies
    the request when it satisfies both filters. *)
Theorem candidate_request (E : Env) (w : World) (kv : list (str * json))
  (n : Z) (d : json) :
  config_file w = FileJson (JObj kv) ->
  dict_get kv (py "content_size") = Some (JInt n) ->
  dict_get kv (py "date_checkpoint") = Some d ->
  (forall l, d <> JArr l) ->
  let limit := JInt (n * (1024 * 1024)) in
  let req :=
    mk_req [ mk_filter (py "size") LessThanOrEqual limit;
             mk_filter (py "updatedAt") GreaterThanOrEqual d ] in
  res (get_workbooks_from_config w) = Ok req /\
  (forall w', exists k,
     queries (out (filter_wbs_with_snowflake_connections E req w'))
       = repeat req (S k) /\
     (S k <= requests (env_pager E req))%nat) /\
  (forall le attr,
     request_accepts le attr req =
       le (attr (py "size")) limit && le d (attr (py "updatedAt"))).
Proof.
  intros Hcfg Hsize Hdate Hlist limit req. repeat split.
  - rewrite (get_workbooks_from_config_run w kv n d Hcfg Hsize Hdate Hlist).
    subst req limit. simpl. rewrite <- Z.mul_assoc. reflexivity.
  - intros w'. apply (filter_wbs_run E req w').
  - intros le attr. unfold request_accepts. simpl.
    unfold filter_holds. simpl. rewrite andb_true_r. reflexivity.
Qed.

(** In the sample run, fifty megabytes are 52428800 bytes. *)
Lemma candidate_request_sample :
  res (get_workbooks_from_config Sample.start) =
  Ok (mk_req [ mk_filter (py "size") LessThanOrEqual (JInt 52428800);
               mk_filter (py "updatedAt") GreaterThanOrEqual
                 (JStr (py "2024-01-01T00:00:00Z")) ]).
Proof.
  destruct (candidate_request Sample.env Sample.start Sample.config 50%Z
              (JStr (py "2024-01-01T00:00:00Z")) eq_refl eq_refl eq_refl
              ltac:(discriminate))
    as [H _].
  exact H.
Defined.

(** C9: when the listing ends and the live connections of every listed
    workbook can be fetched, the filter returns the listed workbooks, in
    the order listed, for which the server lists at least one connection
    of type [snowflake], and no other. *)
Theorem filter_wbs_with_snowflake_connections_spec (E : Env)
  (req : RequestOptions) (w : World) :
  Forall (fun wb => exists conns, env_connections E wb = Ok conns)
    (listed (env_pager E req)) ->
  listing_error (env_pager E req) = None ->
  let o := filter_wbs_with_snowflake_connections E req w in
  exists wbs,
    res o = Ok wbs /\
    wbs = List.filter (has_snowflake_connection E) (listed (env_pager E req)) /\
    (forall wb,
        In wb wbs <->
        In wb (listed (env_pager E req)) /\
        exists conns c,
          env_connections E wb = Ok conns /\ In c conns /\
          connection_type c = py "snowflake").
Proof.
  intros Hall Hend o.
  destruct (filter_wbs_run E req w) as (_ & _ & _ & Htot).
  destruct (Htot Hall) as (_ & _ & Hres). rewrite Hend in Hres.
  exists (List.filter (has_snowflake_connection E) (listed (env_pager E req))).
  split; [exact Hres|]. split; [reflexivity|].
  intros wb. rewrite List.filter_In. unfold has_snowflake_connection.
  split; intros [Hin H]; (split; [exact Hin|]).
  - destruct (env_connections E wb) as [conns|e]; [|discriminate].
    apply existsb_exists in H as (c & Hc & Heq). apply str_eqb_eq in Heq.
    exists conns, c. auto.
  - destruct H as (conns & c & -> & Hc & Heq). apply existsb_exists.
    exists c. split; [exact Hc|]. apply str_eqb_eq, Heq.
Qed.

(** In the sample run, [Sales] and [Notes] pass the filter, each once. *)
Lemma filter_wbs_with_snowflake_connections_sample :
  res (filter_wbs_with_snowflake_connections Sample.env (mk_req []) Sample.start)
  = Ok [Sample.sales; Sample.notes].
Proof.
  destruct (filter_wbs_with_snowflake_connections_spec Sample.env (mk_req [])
              Sample.start
              ltac:(repeat constructor; eexists; vm_compute; reflexivity)
              eq_refl) as (wbs & Hres & Hwbs & _).
  rewrite Hres, Hwbs. vm_compute. reflexivity.
Defined.

(** ** Each workbook once *)

Lemma starts_map {X Y} (f : X -> Y) (l l' : list X) :
  starts l l' -> starts (List.map f l) (List.map f l').
Proof. intros [rest ->]. exists (List.map f rest). apply List.map_app. Qed.

Lemma NoDup_map_filter {X Y} (f : X -> Y) (p : X -> bool) (l : list X) :
  List.NoDup (List.map f l) -> List.NoDup (List.map f (List.filter p l)).
Proof.
  induction l as [|x l IH]; simpl; intros H; [constructor|].
  apply List.NoDup_cons_iff in H as [Hnot Hnd].
  destruct (p x); simpl; [|apply IH, Hnd].
  constructor; [|apply IH, Hnd].
  intros Hin. apply Hnot. apply List.in_map_iff in Hin as (y & Hy & Hin).
  apply List.filter_In in Hin as [Hin _]. apply List.in_map_iff. eauto.
Qed.

(** C10: when no listing names a workbook twice, the filter returns no
    workbook twice, whatever the number of its Snowflake connections,
    and in a run the live connections of a workbook are fetched at most
    once, a workbook is downloaded at most once and is sent to the update
    operation at most once. *)
Theorem each_workbook_once (U : Unicode.tables) (E : Env) (w : World) :
  (forall req, List.NoDup (List.map wb_id (listed (env_pager E req)))) ->
  let o := main U E w in
  List.NoDup (List.map wb_id (populated (out o))) /\
  List.NoDup (downloads (out o)) /\
  List.NoDup (List.map wb_id (updates (out o))) /\
  (forall req w' wbs,
     res (filter_wbs_with_snowflake_connections E req w') = Ok wbs ->
     List.NoDup (List.map wb_id wbs)).
Proof.
  intros Hlist o.
  destruct (main_readings U E w) as (items & Hitems & Hrun). cbv zeta in Hrun.
  fold o in Hrun. destruct Hrun as (Hpop & Hdl & Hupd).
  assert (Hnd : List.NoDup (List.map wb_id items)).
  { destruct Hitems as [->|[req ->]]; [constructor | apply Hlist]. }
  pose proof (NoDup_map_filter wb_id (has_snowflake_connection E) items Hnd)
    as Hnd'.
  repeat split.
  - exact (starts_NoDup _ _ (starts_map wb_id _ _ Hpop) Hnd).
  - exact (starts_NoDup _ _ Hdl Hnd').
  - exact (Hupd Hnd').
  - intros req w' wbs Hres.
    destruct (filter_wbs_run E req w') as (_ & _ & Hok & _).
    destruct (Hok wbs Hres) as (-> & _).
    apply NoDup_map_filter, Hlist.
Qed.

(** In the sample run, two workbooks are downloaded and one is tagged. *)
Lemma each_workbook_once_sample :
  let o := main Sample.tables Sample.env Sample.start in
  List.NoDup (downloads (out o)) /\
  List.NoDup (List.map wb_id (updates (out o))) /\
  downloads (out o) = [py "wb-1"; py "wb-2"] /\
  List.map wb_id (updates (out o)) = [py "wb-1"].
Proof.
  assert (Hlist : forall req,
             List.NoDup (List.map wb_id (listed (env_pager Sample.env req)))).
  { intros req. simpl.
    repeat constructor; simpl; intros H;
      repeat (destruct H as [H|H]; [vm_compute in H; discriminate H|]);
      exact H. }
  destruct (each_workbook_once Sample.tables Sample.env Sample.start Hlist)
    as (_ & Hdl & Hupd & _).
  repeat split; try assumption; vm_compute; reflexivity.
Defined.

(** * Further properties *)

#[local] Set Warnings "-clear-no-such-hyp".

(** ** The compliance predicate, beyond the examples *)

Lemma upper_app (U : Unicode.tables) (a b : str) :
  upper U (a ++ b) = upper U a ++ upper U b.
Proof. unfold upper. apply flat_map_app. Qed.

Lemma ascii_space_upper (c : N) :
  ascii_space c = true -> Unicode.ascii_upper c = c.
Proof.
  unfold ascii_space, Unicode.is_whitespace, Unicode.ascii_upper. intros H.
  apply andb_true_iff in H as [Hlt Hws]. apply N.ltb_lt in Hlt.
  destruct ((97 <=? c) && (c <=? 122)) eqn:Hletter; [|reflexivity].
  apply andb_true_iff in Hletter as [Ha Hz].
  apply N.leb_le in Ha. apply N.leb_le in Hz.
  repeat match type of Hws with
         | (_ || _) = true => apply orb_true_iff in Hws as [Hws|Hws]
         end;
    repeat match type of Hws with
           | (_ && _) = true => apply andb_true_iff in Hws as [? Hws]
           end;
    repeat match goal with
           | H : (_ <=? _) = true |- _ => apply N.leb_le in H
           | H : (_ =? _) = true |- _ => apply N.eqb_eq in H
           end; lia.
Qed.

Lemma upper_ascii_space (U : Unicode.tables) (l : str) :
  Forall (fun c => ascii_space c = true) l ->
  upper U l = l /\ Forall (fun c => Unicode.is_whitespace c = true) l.
Proof.
  induction 1 as [|c l Hc _ [IHu IHw]]; [split; [reflexivity|constructor]|].
  split.
  - change (upper U (c :: l)) with (Unicode.to_upper_full U c ++ upper U l).
    rewrite IHu. unfold Unicode.to_upper_full.
    pose proof Hc as Hc'. unfold ascii_space in Hc'.
    apply andb_true_iff in Hc' as [-> _].
    rewrite (ascii_space_upper c Hc). reflexivity.
  - constructor; [|exact IHw]. unfold ascii_space in Hc.
    apply andb_true_iff in Hc. tauto.
Qed.

Lemma strip_between (l x r : str) :
  Forall (fun c => Unicode.is_whitespace c = true) l ->
  Forall (fun c => Unicode.is_whitespace c = true) r ->
  strip (l ++ x ++ r) = strip x.
Proof.
  intros Hl Hr.
  destruct (strip_normal x) as (l0 & r0 & Hx & Hl0 & Hr0 & Hfirst & Hlast).
  apply (strip_unique _ (l ++ l0) _ (r0 ++ r)); try assumption.
  - rewrite Hx at 1. rewrite <- !app_assoc. reflexivity.
  - apply Forall_app; split; assumption.
  - apply Forall_app; split; assumption.
Qed.

(** What [rstrip] leaves is the text before a run of white space. *)
Lemma rstrip_normal (x : str) :
  exists r,
    x = rstrip x ++ r /\
    Forall (fun c => Unicode.is_whitespace c = true) r /\
    (forall c t', rstrip x = t' ++ [c] -> Unicode.is_whitespace c = false).
Proof.
  exists (rev (take_while Unicode.is_whitespace (rev x))). repeat split.
  - unfold rstrip. rewrite <- rev_app_distr, <- take_drop_while.
    symmetry. apply rev_involutive.
  - apply Forall_rev, take_while_all.
  - intros c t' H. unfold rstrip in H. apply (f_equal (@rev N)) in H.
    rewrite rev_involutive, rev_app_distr in H. simpl in H.
    exact (drop_while_head _ _ _ _ H).
Qed.

(** [rstrip] keeps a beginning that ends on another character than white
    space. *)
Lemma rstrip_keeps (p : str) (d : N) (y : str) :
  Unicode.is_whitespace d = false ->
  exists y', rstrip ((p ++ [d]) ++ y) = (p ++ [d]) ++ y'.
Proof.
  intros Hd.
  destruct (rstrip_normal ((p ++ [d]) ++ y)) as (r & Hx & Hr & _).
  set (t := rstrip ((p ++ [d]) ++ y)) in *. clearbody t.
  apply List.app_eq_app in Hx as [l' [[Hp Hy]|[Ht Hy]]].
  - destruct l' as [|c l'] using rev_ind.
    + exists []. rewrite app_nil_r in *. symmetry. exact Hp.
    + clear IHl'. rewrite app_assoc in Hp.
      apply app_inj_tail in Hp as [_ <-].
      rewrite Hy in Hr. apply Forall_app in Hr as [Hr _].
      apply Forall_app in Hr as [_ Hr]. inversion Hr; congruence.
  - exists l'. exact Ht.
Qed.

Lemma ascii_upper_not_space (c : N) :
  (c <? 128) = true -> Unicode.is_whitespace c = false ->
  Unicode.is_whitespace (Unicode.ascii_upper c) = false.
Proof.
  intros Hlt Hws. unfold Unicode.ascii_upper.
  destruct ((97 <=? c) && (c <=? 122)) eqn:Hletter; [|exact Hws].
  apply andb_true_iff in Hletter as [Ha Hz].
  apply N.leb_le in Ha. apply N.leb_le in Hz.
  unfold Unicode.is_whitespace.
  repeat (apply orb_false_iff; split);
    try (apply N.eqb_neq; lia);
    apply andb_false_iff;
    first [left; apply N.leb_gt; lia | right; apply N.leb_gt; lia].
Qed.

Lemma ascii_case_upper (U : Unicode.tables) (s : str) :
  Forall (fun c => (c <? 128) = true) s ->
  upper U (List.map ascii_lower s) = upper U s /\
  upper U (List.map Unicode.ascii_upper s) = upper U s.
Proof.
  induction 1 as [|c s Hc _ [IHl IHu]]; [split; reflexivity|].
  apply N.ltb_lt in Hc.
  assert (Hl : Unicode.to_upper_full U (ascii_lower c) = Unicode.to_upper_full U c).
  { unfold Unicode.to_upper_full, ascii_lower, Unicode.ascii_upper.
    destruct ((65 <=? c) && (c <=? 90)) eqn:Hup.
    - apply andb_true_iff in Hup as [Ha Hz].
      apply N.leb_le in Ha. apply N.leb_le in Hz.
      replace (c + 32 <? 128) with true by (symmetry; apply N.ltb_lt; lia).
      replace (c <? 128) with true by (symmetry; apply N.ltb_lt; lia).
      replace ((97 <=? c + 32) && (c + 32 <=? 122)) with true
        by (symmetry; apply andb_true_iff; split; apply N.leb_le; lia).
      replace ((97 <=? c) && (c <=? 122)) with false
        by (symmetry; apply andb_false_iff; left; apply N.leb_gt; lia).
      f_equal. lia.
    - reflexivity. }
  assert (Hu : Unicode.to_upper_full U (Unicode.ascii_upper c)
               = Unicode.to_upper_full U c).
  { unfold Unicode.to_upper_full, Unicode.ascii_upper.
    destruct ((97 <=? c) && (c <=? 122)) eqn:Hlow.
    - apply andb_true_iff in Hlow as [Ha Hz].
      apply N.leb_le in Ha. apply N.leb_le in Hz.
      replace (c - 32 <? 128) with true by (symmetry; apply N.ltb_lt; lia).
      replace (c <? 128) with true by (symmetry; apply N.ltb_lt; lia).
      replace ((97 <=? c - 32) && (c - 32 <=? 122)) with false
        by (symmetry; apply andb_false_iff; left; apply N.leb_gt; lia).
      reflexivity.
    - rewrite Hlow. reflexivity. }
  split.
  - change (upper U (List.map ascii_lower (c :: s)))
      with (Unicode.to_upper_full U (ascii_lower c)
            ++ upper U (List.map ascii_lower s)).
    rewrite IHl, Hl. reflexivity.
  - change (upper U (List.map Unicode.ascii_upper (c :: s)))
      with (Unicode.to_upper_full U (Unicode.ascii_upper c)
            ++ upper U (List.map Unicode.ascii_upper s)).
    rewrite IHu, Hu. reflexivity.
Qed.

Lemma strip_upper_between (U : Unicode.tables) (l s r : str) :
  Forall (fun c => ascii_space c = true) l ->
  Forall (fun c => ascii_space c = true) r ->
  strip (upper U (l ++ s ++ r)) = strip (upper U s).
Proof.
  intros Hl Hr.
  destruct (upper_ascii_space U l Hl) as [Hul Hwl].
  destruct (upper_ascii_space U r Hr) as [Hur Hwr].
  rewrite !upper_app, Hul, Hur. apply strip_between; assumption.
Qed.

(** X1: ASCII white space before and after an initial SQL does not change
    the verdict on it. *)
Theorem verdict_ignores_ascii_space (U : Unicode.tables) (l s r : str) :
  Forall (fun c => ascii_space c = true) l ->
  Forall (fun c => ascii_space c = true) r ->
  init_sql_has_query_tag U (Some (l ++ s ++ r)) = init_sql_has_query_tag U (Some s).
Proof.
  intros Hl Hr. unfold init_sql_has_query_tag.
  rewrite (strip_upper_between U l s r Hl Hr). reflexivity.
Qed.

Lemma verdict_ignores_ascii_space_sample :
  init_sql_has_query_tag Sample.tables
    (Some ([9; 10] ++ py "select 1" ++ [13; 10; 32]))
  = init_sql_has_query_tag Sample.tables (Some (py "select 1")).
Proof.
  apply (verdict_ignores_ascii_space Sample.tables [9; 10] (py "select 1")
           [13; 10; 32]); repeat constructor.
Defined.

(** X2: the verdict is [True] on every text that begins with the literal
    in any spelling that upper-cases to it, whatever follows: the rest of
    the text is not looked at. *)
Theorem verdict_prefix_only (U : Unicode.tables) (p rest : str) :
  upper U p = query_tag_text ->
  init_sql_has_query_tag U (Some (p ++ rest)) = Ok true.
Proof.
  intros Hp. unfold init_sql_has_query_tag. f_equal.
  rewrite upper_app, Hp. unfold strip, lstrip.
  change query_tag_text with (65 :: py "LTER SESSION SET QUERY_TAG").
  rewrite <- app_comm_cons, drop_while_stop by reflexivity.
  rewrite app_comm_cons.
  change (65 :: py "LTER SESSION SET QUERY_TAG")
    with (py "ALTER SESSION SET QUERY_TA" ++ [71]).
  destruct (rstrip_keeps (py "ALTER SESSION SET QUERY_TA") 71 (upper U rest)
              eq_refl) as [y' ->].
  apply startswith_app.
Qed.

Lemma verdict_prefix_only_sample :
  init_sql_has_query_tag Sample.tables
    (Some (py "Alter Session Set Query_Tag" ++ py "GED; drop table t"))
  = Ok true.
Proof.
  apply (verdict_prefix_only Sample.tables (py "Alter Session Set Query_Tag")).
  vm_compute. reflexivity.
Defined.

(** X3: on an ASCII text the verdict does not depend on the case of the
    letters: it is the verdict on the text in lower case and on the text
    in upper case. *)
Theorem verdict_ignores_ascii_case (U : Unicode.tables) (s : str) :
  Forall (fun c => (c <? 128) = true) s ->
  init_sql_has_query_tag U (Some (List.map ascii_lower s))
    = init_sql_has_query_tag U (Some s) /\
  init_sql_has_query_tag U (Some (List.map Unicode.ascii_upper s))
    = init_sql_has_query_tag U (Some s).
Proof.
  intros Hs. destruct (ascii_case_upper U s Hs) as [Hl Hu].
  unfold init_sql_has_query_tag. rewrite Hl, Hu. split; reflexivity.
Qed.

Lemma verdict_ignores_ascii_case_sample :
  init_sql_has_query_tag Sample.tables
    (Some (List.map ascii_lower (py "Alter Session SET query_tag = 1")))
  = init_sql_has_query_tag Sample.tables
      (Some (py "Alter Session SET query_tag = 1")).
Proof.
  apply (verdict_ignores_ascii_case Sample.tables
           (py "Alter Session SET query_tag = 1")).
  repeat constructor.
Defined.

(** X4: the verdict is [False] on every text whose first character after
    leading ASCII white space is an ASCII character other than white
    space, [a] and [A]: a statement or a comment placed before the
    [ALTER SESSION] hides it. *)
Theorem verdict_false_on_other_start (U : Unicode.tables) (l : str) (c : N)
  (rest : str) :
  Forall (fun c => ascii_space c = true) l ->
  (c <? 128) = true ->
  Unicode.is_whitespace c = false ->
  Unicode.ascii_upper c <> 65 ->
  init_sql_has_query_tag U (Some (l ++ c :: rest)) = Ok false.
Proof.
  intros Hl Hc Hws Hne.
  unfold init_sql_has_query_tag. f_equal.
  rewrite <- (app_nil_r (c :: rest)).
  rewrite (strip_upper_between U l (c :: rest) [] Hl (List.Forall_nil _)).
  change (upper U (c :: rest))
    with (Unicode.to_upper_full U c ++ upper U rest).
  unfold Unicode.to_upper_full. rewrite Hc.
  pose proof (ascii_upper_not_space c Hc Hws) as Hu.
  set (d := Unicode.ascii_upper c) in *.
  unfold strip, lstrip. change ([d] ++ upper U rest) with (d :: upper U rest).
  rewrite drop_while_stop by exact Hu.
  destruct (rstrip_keeps [] d (upper U rest) Hu) as [y' Hy].
  change (([] ++ [d]) ++ upper U rest) with (d :: upper U rest) in Hy.
  rewrite Hy.
  change (startswith (([] ++ [d]) ++ y') query_tag_text)
    with ((65 =? d) && startswith y' (py "LTER SESSION SET QUERY_TAG")).
  replace (65 =? d) with false; [reflexivity|].
  symmetry. apply N.eqb_neq. congruence.
Qed.

Lemma verdict_false_on_other_start_sample :
  init_sql_has_query_tag Sample.tables
    (Some ([32] ++ 45 :: py "- tag" ++ [10]
           ++ py "ALTER SESSION SET QUERY_TAG = 'x'"))
  = Ok false.
Proof.
  apply (verdict_false_on_other_start Sample.tables [32] 45).
  - repeat constructor.
  - reflexivity.
  - reflexivity.
  - vm_compute. discriminate.
Defined.

(** ** Downloads *)

(** X5: asked for a resource type other than [workbook] and [datasource],
    the download raises [ValueError] after its line in the log: no
    request is sent and no file is written. *)
Theorem download_resource_rejects_type (E : Env) (i rt : str) (w : World) :
  rt <> py "workbook" -> rt <> py "datasource" ->
  download_resource E i rt w =
    mk_outcome (Raise ValueError) w [EvLog (LogDownloading rt i)].
Proof.
  intros Hw Hd. unfold download_resource.
  replace (str_eqb rt (py "workbook")) with false
    by (symmetry; destruct (str_eqb rt (py "workbook")) eqn:H;
        [apply str_eqb_eq in H; contradiction | reflexivity]).
  replace (str_eqb rt (py "datasource")) with false
    by (symmetry; destruct (str_eqb rt (py "datasource")) eqn:H;
        [apply str_eqb_eq in H; contradiction | reflexivity]).
  reflexivity.
Qed.

Lemma download_resource_rejects_type_sample :
  download_resource Sample.env (py "wb-1") (py "flow") Sample.start =
    mk_outcome (Raise ValueError) Sample.start
      [EvLog (LogDownloading (py "flow") (py "wb-1"))].
Proof.
  apply (download_resource_rejects_type Sample.env (py "wb-1") (py "flow"));
    intros H; vm_compute in H; discriminate H.
Defined.

(** The download of a datasource, as [download_workbook] for a workbook. *)
Lemma download_datasource (E : Env) (i : str) (w : World) :
  download_resource E i (py "datasource") w =
    match env_download E Datasources i with
    | Ok path =>
        mk_outcome (Ok path)
          (mk_world (config_file w) (content_dir w) ({[ path ]} ∪ files w))
          [EvLog (LogDownloading (py "datasource") i); EvDownload Datasources i]
    | Raise e =>
        mk_outcome (Raise e) w
          ([EvLog (LogDownloading (py "datasource") i); EvDownload Datasources i]
           ++ match e with ServerResponseError _ => [EvPrintExn e] | _ => [] end)
    end.
Proof.
  unfold download_resource.
  change (negb (str_eqb (py "datasource") (py "workbook")
                || str_eqb (py "datasource") (py "datasource"))) with false.
  change (str_eqb (py "datasource") (py "workbook")) with false.
  unfold bind, try_except, endpoint_download, log, emit. simpl.
  destruct (env_download E Datasources i) as [path|e]; simpl; [reflexivity|].
  destruct e; reflexivity.
Qed.

(** X6: asked for a workbook or a datasource, the download sends one
    request, to the endpoint of that type; when the endpoint answers
    with a path, the path is returned and the file is on disk. *)
Theorem download_resource_returns (E : Env) (i rt : str) (ep : endpoint)
  (path : str) (w : World) :
  (rt = py "workbook" /\ ep = Workbooks) \/
  (rt = py "datasource" /\ ep = Datasources) ->
  env_download E ep i = Ok path ->
  let o := download_resource E i rt w in
  res o = Ok path /\
  out o = [EvLog (LogDownloading rt i); EvDownload ep i] /\
  path ∈ files (world o) /\
  files w ⊆ files (world o) /\
  config_file (world o) = config_file w.
Proof.
  intros [[-> ->]|[-> ->]] Hdl o; subst o;
    [rewrite download_workbook | rewrite download_datasource];
    rewrite Hdl; simpl; repeat split; set_solver.
Qed.

Lemma download_resource_returns_sample :
  let o := download_resource Sample.env (py "ds-9") (py "datasource")
             Sample.start in
  res o = Ok (py "content/Notes.txt") /\
  out o = [EvLog (LogDownloading (py "datasource") (py "ds-9"));
           EvDownload Datasources (py "ds-9")].
Proof.
  destruct (download_resource_returns Sample.env (py "ds-9") (py "datasource")
              Datasources (py "content/Notes.txt") Sample.start
              (or_intror (conj eq_refl eq_refl)) eq_refl) as (H1 & H2 & _).
  split; assumption.
Defined.

(** X7: when the endpoint raises, the download raises the same exception
    and writes no file; a [ServerResponseError] is printed first, any
    other exception is not. *)
Theorem download_resource_raises (E : Env) (i rt : str) (ep : endpoint)
  (e : exn) (w : World) :
  (rt = py "workbook" /\ ep = Workbooks) \/
  (rt = py "datasource" /\ ep = Datasources) ->
  env_download E ep i = Raise e ->
  let o := download_resource E i rt w in
  res o = Raise e /\ world o = w /\
  out o =
    [EvLog (LogDownloading rt i); EvDownload ep i]
    ++ match e with ServerResponseError _ => [EvPrintExn e] | _ => [] end.
Proof.
  intros [[-> ->]|[-> ->]] Hdl o; subst o;
    [rewrite download_workbook | rewrite download_datasource];
    rewrite Hdl; repeat split.
Qed.

Lemma download_resource_raises_sample :
  let o := download_resource Sample.refusing_env (py "wb-2") (py "workbook")
             Sample.start in
  res o = Raise (ServerResponseError 403) /\ world o = Sample.start /\
  out o = [EvLog (LogDownloading (py "workbook") (py "wb-2"));
           EvDownload Workbooks (py "wb-2");
           EvPrintExn (ServerResponseError 403)].
Proof.
  apply (download_resource_raises Sample.refusing_env (py "wb-2") (py "workbook")
           Workbooks (ServerResponseError 403) Sample.start
           (or_introl (conj eq_refl eq_refl)) eq_refl).
Defined.

(** ** Runs that stop early *)

(** A run in which the session is not created. *)
Lemma main_no_session (U : Unicode.tables) (E : Env) (w : World) (e : exn) :
  let o0 := ensure_content_dir w in
  let o1 :=
    create_tableau_session E (env_getenv E (py "PAT_NAME"))
      (env_getenv E (py "PAT_VALUE")) (env_getenv E (py "SERVER_ADDRESS"))
      (env_getenv E (py "SITE_ID")) (world o0) in
  res o1 = Raise e ->
  main U E w = mk_outcome (Raise e) (world o0) (out o0 ++ out o1).
Proof.
  intros o0 o1 H. unfold main.
  rewrite (bind_ok _ _ w tt (ensure_content_dir_ok w)).
  rewrite (bind_raise _ _ _ e H). cbn [res world out].
  rewrite create_tableau_session_keeps. reflexivity.
Qed.

(** X8: without the name or the value of the token in the environment,
    the run raises [TabError] after its line in the log, before the
    library is asked for a session; with both, when the library refuses
    the session, the run raises what the library raised.  In both cases
    the run has created the [content] directory if it was missing and
    has done nothing else: the configuration is not read, nothing is
    listed, downloaded, tagged or written. *)
Theorem main_stops_at_sign_in (U : Unicode.tables) (E : Env) (w : World) :
  let name := env_getenv E (py "PAT_NAME") in
  let value := env_getenv E (py "PAT_VALUE") in
  let site := env_getenv E (py "SITE_ID") in
  let address := env_getenv E (py "SERVER_ADDRESS") in
  let made := if content_dir w then [] else [EvMakedirs (py "content")] in
  let o := main U E w in
  (name = None \/ value = None ->
   res o = Raise TabError /\
   out o = made ++ [EvLog LogCreatingSession] /\
   config_file (world o) = config_file w /\ files (world o) = files w) /\
  (forall e, name <> None -> value <> None ->
     env_sign_in E name value site address = Raise e ->
     res o = Raise e /\
     out o = made ++ [EvLog LogCreatingSession;
                      EvSignIn name value site address] /\
     config_file (world o) = config_file w /\ files (world o) = files w).
Proof.
  intros name value site address made o. split.
  - intros Hnone.
    assert (H1 : forall w0,
               create_tableau_session E name value address site w0 =
               mk_outcome (Raise TabError) w0 [EvLog LogCreatingSession]).
    { intros w0. rewrite create_tableau_session_run.
      destruct Hnone as [-> | ->]; [reflexivity|]. destruct name; reflexivity. }
    subst o. rewrite (main_no_session U E w TabError)
      by (fold name value address site; rewrite H1; reflexivity).
    fold name value address site. rewrite H1. cbn [res world out].
    subst made. unfold ensure_content_dir. destruct (content_dir w); repeat split.
  - intros e Hname Hvalue Hsign.
    assert (H1 : forall w0,
               create_tableau_session E name value address site w0 =
               mk_outcome (Raise e) w0
                 [EvLog LogCreatingSession; EvSignIn name value site address]).
    { intros w0. rewrite create_tableau_session_run.
      destruct name; [|contradiction]. destruct value; [|contradiction].
      rewrite Hsign. reflexivity. }
    subst o. rewrite (main_no_session U E w e)
      by (fold name value address site; rewrite H1; reflexivity).
    fold name value address site. rewrite H1. cbn [res world out].
    subst made. unfold ensure_content_dir. destruct (content_dir w); repeat split.
Qed.

Lemma main_stops_at_sign_in_sample :
  (let o := main Sample.tables Cases.no_token Sample.start in
   res o = Raise TabError /\
   out o = [EvMakedirs (py "content"); EvLog LogCreatingSession]) /\
  (let o := main Sample.tables Cases.no_sign_in Sample.start in
   res o = Raise (ServerResponseError 401) /\
   config_file (world o) = config_file Sample.start).
Proof.
  split.
  - destruct (main_stops_at_sign_in Sample.tables Cases.no_token Sample.start)
      as [H _].
    destruct (H (or_intror eq_refl)) as (H1 & H2 & _). split; assumption.
  - destruct (main_stops_at_sign_in Sample.tables Cases.no_sign_in Sample.start)
      as [_ H].
    destruct (H (ServerResponseError 401) ltac:(discriminate) ltac:(discriminate)
                eq_refl) as (H1 & _ & H3 & _).
    split; assumption.
Defined.

Lemma get_workbooks_from_config_same (w w' : World) :
  config_file w = config_file w' ->
  res (get_workbooks_from_config w) = res (get_workbooks_from_config w').
Proof.
  intros H. rewrite !get_workbooks_from_config_cases, H.
  destruct (config_file w') as [| | |j]; try reflexivity.
  destruct (py_getitem j (py "content_size")) as [size|]; [|reflexivity].
  destruct (py_getitem j (py "date_checkpoint")) as [d|]; [|reflexivity].
  destruct (py_mul size 1024) as [kb|]; [|reflexivity].
  destruct (py_mul kb 1024) as [b|]; [|reflexivity].
  destruct (tsc_filter (py "size") LessThanOrEqual b); [|reflexivity].
  destruct (tsc_filter (py "updatedAt") GreaterThanOrEqual d); reflexivity.
Qed.

(** X9: when the request cannot be built from the configuration (no
    file, a file that is not text or not JSON, no object, a key missing,
    a size that cannot be multiplied, a list as size or as date), the
    run signs in, then raises what the reading raised; it lists,
    downloads, tags and writes nothing. *)
Theorem main_stops_at_config (U : Unicode.tables) (E : Env) (w : World) (e : exn) :
  env_getenv E (py "PAT_NAME") <> None ->
  env_getenv E (py "PAT_VALUE") <> None ->
  env_sign_in E (env_getenv E (py "PAT_NAME")) (env_getenv E (py "PAT_VALUE"))
    (env_getenv E (py "SITE_ID")) (env_getenv E (py "SERVER_ADDRESS")) = Ok tt ->
  res (get_workbooks_from_config w) = Raise e ->
  let o := main U E w in
  res o = Raise e /\
  signins (out o) =
    [(env_getenv E (py "PAT_NAME"), env_getenv E (py "PAT_VALUE"),
      env_getenv E (py "SITE_ID"), env_getenv E (py "SERVER_ADDRESS"))] /\
  queries (out o) = [] /\ populated (out o) = [] /\ downloads (out o) = [] /\
  updates (out o) = [] /\ writes (out o) = [] /\
  config_file (world o) = config_file w.
Proof.
  intros Hname Hvalue Hsign Hget o.
  pose proof (ensure_content_dir_keeps w) as Hk.
  assert (Hres : res (get_workbooks_from_config (world (ensure_content_dir w))) =
                 Raise e).
  { rewrite (get_workbooks_from_config_same _ w Hk). exact Hget. }
  pose proof (fun w0 =>
                create_tableau_session_ok E _ _
                  (env_getenv E (py "SERVER_ADDRESS"))
                  (env_getenv E (py "SITE_ID")) w0 Hname Hvalue Hsign) as H1.
  assert (Hmain : o =
            mk_outcome (Raise e) (world (ensure_content_dir w))
              (out (ensure_content_dir w) ++
               [EvLog LogCreatingSession;
                EvSignIn (env_getenv E (py "PAT_NAME"))
                  (env_getenv E (py "PAT_VALUE")) (env_getenv E (py "SITE_ID"))
                  (env_getenv E (py "SERVER_ADDRESS"))] ++
               out (get_workbooks_from_config (world (ensure_content_dir w))))).
  { subst o. unfold main.
    rewrite (bind_ok _ _ w tt (ensure_content_dir_ok w)).
    rewrite (bind_ok _ _ (world (ensure_content_dir w)) tt)
      by (rewrite H1; reflexivity).
    rewrite H1. cbn [res world out].
    rewrite (bind_raise _ _ (world (ensure_content_dir w)) e Hres).
    cbn [res world out].
    rewrite (get_workbooks_from_config_keeps (world (ensure_content_dir w))).
    reflexivity. }
  rewrite Hmain. cbn [res world out].
  unfold signins, queries, populated, downloads, updates, writes.
  rewrite !flat_map_app.
  rewrite (ensure_content_dir_quiet signin_of (fun _ => eq_refl)).
  rewrite (ensure_content_dir_quiet query_of (fun _ => eq_refl)).
  rewrite (ensure_content_dir_quiet populate_of (fun _ => eq_refl)).
  rewrite (ensure_content_dir_quiet download_of (fun _ => eq_refl)).
  rewrite (ensure_content_dir_quiet update_of (fun _ => eq_refl)).
  rewrite (ensure_content_dir_quiet write_of (fun _ => eq_refl)).
  rewrite (get_workbooks_from_config_quiet signin_of (fun _ => eq_refl)).
  rewrite (get_workbooks_from_config_quiet query_of (fun _ => eq_refl)).
  rewrite (get_workbooks_from_config_quiet populate_of (fun _ => eq_refl)).
  rewrite (get_workbooks_from_config_quiet download_of (fun _ => eq_refl)).
  rewrite (get_workbooks_from_config_quiet update_of (fun _ => eq_refl)).
  rewrite (get_workbooks_from_config_quiet write_of (fun _ => eq_refl)).
  repeat split. exact Hk.
Qed.

Lemma main_stops_at_config_sample :
  (let o := main Sample.tables Sample.env Cases.no_config in
   res o = Raise FileNotFoundError /\ queries (out o) = [] /\
   writes (out o) = []) /\
  (let o := main Sample.tables Sample.env Cases.list_checkpoint in
   res o = Raise ValueError /\ queries (out o) = [] /\ writes (out o) = []).
Proof.
  split.
  - destruct (main_stops_at_config Sample.tables Sample.env Cases.no_config
                FileNotFoundError ltac:(discriminate) ltac:(discriminate)
                eq_refl eq_refl)
      as (H1 & _ & H2 & _ & _ & _ & H3 & _).
    repeat split; assumption.
  - destruct (main_stops_at_config Sample.tables Sample.env Cases.list_checkpoint
                ValueError ltac:(discriminate) ltac:(discriminate)
                eq_refl eq_refl)
      as (H1 & _ & H2 & _ & _ & _ & H3 & _).
    repeat split; assumption.
Defined.


(** ** The audit of one workbook, beyond the decision *)

(** One step of a run that leaves the world and a reading as they are. *)
Lemma bind_quiet_step {A B X} (g : event -> list X) (m : M A) (k : A -> M B)
  (w : World) (Q : result B -> World -> list X -> Prop) :
  keeps_world m -> emits_none g m ->
  (forall e, res (m w) = Raise e -> Q (Raise e) w []) ->
  (forall a, res (m w) = Ok a ->
             Q (res (k a w)) (world (k a w)) (flat_map g (out (k a w)))) ->
  Q (res (bind m k w)) (world (bind m k w)) (flat_map g (out (bind m k w))).
Proof.
  intros Hk Hq He Ha.
  rewrite res_bind, world_bind, flat_map_out_bind, Hq, Hk.
  destruct (res (m w)) as [a|e]; [apply Ha | apply He]; reflexivity.
Qed.

(** What the audit of a downloaded workbook does to the files. *)
Lemma audit_workbook_files (U : Unicode.tables) (E : Env) (t : tag)
  (wb : WorkbookItem) (w : World) (f : str) :
  env_download E Workbooks (wb_id wb) = Ok f ->
  let o := audit_workbook U E t wb w in
  match res o with
  | Ok _ => files (world o) = files w ∖ {[ f ]} /\ removed (out o) = [f]
  | Raise _ => files (world o) = {[ f ]} ∪ files w /\ removed (out o) = []
  end.
Proof.
  intros Hdl o.
  set (w1 := mk_world (config_file w) (content_dir w) ({[ f ]} ∪ files w)).
  pose (Q := fun (r : result unit) (w' : World) (rm : list str) =>
               match r with
               | Ok _ => files w' = files w ∖ {[ f ]} /\ rm = [f]
               | Raise _ => files w' = {[ f ]} ∪ files w /\ rm = []
               end).
  assert (Hd : download_resource E (wb_id wb) (py "workbook") w =
               mk_outcome (Ok f) w1
                 [EvLog (LogDownloading (py "workbook") (wb_id wb));
                  EvDownload Workbooks (wb_id wb)]).
  { rewrite download_workbook, Hdl. reflexivity. }
  subst o. unfold removed, audit_workbook. cbv zeta.
  match goal with
  | |- match res ?o with _ => _ end =>
      change (Q (res o) (world o) (flat_map remove_of (out o)))
  end.
  apply (bind_quiet_step remove_of _ _ _ Q);
    [intros ?; reflexivity | intros ?; reflexivity
     | intros e H; discriminate H | intros [] _].
  rewrite (bind_ok _ _ w f) by (rewrite Hd; reflexivity).
  rewrite Hd. cbn [res world out]. rewrite flat_map_app.
  change (flat_map remove_of
            [EvLog (LogDownloading (py "workbook") (wb_id wb));
             EvDownload Workbooks (wb_id wb)]) with (@nil str).
  rewrite app_nil_l.
  apply (bind_quiet_step remove_of _ _ _ Q);
    [apply get_connections_keeps
    | apply get_connections_quiet; intros ?; reflexivity
    | intros e _; split; reflexivity | intros conns _].
  apply (bind_quiet_step remove_of _ _ _ Q);
    [apply count_missing_keeps
    | apply count_missing_quiet; intros ?; reflexivity
    | intros e _; split; reflexivity | intros n _].
  apply (bind_quiet_step remove_of _ _ _ Q);
    [apply tag_if_missing_keeps
    | apply tag_if_missing_quiet; intros ?; reflexivity
    | intros e _; split; reflexivity | intros [] _].
  unfold os_remove, w1. cbn [files].
  destruct (decide (f ∈ {[ f ]} ∪ files w)) as [_|Hnot];
    [|exfalso; apply Hnot; set_solver].
  cbn [res world out files Q flat_map remove_of app]. unfold Q.
  split; [set_solver | reflexivity].
Qed.

(** X11: the file a workbook was downloaded to is removed when the audit
    of the workbook ends, and only then: when the parser, the predicate
    or the update operation raises, the file stays on disk. *)
Theorem audit_workbook_removes_on_success (U : Unicode.tables) (E : Env)
  (t : tag) (wb : WorkbookItem) (w : World) (f : str) :
  env_download E Workbooks (wb_id wb) = Ok f ->
  let o := audit_workbook U E t wb w in
  (res o = Ok tt ->
   (f ∉ files (world o)) /\ files (world o) = files w ∖ {[ f ]} /\
   removed (out o) = [f]) /\
  (forall e, res o = Raise e ->
   (f ∈ files (world o)) /\ files (world o) = {[ f ]} ∪ files w /\
   removed (out o) = []).
Proof.
  intros Hdl o. pose proof (audit_workbook_files U E t wb w f Hdl) as H.
  cbv zeta in H. fold o in H. split.
  - intros Hok. rewrite Hok in H. destruct H as [Hf Hr].
    repeat split; try assumption. rewrite Hf. set_solver.
  - intros e He. rewrite He in H. destruct H as [Hf Hr].
    repeat split; try assumption. rewrite Hf. set_solver.
Qed.

Lemma audit_workbook_removes_on_success_sample :
  (let o := audit_workbook Sample.tables Sample.env (Some Sample.remediation_tag)
              Sample.sales Sample.start in
   (py "content/Sales.twbx") ∉ files (world o)) /\
  (let o := audit_workbook Sample.tables Cases.broken_parser
              (Some Sample.remediation_tag) Sample.sales Sample.start in
   (py "content/Sales.twbx") ∈ files (world o)).
Proof.
  split.
  - destruct (audit_workbook_removes_on_success Sample.tables Sample.env
                (Some Sample.remediation_tag) Sample.sales Sample.start
                (py "content/Sales.twbx") eq_refl) as [H _].
    apply H. vm_compute. reflexivity.
  - destruct (audit_workbook_removes_on_success Sample.tables Cases.broken_parser
                (Some Sample.remediation_tag) Sample.sales Sample.start
                (py "content/Sales.twbx") eq_refl) as [_ H].
    apply (H (OtherError 1)). vm_compute. reflexivity.
Defined.

Lemma count_missing_raises (U : Unicode.tables) (conns : list Connection)
  (k : nat) (w : World) :
  Exists (fun c => initial_sql c = None) conns ->
  res (count_missing_query_tag U conns k w) = Raise AttributeError.
Proof.
  revert k. induction conns as [|c conns IH]; intros k H; [inversion H|].
  simpl. unfold bind. cbn [res world out lift].
  destruct (initial_sql c) as [s|] eqn:Hs; [|reflexivity].
  assert (Hrest : Exists (fun c => initial_sql c = None) conns)
    by (inversion H; [congruence | assumption]).
  cbn [init_sql_has_query_tag res world out].
  destruct (startswith (strip (upper U s)) query_tag_text);
    cbn [res world out log emit]; apply IH; exact Hrest.
Qed.

(** X12: when one of the Snowflake connections classified in a workbook
    has no initial SQL, the audit of the workbook raises [AttributeError]:
    the workbook is not sent to the update operation, whatever its other
    connections, and its file stays on disk. *)
Theorem audit_workbook_without_initial_sql (U : Unicode.tables) (E : Env)
  (t : tag) (wb : WorkbookItem) (w : World) (f : str) (conns : list Connection) :
  let o1 := download_resource E (wb_id wb) (py "workbook") w in
  let o2 := get_connections_for_dbclass E f (py "snowflake") (world o1) in
  res o1 = Ok f -> res o2 = Ok conns ->
  Exists (fun c => initial_sql c = None) conns ->
  let o := audit_workbook U E t wb w in
  res o = Raise AttributeError /\ updates (out o) = [] /\ f ∈ files (world o).
Proof.
  intros o1 o2 H1 H2 Hnone o.
  pose proof (audit_workbook_run U E t wb w) as Hrun. cbv zeta in Hrun.
  fold o1 in Hrun. rewrite H1 in Hrun. fold o2 in Hrun. rewrite H2 in Hrun.
  rewrite (count_missing_raises U conns 0 (world o2) Hnone) in Hrun.
  fold o in Hrun. destruct Hrun as [Hres Hu].
  split; [exact Hres|]. split; [exact Hu|].
  assert (Hdl : env_download E Workbooks (wb_id wb) = Ok f).
  { subst o1. rewrite download_workbook in H1.
    destruct (env_download E Workbooks (wb_id wb)); [|discriminate].
    simpl in H1. congruence. }
  pose proof (audit_workbook_files U E t wb w f Hdl) as Hf. cbv zeta in Hf.
  fold o in Hf. rewrite Hres in Hf. destruct Hf as [-> _]. set_solver.
Qed.

Lemma audit_workbook_without_initial_sql_sample :
  let o := audit_workbook Sample.tables Cases.bare_connection
             (Some Sample.remediation_tag) Sample.sales Sample.start in
  res o = Raise AttributeError /\ updates (out o) = [].
Proof.
  destruct (audit_workbook_without_initial_sql Sample.tables Cases.bare_connection
              (Some Sample.remediation_tag) Sample.sales Sample.start
              (py "content/Sales.twbx")
              (flatten_then_filter Cases.bare_datasources (py "snowflake"))
              ltac:(vm_compute; reflexivity) ltac:(vm_compute; reflexivity)
              ltac:(right; left; reflexivity)) as (H1 & H2 & _).
  split; assumption.
Defined.


(** ** The loop over the workbooks, beyond the counts *)




Lemma audit_loop_updates_in (U : Unicode.tables) (E : Env) (t : tag)
  (wbs : list WorkbookItem) (w : World) (u : WorkbookItem) :
  In u (updates (out (for_each wbs (audit_workbook U E t) w))) ->
  exists wb, In wb wbs /\ u = tagged wb t.
Proof.
  revert w. induction wbs as [|wb wbs IH]; intros w; simpl; [tauto|].
  unfold updates. rewrite flat_map_out_bind, in_app_iff. intros [H|H].
  - fold (updates (out (audit_workbook U E t wb w))) in H.
    destruct (audit_workbook_updates U E t wb w) as [Hu|Hu]; rewrite Hu in H;
      simpl in H; [tauto|].
    destruct H as [<-|[]]. exists wb. auto.
  - destruct (res (audit_workbook U E t wb w)); [|contradiction].
    destruct (IH _ H) as (wb' & Hin & ->). exists wb'. auto.
Qed.

(** X15: in a run, every workbook sent to the update operation is a
    workbook of the listing for which the server lists a Snowflake
    connection, sent with the tag of the environment added to its tags:
    no other workbook is tagged, and no tag is taken away. *)
Theorem main_tags_only_candidates (U : Unicode.tables) (E : Env) (w : World)
  (u : WorkbookItem) :
  In u (updates (out (main U E w))) ->
  exists req wb,
    In wb (listed (env_pager E req)) /\
    has_snowflake_connection E wb = true /\
    u = tagged wb (env_getenv E (py "TABLEAU_TAG")) /\
    wb_id u = wb_id wb /\ wb_tags wb ⊆ wb_tags u.
Proof.
  unfold main, updates.
  rewrite (proj_bind_quiet _ ensure_content_dir)
    by (apply ensure_content_dir_quiet; intros; reflexivity).
  rewrite ensure_content_dir_ok.
  set (w0 := world (ensure_content_dir w)). clearbody w0.
  rewrite (proj_bind_quiet _ (create_tableau_session _ _ _ _ _))
    by (apply create_tableau_session_quiet; hnf; intros; reflexivity).
  rewrite create_tableau_session_keeps.
  destruct (res (create_tableau_session _ _ _ _ _ w0)); [|contradiction].
  rewrite (proj_bind_quiet _ get_workbooks_from_config)
    by (apply get_workbooks_from_config_quiet; hnf; intros; reflexivity).
  rewrite get_workbooks_from_config_keeps.
  destruct (res (get_workbooks_from_config w0)) as [req|]; [|contradiction].
  rewrite (proj_bind_quiet _ (filter_wbs_with_snowflake_connections E req))
    by (apply filter_wbs_quiet; hnf; intros; reflexivity).
  rewrite filter_wbs_keeps.
  destruct (filter_wbs_run E req w0) as (_ & _ & Hok & _).
  destruct (res (filter_wbs_with_snowflake_connections E req w0)) as [wbs|];
    [|contradiction].
  destruct (Hok wbs eq_refl) as (-> & _ & _).
  rewrite (flat_map_out_bind update_of (for_each _ _)).
  assert (Htail : forall w',
             flat_map update_of
               (out (bind (update_workbook_config_with_date_checkpoint E)
                       (fun d => log (LogUpdatedConfigDate d)) w')) = []).
  { apply emits_none_bind;
      [apply update_config_quiet; hnf; intros; reflexivity|].
    intros d w'. reflexivity. }
  rewrite in_app_iff. intros [H|H].
  - destruct (audit_loop_updates_in U E _ _ _ _ H) as (wb & Hin & ->).
    apply List.filter_In in Hin as [Hin Hsf].
    exists req, wb. repeat split; try assumption. unfold tagged. simpl.
    set_solver.
  - destruct (res (for_each _ _ w0)); [|contradiction].
    rewrite Htail in H. contradiction.
Qed.

Lemma main_tags_only_candidates_sample :
  exists req wb,
    In wb (listed (env_pager Sample.env req)) /\
    tagged Sample.sales (Some Sample.remediation_tag)
      = tagged wb (env_getenv Sample.env (py "TABLEAU_TAG")).
Proof.
  destruct (main_tags_only_candidates Sample.tables Sample.env Sample.start
              (tagged Sample.sales (Some Sample.remediation_tag))
              ltac:(vm_compute; left; reflexivity))
    as (req & wb & Hin & _ & Hu & _).
  exists req, wb. split; assumption.
Defined.

(** ** The filter on the live connections, when a request fails *)

Lemma scan_workbooks_stops (E : Env) (pre : list WorkbookItem) (wb : WorkbookItem)
  (post acc : list WorkbookItem) (e : exn) (w : World) :
  Forall (fun x => exists conns, env_connections E x = Ok conns) pre ->
  env_connections E wb = Raise e ->
  res (scan_workbooks E (pre ++ wb :: post) acc w) = Raise e /\
  populated (out (scan_workbooks E (pre ++ wb :: post) acc w)) = pre ++ [wb].
Proof.
  intros Hpre Hwb. revert acc.
  induction Hpre as [|x pre [conns Hx] _ IH]; intros acc; simpl.
  - unfold bind, log, emit, lift. simpl. rewrite Hwb. simpl. auto.
  - unfold bind, log, emit, lift. simpl. rewrite Hx. simpl.
    rewrite scan_connections_run.
    destruct (existsb is_snowflake conns); simpl;
      match goal with
      | |- context [scan_workbooks E _ ?a w] => destruct (IH a) as [Hr Hp]
      end; unfold populated in *; rewrite ?flat_map_app; simpl;
      rewrite Hr, Hp; auto.
Qed.

(** X16: when the live connections of a listed workbook cannot be
    fetched, the filter raises what the fetch raised and returns no
    workbook, not those it had found; the workbooks listed after it are
    not asked for. *)
Theorem filter_wbs_stops_at_failure (E : Env) (req : RequestOptions)
  (pre : list WorkbookItem) (wb : WorkbookItem) (post : list WorkbookItem)
  (e : exn) (w : World) :
  listed (env_pager E req) = pre ++ wb :: post ->
  Forall (fun x => exists conns, env_connections E x = Ok conns) pre ->
  env_connections E wb = Raise e ->
  let o := filter_wbs_with_snowflake_connections E req w in
  res o = Raise e /\ populated (out o) = pre ++ [wb].
Proof.
  intros Hitems Hpre Hwb o. subst o. unfold populated.
  rewrite filter_wbs_res, filter_wbs_out by (intros r; reflexivity).
  rewrite scan_pages_res, scan_pages_out by (intros r; reflexivity).
  rewrite Hitems.
  destruct (scan_workbooks_stops E pre wb post [] e w Hpre Hwb) as [Hr Hp].
  rewrite Hr. split; [reflexivity | exact Hp].
Qed.

Lemma filter_wbs_stops_at_failure_sample :
  let o := filter_wbs_with_snowflake_connections Cases.no_connections
             (mk_req []) Sample.start in
  res o = Raise (ServerResponseError 404) /\
  populated (out o) = [Sample.sales; Sample.notes].
Proof.
  apply (filter_wbs_stops_at_failure Cases.no_connections (mk_req [])
           [Sample.sales] Sample.notes [Sample.local]
           (ServerResponseError 404) Sample.start eq_refl).
  - repeat constructor. eexists. vm_compute. reflexivity.
  - vm_compute. reflexivity.
Defined.

(** X26: the pages are asked for one by one: when the live connections
    of a workbook of the first page cannot be fetched, the filter raises
    having sent the request of the first page only, whatever the number
    of pages of the listing. *)
Theorem filter_wbs_asks_page_by_page (E : Env) (req : RequestOptions)
  (pre : list WorkbookItem) (wb : WorkbookItem) (post : list WorkbookItem)
  (rest : listing) (e : exn) (w : World) :
  env_pager E req = MorePages (pre ++ wb :: post) rest ->
  Forall (fun x => exists conns, env_connections E x = Ok conns) pre ->
  env_connections E wb = Raise e ->
  let o := filter_wbs_with_snowflake_connections E req w in
  res o = Raise e /\ queries (out o) = [req] /\ populated (out o) = pre ++ [wb].
Proof.
  intros Hpager Hpre Hwb o. subst o. unfold queries, populated.
  rewrite filter_wbs_res, !filter_wbs_out by (intros r; reflexivity).
  rewrite Hpager. cbn [scan_pages].
  destruct (scan_workbooks_stops E pre wb post [] e w Hpre Hwb) as [Hr Hp].
  rewrite !res_bind, !flat_map_out_bind. cbn [emit res world out flat_map].
  rewrite Hr.
  rewrite (scan_workbooks_quiet E query_of (pre ++ wb :: post) []
             (fun _ => eq_refl) (fun _ => eq_refl) w).
  unfold populated in Hp. rewrite Hp. repeat split. cbn [populate_of app].
  apply app_nil_r.
Qed.

Lemma filter_wbs_asks_page_by_page_sample :
  let o := filter_wbs_with_snowflake_connections Cases.no_connections
             (mk_req []) Sample.start in
  res o = Raise (ServerResponseError 404) /\ queries (out o) = [mk_req []].
Proof.
  destruct (filter_wbs_asks_page_by_page Cases.no_connections (mk_req [])
              [Sample.sales] Sample.notes [] (LastPage [Sample.local])
              (ServerResponseError 404) Sample.start eq_refl
              ltac:(repeat constructor; eexists; vm_compute; reflexivity)
              ltac:(vm_compute; reflexivity)) as (H1 & H2 & _).
  split; assumption.
Defined.

Lemma requests_positive (pages : listing) : (1 <= requests pages)%nat.
Proof. destruct pages; simpl; lia. Qed.

(** A listing that breaks after it has listed a workbook has taken a
    request for the page of that workbook and one more. *)
Lemma requests_of_broken (pages : listing) (e : exn) :
  listing_error pages = Some e -> listed pages <> [] ->
  (2 <= requests pages)%nat.
Proof.
  destruct pages as [items|items rest|e']; simpl.
  - discriminate.
  - intros _ _. pose proof (requests_positive rest). lia.
  - intros _ H. destruct (H eq_refl).
Qed.

(** X17: when a request of the listing raises, the filter has fetched
    the live connections of every workbook of the pages before it, then
    raises what the request raised and returns nothing.  It has sent the
    requests of these pages and the one that raised: one request when
    the first raises, and at least two when a workbook was listed. *)
Theorem filter_wbs_listing_breaks (E : Env) (req : RequestOptions) (e : exn)
  (w : World) :
  listing_error (env_pager E req) = Some e ->
  Forall (fun x => exists conns, env_connections E x = Ok conns)
    (listed (env_pager E req)) ->
  let o := filter_wbs_with_snowflake_connections E req w in
  res o = Raise e /\ populated (out o) = listed (env_pager E req) /\
  queries (out o) = repeat req (requests (env_pager E req)) /\
  (env_pager E req = BrokenPage e -> queries (out o) = [req]) /\
  (listed (env_pager E req) <> [] -> (2 <= length (queries (out o)))%nat).
Proof.
  intros Hend Hall o.
  destruct (filter_wbs_run E req w) as (_ & _ & _ & Htot).
  destruct (Htot Hall) as (Hpop & Hq & Hres). fold o in Hpop, Hq, Hres.
  rewrite Hend in Hres. repeat split; try assumption.
  - intros Hfirst. rewrite Hq, Hfirst. reflexivity.
  - intros Hsome. rewrite Hq, repeat_length.
    exact (requests_of_broken _ e Hend Hsome).
Qed.

Lemma filter_wbs_listing_breaks_sample :
  let o := filter_wbs_with_snowflake_connections Cases.broken_listing
             (mk_req []) Sample.start in
  res o = Raise (ServerResponseError 500) /\
  populated (out o) = [Sample.sales; Sample.notes] /\
  queries (out o) = [mk_req []; mk_req []].
Proof.
  destruct (filter_wbs_listing_breaks Cases.broken_listing (mk_req [])
              (ServerResponseError 500) Sample.start eq_refl
              ltac:(repeat constructor; eexists; vm_compute; reflexivity))
    as (H1 & H2 & H3 & _).
  repeat split; assumption.
Defined.

(** ** The checkpoint, from one run to the next *)

Lemma dict_set_twice (kv : list (str * json)) (key : str) (v v' : json) :
  dict_set (dict_set kv key v) key v' = dict_set kv key v'.
Proof.
  induction kv as [|[k x] kv IH]; simpl.
  - rewrite str_eqb_refl. reflexivity.
  - destruct (str_eqb k key) eqn:Hk; simpl; rewrite Hk; [reflexivity|].
    rewrite IH. reflexivity.
Qed.

(** X18: after the advance of the checkpoint, the request built from the
    configuration asks for the workbooks updated since the date just
    written, with the size limit of before. *)
Theorem next_request_uses_new_checkpoint (E : Env) (w : World)
  (kv : list (str * json)) (n : Z) :
  config_file w = FileJson (JObj kv) ->
  dict_get kv (py "content_size") = Some (JInt n) ->
  let o := update_workbook_config_with_date_checkpoint E w in
  res o = Ok (strftime (env_now E) strftime_format) /\
  res (get_workbooks_from_config (world o)) =
    Ok (mk_req
          [ mk_filter (py "size") LessThanOrEqual (JInt (n * 1024 * 1024));
            mk_filter (py "updatedAt") GreaterThanOrEqual
              (JStr (strftime (env_now E) strftime_format)) ]).
Proof.
  intros Hcfg Hsize o. subst o. rewrite update_config_run, Hcfg. cbv zeta.
  cbn [res world]. split; [reflexivity|].
  rewrite (get_workbooks_from_config_run _
             (dict_set kv (py "date_checkpoint")
                (JStr (strftime (env_now E) strftime_format)))
             n (JStr (strftime (env_now E) strftime_format))).
  - reflexivity.
  - reflexivity.
  - rewrite dict_get_set_other; [exact Hsize|].
    intros H. vm_compute in H. discriminate H.
  - apply dict_get_set_same.
  - intros l H. discriminate H.
Qed.

Lemma next_request_uses_new_checkpoint_sample :
  res (get_workbooks_from_config
         (world (update_workbook_config_with_date_checkpoint Sample.env
                   Sample.start))) =
  Ok (mk_req
        [ mk_filter (py "size") LessThanOrEqual (JInt 52428800);
          mk_filter (py "updatedAt") GreaterThanOrEqual
            (JStr (py "2024-06-02T03:04:05Z")) ]).
Proof.
  destruct (next_request_uses_new_checkpoint Sample.env Sample.start
              Sample.config 50%Z eq_refl eq_refl) as [_ H].
  exact H.
Defined.


(** X20: a second advance replaces the date of the first and changes
    nothing else: the configuration after two advances is the
    configuration after the second alone. *)
Theorem advance_twice (E E' : Env) (w : World) (kv : list (str * json)) :
  config_file w = FileJson (JObj kv) ->
  world (update_workbook_config_with_date_checkpoint E'
           (world (update_workbook_config_with_date_checkpoint E w)))
  = world (update_workbook_config_with_date_checkpoint E' w).
Proof.
  intros Hcfg. rewrite (update_config_run E w), Hcfg. cbv zeta. cbn [world].
  rewrite !update_config_run, Hcfg. cbn [config_file content_dir files world].
  rewrite dict_set_twice. reflexivity.
Qed.

Lemma advance_twice_sample :
  world (update_workbook_config_with_date_checkpoint Sample.empty_env
           (world (update_workbook_config_with_date_checkpoint Sample.env
                     Sample.start)))
  = world (update_workbook_config_with_date_checkpoint Sample.empty_env
             Sample.start).
Proof.
  apply (advance_twice Sample.env Sample.empty_env Sample.start Sample.config
           eq_refl).
Defined.

(** ** The files of a run *)

Lemma keeps_dir_bind {A B} (m : M A) (k : A -> M B) :
  keeps_dir m -> (forall a, keeps_dir (k a)) -> keeps_dir (bind m k).
Proof.
  intros Hm Hk w. rewrite world_bind.
  destruct (res (m w)) as [a|e]; [rewrite Hk|]; apply Hm.
Qed.

Lemma keeps_world_dir {A} (m : M A) : keeps_world m -> keeps_dir m.
Proof. intros H w. rewrite H. reflexivity. Qed.

Lemma keeps_dir_for_each {A} (l : list A) (body : A -> M unit) :
  (forall x, keeps_dir (body x)) -> keeps_dir (for_each l body).
Proof.
  intros Hb. induction l as [|x l IH]; simpl.
  - intros w. reflexivity.
  - apply keeps_dir_bind; [apply Hb | intros _; exact IH].
Qed.

Lemma audit_workbook_keeps_dir (U : Unicode.tables) (E : Env) (t : tag)
  (wb : WorkbookItem) : keeps_dir (audit_workbook U E t wb).
Proof.
  unfold audit_workbook.
  apply keeps_dir_bind; [intros w; reflexivity|]. intros _.
  apply keeps_dir_bind.
  { intros w. rewrite download_workbook.
    destruct (env_download E Workbooks (wb_id wb)); reflexivity. }
  intros f.
  apply keeps_dir_bind; [apply keeps_world_dir, get_connections_keeps|].
  intros conns.
  apply keeps_dir_bind; [apply keeps_world_dir, count_missing_keeps|].
  intros n.
  apply keeps_dir_bind; [apply keeps_world_dir, tag_if_missing_keeps|].
  intros _ w. unfold os_remove. destruct (decide _); reflexivity.
Qed.

(** X21: after a run, whether it ended or raised, the [content]
    directory exists; the run has created it when it was missing, and
    only then. *)
Theorem main_content_dir (U : Unicode.tables) (E : Env) (w : World) :
  let o := main U E w in
  content_dir (world o) = true /\
  makedirs (out o) = (if content_dir w then [] else [py "content"]).
Proof.
  intros o. subst o. unfold main, makedirs.
  rewrite world_bind, flat_map_out_bind, ensure_content_dir_ok. split.
  - assert (Htail : forall t, keeps_dir
              (bind (create_tableau_session E (env_getenv E (py "PAT_NAME"))
                       (env_getenv E (py "PAT_VALUE"))
                       (env_getenv E (py "SERVER_ADDRESS"))
                       (env_getenv E (py "SITE_ID")))
                 (fun _ =>
                    bind get_workbooks_from_config
                      (fun req =>
                         bind (filter_wbs_with_snowflake_connections E req)
                           (fun wbs =>
                              bind (for_each wbs (audit_workbook U E t))
                                (fun _ =>
                                   bind (update_workbook_config_with_date_checkpoint E)
                                     (fun d => log (LogUpdatedConfigDate d)))))))).
    { intros t.
      apply keeps_dir_bind;
        [apply keeps_world_dir, create_tableau_session_keeps|]. intros _.
      apply keeps_dir_bind;
        [apply keeps_world_dir, get_workbooks_from_config_keeps|]. intros req.
      apply keeps_dir_bind; [apply keeps_world_dir, filter_wbs_keeps|].
      intros wbs.
      apply keeps_dir_bind;
        [apply keeps_dir_for_each; intros wb; apply audit_workbook_keeps_dir|].
      intros _. apply keeps_dir_bind; [|intros d w'; reflexivity].
      intros w'. rewrite update_config_run.
      destruct (config_file w') as [| | |j]; try reflexivity.
      destruct j; reflexivity. }
    rewrite Htail. unfold ensure_content_dir.
    destruct (content_dir w) eqn:Hd; [exact Hd | reflexivity].
  - assert (Htail : forall t, emits_none makedirs_of
              (bind (create_tableau_session E (env_getenv E (py "PAT_NAME"))
                       (env_getenv E (py "PAT_VALUE"))
                       (env_getenv E (py "SERVER_ADDRESS"))
                       (env_getenv E (py "SITE_ID")))
                 (fun _ =>
                    bind get_workbooks_from_config
                      (fun req =>
                         bind (filter_wbs_with_snowflake_connections E req)
                           (fun wbs =>
                              bind (for_each wbs (audit_workbook U E t))
                                (fun _ =>
                                   bind (update_workbook_config_with_date_checkpoint E)
                                     (fun d => log (LogUpdatedConfigDate d)))))))).
    { intros t.
      apply emits_none_bind;
        [apply create_tableau_session_quiet; hnf; intros; reflexivity|].
      intros _.
      apply emits_none_bind;
        [apply get_workbooks_from_config_quiet; hnf; intros; reflexivity|].
      intros req.
      apply emits_none_bind;
        [apply filter_wbs_quiet; hnf; intros; reflexivity|]. intros wbs.
      apply emits_none_bind;
        [apply emits_none_for_each; intros wb; apply audit_workbook_quiet;
           hnf; intros; reflexivity|].
      intros _. apply emits_none_bind;
        [apply update_config_quiet; hnf; intros; reflexivity|].
      intros d w'. reflexivity. }
    rewrite Htail, app_nil_r. unfold ensure_content_dir.
    destruct (content_dir w); reflexivity.
Qed.

Lemma audit_loop_files (U : Unicode.tables) (E : Env) (t : tag)
  (wbs : list WorkbookItem) (w : World) :
  res (for_each wbs (audit_workbook U E t) w) = Ok tt ->
  files (world (for_each wbs (audit_workbook U E t) w)) ⊆ files w.
Proof.
  revert w. induction wbs as [|wb wbs IH]; intros w; simpl; [set_solver|].
  rewrite res_bind, world_bind.
  destruct (res (audit_workbook U E t wb w)) as [[]|e] eqn:Hwb; [|discriminate].
  intros H. specialize (IH _ H).
  assert (Hfiles : files (world (audit_workbook U E t wb w)) ⊆ files w).
  { destruct (env_download E Workbooks (wb_id wb)) as [f|e] eqn:Hdl.
    - pose proof (audit_workbook_files U E t wb w f Hdl) as Hf.
      cbv zeta in Hf. rewrite Hwb in Hf. destruct Hf as [-> _]. set_solver.
    - pose proof (audit_workbook_run U E t wb w) as Hrun. cbv zeta in Hrun.
      rewrite download_workbook, Hdl in Hrun. cbn [res] in Hrun.
      destruct Hrun as [Hrun _]. congruence. }
  set_solver.
Qed.

(** X22: a run that ends leaves no downloaded file behind: the files on
    disk after it were there before it. *)
Theorem main_leaves_no_file (U : Unicode.tables) (E : Env) (w : World) :
  res (main U E w) = Ok tt ->
  files (world (main U E w)) ⊆ files w.
Proof.
  unfold main. intros H.
  apply bind_ok_inv in H as ([] & _ & H & _ & ->).
  assert (H0 : files (world (ensure_content_dir w)) = files w)
    by (unfold ensure_content_dir; destruct (content_dir w); reflexivity).
  set (w0 := world (ensure_content_dir w)) in *. clearbody w0.
  apply bind_ok_inv in H as ([] & _ & H & _ & ->).
  rewrite create_tableau_session_keeps in *.
  apply bind_ok_inv in H as (req & _ & H & _ & ->).
  rewrite get_workbooks_from_config_keeps in *.
  apply bind_ok_inv in H as (wbs & _ & H & _ & ->).
  rewrite filter_wbs_keeps in *.
  apply bind_ok_inv in H as ([] & Hloop & H & _ & ->).
  pose proof (audit_loop_files U E _ wbs w0 Hloop) as Hfiles.
  set (w1 := world (for_each wbs _ w0)) in *. clearbody w1.
  apply bind_ok_inv in H as (d & _ & _ & _ & ->).
  cbn [world log emit]. rewrite update_config_run.
  destruct (config_file w1) as [| | |j]; [| | |destruct j]; cbn [world files];
    rewrite <- H0; exact Hfiles.
Qed.

Lemma main_leaves_no_file_sample :
  files (world (main Sample.tables Sample.env Sample.start))
    ⊆ files Sample.start.
Proof.
  apply (main_leaves_no_file Sample.tables Sample.env Sample.start).
  vm_compute. reflexivity.
Defined.

(** ** A run that ends, from the listing to the tags *)

Lemma get_connections_classified (E : Env) (f : str) (w : World) :
  res (get_connections_for_dbclass E f (py "snowflake") w) = classified E f.
Proof.
  unfold classified.
  destruct (is_workbook_package f) eqn:Hw.
  { rewrite (get_connections_workbook E f _ w Hw).
    destruct (env_workbook E f); reflexivity. }
  destruct (is_datasource_package f) eqn:Hd.
  { rewrite (get_connections_datasource E f _ w Hw Hd).
    destruct (env_datasource E f); reflexivity. }
  rewrite (get_connections_unsupported E f _ w Hw Hd). reflexivity.
Qed.

Lemma audit_workbook_ok_updates (U : Unicode.tables) (E : Env) (t : tag)
  (wb : WorkbookItem) (w : World) :
  res (audit_workbook U E t wb w) = Ok tt ->
  updates (out (audit_workbook U E t wb w)) = to_tag U E t wb.
Proof.
  intros Hok. pose proof (audit_workbook_run U E t wb w) as Hrun.
  cbv zeta in Hrun. unfold to_tag.
  rewrite download_workbook in Hrun.
  destruct (env_download E Workbooks (wb_id wb)) as [f|e]; cbn [res world] in Hrun;
    [|destruct Hrun; congruence].
  rewrite !get_connections_classified in Hrun.
  rewrite get_connections_keeps in Hrun.
  destruct (classified E f) as [conns|e]; [|destruct Hrun; congruence].
  destruct (res (count_missing_query_tag U conns 0 _)) as [n|e] eqn:Hn;
    [|destruct Hrun; congruence].
  apply count_missing_res in Hn. simpl in Hn. subst n. apply Hrun.
Qed.

Lemma audit_loop_ok_updates (U : Unicode.tables) (E : Env) (t : tag)
  (wbs : list WorkbookItem) (w : World) :
  res (for_each wbs (audit_workbook U E t) w) = Ok tt ->
  updates (out (for_each wbs (audit_workbook U E t) w))
    = flat_map (to_tag U E t) wbs.
Proof.
  revert w. induction wbs as [|wb wbs IH]; intros w; simpl; [reflexivity|].
  rewrite res_bind. unfold updates. rewrite flat_map_out_bind.
  destruct (res (audit_workbook U E t wb w)) as [[]|e] eqn:Hwb; [|discriminate].
  intros H. fold (updates (out (audit_workbook U E t wb w))).
  rewrite (audit_workbook_ok_updates U E t wb w Hwb). f_equal.
  apply IH, H.
Qed.

(** The shape of a run that ends: what comes before the filter, the
    filter, the loop over its result, and what comes after. *)
Lemma main_ok_out (U : Unicode.tables) (E : Env) (w : World) :
  res (main U E w) = Ok tt ->
  exists req wbs w0 pre post,
    res (filter_wbs_with_snowflake_connections E req w0) = Ok wbs /\
    res (for_each wbs (audit_workbook U E (env_getenv E (py "TABLEAU_TAG"))) w0)
      = Ok tt /\
    out (main U E w) =
      pre ++ out (filter_wbs_with_snowflake_connections E req w0)
      ++ out (for_each wbs
                (audit_workbook U E (env_getenv E (py "TABLEAU_TAG"))) w0)
      ++ post /\
    (forall X (g : event -> list X),
        ignores_log g -> (forall p, g (EvMakedirs p) = []) ->
        (forall a b c d, g (EvSignIn a b c d) = []) -> flat_map g pre = []) /\
    (forall X (g : event -> list X),
        ignores_log g -> (forall c, g (EvWriteConfig c) = []) ->
        flat_map g post = []).
Proof.
  unfold main. intros H.
  apply bind_ok_inv in H as ([] & _ & H & -> & _).
  set (o0 := ensure_content_dir w) in *. set (w0 := world o0) in *.
  apply bind_ok_inv in H as ([] & _ & H & -> & _).
  rewrite create_tableau_session_keeps in *.
  set (o1 := create_tableau_session E _ _ _ _ w0) in *.
  apply bind_ok_inv in H as (req & _ & H & -> & _).
  rewrite get_workbooks_from_config_keeps in *.
  apply bind_ok_inv in H as (wbs & Hf & H & -> & _).
  rewrite filter_wbs_keeps in *.
  apply bind_ok_inv in H as ([] & Hloop & H & -> & _).
  exists req, wbs, w0, (out o0 ++ out o1 ++ out (get_workbooks_from_config w0)).
  eexists. split; [exact Hf|]. split; [exact Hloop|]. split; [|split].
  - rewrite <- !app_assoc. reflexivity.
  - intros X g Hlog Hm Hs. rewrite !flat_map_app. unfold o0, o1.
    rewrite (ensure_content_dir_quiet g Hm w).
    rewrite (create_tableau_session_quiet E g _ _ _ _ Hlog Hs w0).
    rewrite (get_workbooks_from_config_quiet g Hlog w0). reflexivity.
  - intros X g Hlog Hw.
    apply (emits_none_bind g (update_workbook_config_with_date_checkpoint E));
      [apply update_config_quiet; assumption|].
    intros d w'. simpl. rewrite Hlog. reflexivity.
Qed.

(** X23: in a run that ends, the workbooks sent to the update operation
    are, in the order of the listing, the listed workbooks for which the
    server lists a Snowflake connection and whose downloaded file holds
    at least one Snowflake connection without the query tag, each with
    the tag of the environment added; the listing is that of the one
    request options the run has sent, once per page. *)
Theorem main_tags_the_non_compliant (U : Unicode.tables) (E : Env) (w : World) :
  res (main U E w) = Ok tt ->
  exists req,
    queries (out (main U E w)) = repeat req (requests (env_pager E req)) /\
    updates (out (main U E w)) =
      flat_map (to_tag U E (env_getenv E (py "TABLEAU_TAG")))
        (List.filter (has_snowflake_connection E) (listed (env_pager E req))).
Proof.
  intros Hok.
  destruct (main_ok_out U E w Hok)
    as (req & wbs & w0 & pre & post & Hf & Hloop & -> & Hpre & Hpost).
  destruct (filter_wbs_run E req w0) as (_ & _ & Hfok & _).
  destruct (Hfok wbs Hf) as (Hwbs & _ & _ & Hq). unfold queries in Hq.
  exists req. unfold queries, updates in *. rewrite !flat_map_app. split.
  - rewrite Hq, (Hpre _ query_of), (Hpost _ query_of);
      try (hnf; intros; reflexivity).
    rewrite (emits_none_for_each query_of wbs);
      [apply app_nil_r|].
    intros wb. apply audit_workbook_quiet; hnf; intros; reflexivity.
  - rewrite (Hpre _ update_of), (Hpost _ update_of);
      try (hnf; intros; reflexivity).
    rewrite (filter_wbs_quiet E update_of req
               (fun _ => eq_refl) (fun _ => eq_refl) (fun _ => eq_refl)).
    fold (updates (out (for_each wbs
            (audit_workbook U E (env_getenv E (py "TABLEAU_TAG"))) w0))).
    rewrite (audit_loop_ok_updates U E _ wbs w0 Hloop), Hwbs.
    simpl. apply app_nil_r.
Qed.

Lemma main_tags_the_non_compliant_sample :
  updates (out (main Sample.tables Sample.env Sample.start))
  = [tagged Sample.sales (Some Sample.remediation_tag)].
Proof.
  destruct (main_tags_the_non_compliant Sample.tables Sample.env Sample.start
              ltac:(vm_compute; reflexivity)) as (req & _ & Hu).
  rewrite Hu. vm_compute. reflexivity.
Defined.
